(** * Message parser of the ingestion layer: protocol detection and field extraction

    A shallow embedding of [src/ingestion/parser_wrapper.py] (class
    [MessageParser] and the enumerations and record it returns), together
    with the fragments of the Python runtime the parser calls:
    [bytes.decode] / [str.encode] for UTF-8, [str.split], [str.lstrip],
    [str.lower], [int()], [float()], [json.loads] and integer true division.

    Conventions.
    - [bytes] is [list byte]; [str] is the list of the code points of a
      Python string (a Python [str] may hold lone surrogates, so may ours).
    - Python values that reach the parser through [json.loads] are [pyvalue].
    - Python [float] is IEEE binary64, modelled by [spec_float] with
      precision 53 and maximal exponent 1024.
    - A Python computation that may raise is a [res]: [Ret v] or [Raise e].
    - The wall clock read by [_get_current_timestamp_ns] is an argument
      [now] of [parse_message]. *)

From Stdlib Require Import ZArith List Bool String Ascii Lia.
From Stdlib Require Import Strings.Byte.
From Stdlib Require Import Floats.SpecFloat.
From stdpp Require Import gmap.

Local Open Scope Z_scope.

(* ===================================================================== *)
(** * Part I. Definitions                                                  *)
(* ===================================================================== *)

(** ** Exceptions and the result monad *)

(** The exception classes that the modelled fragment of Python can raise.
    All of them derive from [Exception]. *)
Inductive exn : Type :=
| JSONDecodeError
| UnicodeDecodeError
| UnicodeEncodeError
| ValueError
| KeyError
| TypeError
| AttributeError
| OverflowError
| ZeroDivisionError
| RecursionError.

(** [isinstance(e, ValueError)]: [json.JSONDecodeError] and the two
    [UnicodeError] classes are subclasses of [ValueError]. *)
Definition isinstance_ValueError (e : exn) : bool :=
  match e with
  | JSONDecodeError | UnicodeDecodeError | UnicodeEncodeError | ValueError => true
  | _ => false
  end.

Definition isinstance_KeyError (e : exn) : bool :=
  match e with KeyError => true | _ => false end.

Inductive res (A : Type) : Type :=
| Ret (a : A)
| Raise (e : exn).
Arguments Ret {A} a.
Arguments Raise {A} e.

Definition bind {A B : Type} (m : res A) (k : A -> res B) : res B :=
  match m with
  | Ret a => k a
  | Raise e => Raise e
  end.

Notation "'let*' x ':=' m 'in' k" := (bind m (fun x => k))
  (at level 10, x pattern, m at level 100, k at level 200).

(** [try: body except classes: handler] where [classes] is given by its
    [isinstance] test. *)
Definition try_except {A : Type} (body : res A) (catches : exn -> bool)
    (handler : res A) : res A :=
  match body with
  | Ret a => Ret a
  | Raise e => if catches e then handler else Raise e
  end.

(** ** Strings and byte strings *)

Definition str : Type := list Z.
Definition bytes : Type := list byte.

#[global] Instance byte_eq_dec : EqDecision byte.
Proof.
  intros x y. destruct (Byte.eqb x y) eqn:E.
  - left. apply Byte.byte_dec_bl, E.
  - right. intros ->. rewrite Byte.byte_dec_lb in E; [discriminate | reflexivity].
Defined.

Definition Z_of_byte (b : byte) : Z := Z.of_N (Byte.to_N b).

Definition byte_of_Z (z : Z) : byte :=
  match Byte.of_N (Z.to_N (z mod 256)) with
  | Some b => b
  | None => x00
  end.

(** Literals.  [blit] is a byte-string literal and [lit] an ASCII [str]
    literal.  In [bq] an apostrophe stands for the double quote (byte 0x22)
    and in [bsoh] a semicolon stands for the SOH control byte 0x01. *)
Definition blit (s : string) : bytes := list_byte_of_string s.
Definition lit (s : string) : str := map Z_of_byte (blit s).
Definition bq (s : string) : bytes :=
  map (fun b => match b with x27 => x22 | _ => b end) (blit s).
Definition bsoh (s : string) : bytes :=
  map (fun b => match b with x3b => x01 | _ => b end) (blit s).

Definition str_eqb (a b : str) : bool := bool_decide (a = b).

(** [s.startswith(p)] *)
Fixpoint str_startswith {A : Type} `{EqDecision A} (s p : list A) {struct p} : bool :=
  match p, s with
  | [], _ => true
  | _ :: _, [] => false
  | y :: p', x :: s' => bool_decide (x = y) && str_startswith s' p'
  end.

(** [Py_UNICODE_ISSPACE]: the code points [str.isspace] accepts, which
    [str.lstrip()] and [str.strip()] remove. *)
Definition unicode_isspace (c : Z) : bool :=
  ((0x09 <=? c) && (c <=? 0x0D)) || ((0x1C <=? c) && (c <=? 0x20))
  || (c =? 0x85) || (c =? 0xA0) || (c =? 0x1680)
  || ((0x2000 <=? c) && (c <=? 0x200A))
  || (c =? 0x2028) || (c =? 0x2029) || (c =? 0x202F) || (c =? 0x205F)
  || (c =? 0x3000).

(** [s.lstrip()] *)
Fixpoint str_lstrip (s : str) : str :=
  match s with
  | c :: s' => if unicode_isspace c then str_lstrip s' else s
  | [] => []
  end.

(** [s.split(sep)] for a one-character separator: every occurrence of
    [sep] ends a piece, empty pieces are kept. *)
Fixpoint str_split (sep : Z) (s : str) : list str :=
  match s with
  | [] => [[]]
  | c :: s' =>
      if c =? sep then [] :: str_split sep s'
      else match str_split sep s' with
           | piece :: pieces => (c :: piece) :: pieces
           | [] => [[c]]
           end
  end.

(** [s.replace(old, new)] for one-character [old] and [new]. *)
Definition str_replace (old new : Z) (s : str) : str :=
  map (fun c => if c =? old then new else c) s.

(** [sep in s] for a one-character [sep]. *)
Definition str_contains (sep : Z) (s : str) : bool := existsb (Z.eqb sep) s.

(** [s.split(sep, 1)] on a string that contains [sep]: the part before the
    first occurrence and the part after it. *)
Fixpoint str_split_once (sep : Z) (s : str) : str * str :=
  match s with
  | [] => ([], [])
  | c :: s' =>
      if c =? sep then ([], s')
      else let '(a, b) := str_split_once sep s' in (c :: a, b)
  end.

(** [s.lower()], as far as the parser can observe it.  The parser only
    compares the lowered string with ASCII keywords.  ASCII capitals map to
    their small letters; the only two other code points whose lowercase
    form contains an ASCII letter are U+0130 and U+212A (KELVIN SIGN).
    Every other non-ASCII code point is left as it is here: its lowercase
    form contains no ASCII character, so no comparison with an ASCII
    keyword is affected. *)
Definition lower_char (c : Z) : list Z :=
  if (0x41 <=? c) && (c <=? 0x5A) then [c + 32]
  else if c =? 0x130 then [0x69; 0x307]
  else if c =? 0x212A then [0x6B]
  else [c].

Definition str_lower (s : str) : str := flat_map lower_char s.

(** ** UTF-8 *)

Module Utf8.

Inductive errors : Type := strict | ignore | replace.

(** One step of CPython's decoder at the head of the remaining input:
    either a code point and the number of bytes it took, or an error and
    the number of bytes the error covers (invalid start byte: 1; invalid
    continuation byte: the bytes before it; unexpected end of data: all
    that is left). *)
Inductive step : Type :=
| Char (cp : Z) (n : nat)
| Error (n : nat).

Definition is_continuation (b : Z) : bool := (0x80 <=? b) && (b <? 0xC0).

Definition cp2 (a b : Z) : Z :=
  Z.lor (Z.shiftl (Z.land a 0x1F) 6) (Z.land b 0x3F).
Definition cp3 (a b c : Z) : Z :=
  Z.lor (Z.shiftl (Z.land a 0x0F) 12)
        (Z.lor (Z.shiftl (Z.land b 0x3F) 6) (Z.land c 0x3F)).
Definition cp4 (a b c d : Z) : Z :=
  Z.lor (Z.shiftl (Z.land a 0x07) 18)
        (Z.lor (Z.shiftl (Z.land b 0x3F) 12)
               (Z.lor (Z.shiftl (Z.land c 0x3F) 6) (Z.land d 0x3F))).

Definition decode_step (ch : Z) (rest : list Z) : step :=
  if ch <? 0x80 then Char ch 1
  else if ch <? 0xC2 then Error 1
  else if ch <? 0xE0 then
    match rest with
    | [] => Error 1
    | ch2 :: _ => if is_continuation ch2 then Char (cp2 ch ch2) 2 else Error 1
    end
  else if ch <? 0xF0 then
    match rest with
    | [] => Error 1
    | ch2 :: rest2 =>
        if negb (is_continuation ch2)
           || (if ch2 <? 0xA0 then ch =? 0xE0 else ch =? 0xED)
        then Error 1
        else match rest2 with
             | [] => Error 2
             | ch3 :: _ =>
                 if is_continuation ch3 then Char (cp3 ch ch2 ch3) 3
                 else Error 2
             end
    end
  else if ch <? 0xF5 then
    match rest with
    | [] => Error 1
    | ch2 :: rest2 =>
        if negb (is_continuation ch2)
           || (if ch2 <? 0x90 then ch =? 0xF0 else ch =? 0xF4)
        then Error 1
        else match rest2 with
             | [] => Error 2
             | ch3 :: rest3 =>
                 if negb (is_continuation ch3) then Error 2
                 else match rest3 with
                      | [] => Error 3
                      | ch4 :: _ =>
                          if is_continuation ch4
                          then Char (cp4 ch ch2 ch3 ch4) 4
                          else Error 3
                      end
             end
    end
  else Error 1.

(** The decoding loop.  [skip] counts the bytes of the current sequence
    (or error range) that are still to be passed over. *)
Fixpoint decode_loop (h : errors) (skip : nat) (s : list Z) : res str :=
  match s with
  | [] => Ret []
  | ch :: rest =>
      match skip with
      | S k => decode_loop h k rest
      | O =>
          match decode_step ch rest with
          | Char cp n =>
              let* out := decode_loop h (Nat.pred n) rest in Ret (cp :: out)
          | Error n =>
              match h with
              | strict => Raise UnicodeDecodeError
              | ignore => decode_loop h (Nat.pred n) rest
              | replace =>
                  let* out := decode_loop h (Nat.pred n) rest in
                  Ret (0xFFFD :: out)
              end
          end
      end
  end.

(** [data.decode('utf-8', errors=h)] *)
Definition decode (h : errors) (data : bytes) : res str :=
  decode_loop h 0 (map Z_of_byte data).

(** [data.decode('utf-8', errors='ignore')] cannot raise. *)
Definition decode_ignore (data : bytes) : str :=
  match decode ignore data with
  | Ret s => s
  | Raise _ => []
  end.

Definition is_surrogate (c : Z) : bool := (0xD800 <=? c) && (c <=? 0xDFFF).

Definition encode_char (c : Z) : list Z :=
  if c <? 0x80 then [c]
  else if c <? 0x800 then
    [Z.lor 0xC0 (Z.shiftr c 6); Z.lor 0x80 (Z.land c 0x3F)]
  else if c <? 0x10000 then
    [Z.lor 0xE0 (Z.shiftr c 12); Z.lor 0x80 (Z.land (Z.shiftr c 6) 0x3F);
     Z.lor 0x80 (Z.land c 0x3F)]
  else
    [Z.lor 0xF0 (Z.shiftr c 18); Z.lor 0x80 (Z.land (Z.shiftr c 12) 0x3F);
     Z.lor 0x80 (Z.land (Z.shiftr c 6) 0x3F); Z.lor 0x80 (Z.land c 0x3F)].

(** [s.encode('utf-8')]: a surrogate code point cannot be encoded. *)
Fixpoint encode (s : str) : res bytes :=
  match s with
  | [] => Ret []
  | c :: s' =>
      if is_surrogate c then Raise UnicodeEncodeError
      else let* out := encode s' in
           Ret (map byte_of_Z (encode_char c) ++ out)
  end.

End Utf8.

(** ** Python floats: IEEE binary64 *)

Module Float.

Definition prec : Z := 53.
Definition emax : Z := 1024.

Definition zero : spec_float := S754_zero false.
Definition one : spec_float := SFone prec emax.
Definition two : spec_float := binary_normalize prec emax 2 0 false.

Definition add : spec_float -> spec_float -> spec_float := SFadd prec emax.
Definition div : spec_float -> spec_float -> spec_float := SFdiv prec emax.

(** The dyadic number [m * 2^e], rounded to nearest even. *)
Definition of_dyadic (m e : Z) : spec_float := binary_normalize prec emax m e false.

(** The integer [n], rounded to nearest even (infinite when too large). *)
Definition of_Z (n : Z) : spec_float := of_dyadic n 0.

(** The quotient of two positive integers, rounded to nearest even. *)
Definition of_ratio (neg : bool) (p q : positive) : spec_float :=
  div (S754_finite neg p 0) (S754_finite false q 0).

(** The decimal number [(-1)^neg * m * 10^e], rounded to nearest even:
    what [strtod] returns for a decimal numeral. *)
Definition of_decimal (neg : bool) (m e : Z) : spec_float :=
  match m with
  | Zpos p =>
      if 0 <=? e then binary_round prec emax neg (p * Z.to_pos (10 ^ e)) 0
      else of_ratio neg p (Z.to_pos (10 ^ (- e)))
  | _ => S754_zero neg
  end.

Definition is_infinite (f : spec_float) : bool :=
  match f with S754_infinity _ => true | _ => false end.

(** [bool(f)]: every float but the two zeros is true. *)
Definition truthy (f : spec_float) : bool :=
  match f with S754_zero _ => false | _ => true end.

(** [int(f)]: truncation towards zero. *)
Definition to_Z (f : spec_float) : res Z :=
  match f with
  | S754_zero _ => Ret 0
  | S754_infinity _ => Raise OverflowError
  | S754_nan => Raise ValueError
  | S754_finite s m e =>
      let a := if 0 <=? e then Z.pos m * 2 ^ e else Z.pos m / 2 ^ (- e) in
      Ret (if s then - a else a)
  end.

End Float.

(** ** Python values *)

(** The values [json.loads] builds.  A dictionary is the list of its
    (key, value) pairs in source order; a key that occurs again overrides
    the earlier occurrence, see [dict_get]. *)
#[local] Unset Elimination Schemes.
Inductive pyvalue : Type :=
| PNone
| PBool (b : bool)
| PInt (n : Z)
| PFloat (f : spec_float)
| PStr (s : str)
| PList (l : list pyvalue)
| PDict (d : list (str * pyvalue)).
#[local] Set Elimination Schemes.

Definition pydict : Type := list (str * pyvalue).

(** [bool(v)], the truth value used by [not v] and [if v]. *)
Definition truthy (v : pyvalue) : bool :=
  match v with
  | PNone => false
  | PBool b => b
  | PInt n => negb (n =? 0)
  | PFloat f => Float.truthy f
  | PStr s => match s with [] => false | _ => true end
  | PList l => match l with [] => false | _ => true end
  | PDict d => match d with [] => false | _ => true end
  end.

(** The last binding of [k], if any. *)
Fixpoint dict_get (d : pydict) (k : str) : option pyvalue :=
  match d with
  | [] => None
  | (k', v) :: d' =>
      match dict_get d' k with
      | Some w => Some w
      | None => if str_eqb k' k then Some v else None
      end
  end.

(** [k in d] *)
Definition dict_mem (d : pydict) (k : str) : bool :=
  match dict_get d k with Some _ => true | None => false end.

(** [obj.get(k, default)]: only dictionaries have the method. *)
Definition py_get (obj : pyvalue) (k : str) (default : pyvalue) : res pyvalue :=
  match obj with
  | PDict d => Ret (match dict_get d k with Some v => v | None => default end)
  | _ => Raise AttributeError
  end.

(** [k in obj] for the values [json.loads] returns: membership in a
    dictionary, in a list (never a string: lists hold JSON values and we
    only ask for keys that are strings, compared by [==]), substring test
    on a string; the other values are not containers. *)
Definition pyvalue_is_str (v : pyvalue) (k : str) : bool :=
  match v with PStr s => str_eqb s k | _ => false end.

Fixpoint is_infix (k s : str) : bool :=
  str_startswith s k || match s with [] => false | _ :: s' => is_infix k s' end.

Definition py_contains (obj : pyvalue) (k : str) : res bool :=
  match obj with
  | PDict d => Ret (dict_mem d k)
  | PList l => Ret (existsb (fun v => pyvalue_is_str v k) l)
  | PStr s => Ret (is_infix k s)
  | _ => Raise TypeError
  end.

(** [obj[k]] for a string key. *)
Definition py_getitem (obj : pyvalue) (k : str) : res pyvalue :=
  match obj with
  | PDict d => match dict_get d k with Some v => Ret v | None => Raise KeyError end
  | _ => Raise TypeError
  end.

(** [v.lower()]: only strings have the method. *)
Definition py_lower (v : pyvalue) : res str :=
  match v with
  | PStr s => Ret (str_lower s)
  | _ => Raise AttributeError
  end.

(** ** Numerals: [int(s)] and [float(s)] on strings *)

Module Num.

(** The code points of the digit zero of every decimal digit system of
    Unicode 14.0 (general category Nd): the ten digits of a system are
    consecutive.  [int] and [float] accept all of them. *)
Definition decimal_zeros : list Z :=
  [
   0x30; 0x660; 0x6F0; 0x7C0; 0x966; 0x9E6; 0xA66; 0xAE6;
   0xB66; 0xBE6; 0xC66; 0xCE6; 0xD66; 0xDE6; 0xE50; 0xED0;
   0xF20; 0x1040; 0x1090; 0x17E0; 0x1810; 0x1946; 0x19D0; 0x1A80;
   0x1A90; 0x1B50; 0x1BB0; 0x1C40; 0x1C50; 0xA620; 0xA8D0; 0xA900;
   0xA9D0; 0xA9F0; 0xAA50; 0xABF0; 0xFF10; 0x104A0; 0x10D30; 0x11066;
   0x110F0; 0x11136; 0x111D0; 0x112F0; 0x11450; 0x114D0; 0x11650; 0x116C0;
   0x11730; 0x118E0; 0x11950; 0x11C50; 0x11D50; 0x11DA0; 0x16A60; 0x16AC0;
   0x16B50; 0x1D7CE; 0x1D7D8; 0x1D7E2; 0x1D7EC; 0x1D7F6; 0x1E140; 0x1E2F0;
   0x1E950; 0x1FBF0].

(** [Py_UNICODE_TODECIMAL] *)
Definition unicode_todecimal (c : Z) : option Z :=
  match find (fun z => (z <=? c) && (c <=? z + 9)) decimal_zeros with
  | Some z => Some (c - z)
  | None => None
  end.

(** [_PyUnicode_TransformDecimalAndSpaceToASCII], one code point at a
    time: ASCII is kept, a Unicode space becomes a blank, a Unicode decimal
    digit its ASCII digit, and anything else a question mark, which no
    numeral contains. *)
Definition to_ascii (c : Z) : Z :=
  if c <? 127 then c
  else if unicode_isspace c then 0x20
  else match unicode_todecimal c with
       | Some d => 0x30 + d
       | None => 0x3F
       end.

(** [Py_ISSPACE] and [Py_ISDIGIT] *)
Definition isspace (c : Z) : bool := ((9 <=? c) && (c <=? 13)) || (c =? 32).
Definition isdigit (c : Z) : bool := (0x30 <=? c) && (c <=? 0x39).

Fixpoint lstrip_space (s : str) : str :=
  match s with
  | c :: s' => if isspace c then lstrip_space s' else s
  | [] => []
  end.

Definition strip_space (s : str) : str :=
  rev (lstrip_space (rev (lstrip_space s))).

(** An optional sign: whether it is a minus, and what follows. *)
Definition take_sign (s : str) : bool * str :=
  match s with
  | 0x2D :: s' => (true, s')
  | 0x2B :: s' => (false, s')
  | _ => (false, s)
  end.

Definition digits_to_Z (ds : list Z) : Z :=
  fold_left (fun acc d => 10 * acc + d) ds 0.

(** The digits of a run of digits in which single underscores may
    separate digits; [None] when the run is empty, starts or ends with an
    underscore, has two underscores in a row or another character. *)
Fixpoint scan_digits (prev_digit : bool) (s : str) : option (list Z) :=
  match s with
  | [] => if prev_digit then Some [] else None
  | c :: s' =>
      if isdigit c then option_map (cons (c - 0x30)) (scan_digits true s')
      else if (c =? 0x5F) && prev_digit then scan_digits false s'
      else None
  end.

(** [sys.get_int_max_str_digits()]: the default limit of CPython 3.11 on
    the number of digits of a decimal numeral converted to [int]. *)
Definition int_max_str_digits : nat := 4300.

(** [int(s)] for a string [s] (base 10). *)
Definition int_of_str (s : str) : res Z :=
  let '(neg, body) := take_sign (strip_space (map to_ascii s)) in
  match scan_digits false body with
  | None => Raise ValueError
  | Some ds =>
      if (int_max_str_digits <? length ds)%nat then Raise ValueError
      else Ret (if neg then - digits_to_Z ds else digits_to_Z ds)
  end.

(** Removal of the underscores of a float numeral: an underscore must
    stand between two digits.  [prev] is the previous character. *)
Fixpoint remove_underscores (prev : Z) (s : str) : option str :=
  match s with
  | [] => if prev =? 0x5F then None else Some []
  | c :: s' =>
      if c =? 0x5F then
        if isdigit prev then remove_underscores c s' else None
      else if (prev =? 0x5F) && negb (isdigit c) then None
      else option_map (cons c) (remove_underscores c s')
  end.

Fixpoint span_digits (s : str) : list Z * str :=
  match s with
  | c :: s' =>
      if isdigit c then let '(ds, r) := span_digits s' in ((c - 0x30) :: ds, r)
      else ([], s)
  | [] => ([], [])
  end.

(** The exponent part of a decimal numeral, which must reach the end of
    the string: nothing, or [e], an optional sign and at least one digit. *)
Definition exponent_part (s : str) : option Z :=
  match s with
  | [] => Some 0
  | c :: s' =>
      if (c =? 0x65) || (c =? 0x45) then
        let '(neg, s'') := take_sign s' in
        match span_digits s'' with
        | ([], _) => None
        | (ds, []) => Some (if neg then - digits_to_Z ds else digits_to_Z ds)
        | (_, _ :: _) => None
        end
      else None
  end.

(** A decimal numeral without its sign: digits, an optional point and
    digits, at least one digit in all, and an optional exponent.  The
    result is the pair [(m, e)] of the number [m * 10^e]. *)
Definition decimal_numeral (s : str) : option (Z * Z) :=
  let '(ip, r1) := span_digits s in
  let '(fp, r2) :=
    match r1 with
    | 0x2E :: r => span_digits r
    | _ => ([], r1)
    end in
  match ip ++ fp with
  | [] => None
  | ds =>
      match exponent_part r2 with
      | Some ex => Some (digits_to_Z ds, ex - Z.of_nat (length fp))
      | None => None
      end
  end.

Definition ascii_lower (c : Z) : Z :=
  if (0x41 <=? c) && (c <=? 0x5A) then c + 32 else c.

(** [float(s)] for a string [s]. *)
Definition float_of_str (s : str) : res spec_float :=
  match remove_underscores 0 (strip_space (map to_ascii s)) with
  | None => Raise ValueError
  | Some t =>
      let '(neg, body) := take_sign t in
      match decimal_numeral body with
      | Some (m, e) => Ret (Float.of_decimal neg m e)
      | None =>
          let w := map ascii_lower body in
          if str_eqb w (lit "inf") || str_eqb w (lit "infinity")
          then Ret (S754_infinity neg)
          else if str_eqb w (lit "nan") then Ret S754_nan
          else Raise ValueError
      end
  end.

End Num.

(** [float(v)] *)
Definition py_float (v : pyvalue) : res spec_float :=
  match v with
  | PFloat f => Ret f
  | PInt n =>
      let f := Float.of_Z n in
      if Float.is_infinite f then Raise OverflowError else Ret f
  | PBool b => Ret (if b then Float.one else Float.zero)
  | PStr s => Num.float_of_str s
  | PNone | PList _ | PDict _ => Raise TypeError
  end.

(** [int(v)] *)
Definition py_int (v : pyvalue) : res Z :=
  match v with
  | PInt n => Ret n
  | PBool b => Ret (if b then 1 else 0)
  | PFloat f => Float.to_Z f
  | PStr s => Num.int_of_str s
  | PNone | PList _ | PDict _ => Raise TypeError
  end.

(** [a / b] on two [int]s: the exact quotient rounded to nearest even. *)
Definition py_truediv (a b : Z) : res spec_float :=
  match a, b with
  | _, Z0 => Raise ZeroDivisionError
  | Z0, Zpos _ => Ret (S754_zero false)
  | Z0, Zneg _ => Ret (S754_zero true)
  | Zpos p, Zpos q => 
      let f := Float.of_ratio false p q in
      if Float.is_infinite f then Raise OverflowError else Ret f
  | Zneg p, Zneg q =>
      let f := Float.of_ratio false p q in
      if Float.is_infinite f then Raise OverflowError else Ret f
  | Zpos p, Zneg q | Zneg p, Zpos q =>
      let f := Float.of_ratio true p q in
      if Float.is_infinite f then Raise OverflowError else Ret f
  end.

(** ** [json.loads] *)

(** The decoder of the [json] module with its default settings, as the C
    scanner implements it: a tokenizer for punctuation, strings, numbers
    and constants, and a pushdown automaton over the tokens.  Whitespace
    (blank, tab, line feed, carriage return) may separate tokens.  Each
    open array or object takes one level of the interpreter's recursion
    budget; [depth] is the number of levels left when [json.loads] is
    called, and a container nested deeper raises [RecursionError]. *)
Module Json.

Inductive token : Type :=
| TLBrace | TRBrace | TLBracket | TRBracket | TComma | TColon
| TString (s : str)
| TNumber (is_float : bool) (text : str)
| TConst (v : pyvalue).

Definition is_whitespace (c : Z) : bool :=
  (c =? 0x20) || (c =? 0x09) || (c =? 0x0A) || (c =? 0x0D).

Definition hex_digit (c : Z) : option Z :=
  if (0x30 <=? c) && (c <=? 0x39) then Some (c - 0x30)
  else if (0x61 <=? c) && (c <=? 0x66) then Some (c - 0x61 + 10)
  else if (0x41 <=? c) && (c <=? 0x46) then Some (c - 0x41 + 10)
  else None.

Definition hex4 (a b c d : Z) : option Z :=
  match hex_digit a, hex_digit b, hex_digit c, hex_digit d with
  | Some x, Some y, Some z, Some w => Some (((x * 16 + y) * 16 + z) * 16 + w)
  | _, _, _, _ => None
  end.

Definition simple_escape (c : Z) : option Z :=
  if c =? 0x22 then Some 0x22        (* quote *)
  else if c =? 0x5C then Some 0x5C   (* backslash *)
  else if c =? 0x2F then Some 0x2F   (* slash *)
  else if c =? 0x62 then Some 0x08   (* b *)
  else if c =? 0x66 then Some 0x0C   (* f *)
  else if c =? 0x6E then Some 0x0A   (* n *)
  else if c =? 0x72 then Some 0x0D   (* r *)
  else if c =? 0x74 then Some 0x09   (* t *)
  else None.

Definition is_high_surrogate (c : Z) : bool := (0xD800 <=? c) && (c <=? 0xDBFF).
Definition is_low_surrogate (c : Z) : bool := (0xDC00 <=? c) && (c <=? 0xDFFF).
Definition join_surrogates (hi lo : Z) : Z :=
  0x10000 + Z.lor (Z.shiftl (hi - 0xD800) 10) (lo - 0xDC00).

Definition emit (c : Z) (n : nat) (r : option (str * nat)) : option (str * nat) :=
  match r with
  | Some (s, k) => Some (c :: s, (n + k)%nat)
  | None => None
  end.

(** The contents of a string literal, from the character after the opening
    quote: the decoded string and the number of characters read, closing
    quote included; [None] for an unterminated string, a control
    character, or a bad escape. *)
Fixpoint scan_string (s : str) : option (str * nat) :=
  match s with
  | [] => None
  | c :: r =>
      if c =? 0x22 then Some ([], 1%nat)
      else if c =? 0x5C then
        match r with
        | [] => None
        | e :: r2 =>
            if e =? 0x75 then
              match r2 with
              | h1 :: h2 :: h3 :: h4 :: r6 =>
                  match r6, hex4 h1 h2 h3 h4 with
                  | [], _ => None
                  | _, None => None
                  | _, Some u =>
                      if is_high_surrogate u then
                        match r6 with
                        | 0x5C :: 0x75 :: g1 :: g2 :: g3 :: g4 :: r12 =>
                            match r12, hex4 g1 g2 g3 g4 with
                            | [], _ => emit u 6 (scan_string r6)
                            | _, None => None
                            | _, Some v =>
                                if is_low_surrogate v
                                then emit (join_surrogates u v) 12 (scan_string r12)
                                else emit u 6 (scan_string r6)
                            end
                        | _ => emit u 6 (scan_string r6)
                        end
                      else emit u 6 (scan_string r6)
                  end
              | _ => None
              end
            else
              match simple_escape e with
              | Some ch => emit ch 2 (scan_string r2)
              | None => None
              end
        end
      else if c <=? 0x1F then None
      else emit c 1 (scan_string r)
  end.

Fixpoint span_digit_chars (s : str) : str * str :=
  match s with
  | c :: s' =>
      if Num.isdigit c then let '(ds, r) := span_digit_chars s' in (c :: ds, r)
      else ([], s)
  | [] => ([], [])
  end.

(** The longest prefix of [s] that is a JSON number, and whether it has a
    fraction or an exponent.  A number is an optional minus sign; a zero,
    or a digit from 1 to 9 and any digits; optionally a point and one digit
    or more; optionally [e] or [E], an optional sign and one digit or
    more. *)
Definition match_number (s : str) : option (bool * str) :=
  let '(sign, s1) :=
    match s with
    | 0x2D :: r => ([0x2D], r)
    | _ => ([], s)
    end in
  let int_part :=
    match s1 with
    | [] => None
    | d :: r =>
        if d =? 0x30 then Some ([d], r)
        else if Num.isdigit d then Some (span_digit_chars s1)
        else None
    end in
  match int_part with
  | None => None
  | Some (ip, r1) =>
      let '(fp, r2) :=
        match r1 with
        | 0x2E :: d :: r =>
            if Num.isdigit d
            then let '(ds, r') := span_digit_chars (d :: r) in (0x2E :: ds, r')
            else ([], r1)
        | _ => ([], r1)
        end in
      let ep :=
        match r2 with
        | e :: r =>
            if (e =? 0x65) || (e =? 0x45) then
              let '(sg, r') :=
                match r with
                | 0x2D :: t => ([0x2D], t)
                | 0x2B :: t => ([0x2B], t)
                | _ => ([], r)
                end in
              match span_digit_chars r' with
              | ([], _) => []
              | (ds, _) => e :: sg ++ ds
              end
            else []
        | [] => []
        end in
      Some (match fp, ep with [], [] => false | _, _ => true end,
            sign ++ ip ++ fp ++ ep)
  end.

(** The token that starts with the character [c], followed by [rest], and
    the number of characters it spans. *)
Definition next_token (c : Z) (rest : str) : res (token * nat) :=
  let const (tail : str) (v : pyvalue) : res (token * nat) :=
    if str_startswith rest tail
    then Ret (TConst v, S (length tail))
    else Raise JSONDecodeError in
  let number : res (token * nat) :=
    match match_number (c :: rest) with
    | Some (is_float, text) => Ret (TNumber is_float text, length text)
    | None => Raise JSONDecodeError
    end in
  if c =? 0x7B then Ret (TLBrace, 1%nat)
  else if c =? 0x7D then Ret (TRBrace, 1%nat)
  else if c =? 0x5B then Ret (TLBracket, 1%nat)
  else if c =? 0x5D then Ret (TRBracket, 1%nat)
  else if c =? 0x2C then Ret (TComma, 1%nat)
  else if c =? 0x3A then Ret (TColon, 1%nat)
  else if c =? 0x22 then
    match scan_string rest with
    | Some (s, n) => Ret (TString s, S n)
    | None => Raise JSONDecodeError
    end
  else if c =? 0x6E then const (lit "ull") PNone
  else if c =? 0x74 then const (lit "rue") (PBool true)
  else if c =? 0x66 then const (lit "alse") (PBool false)
  else if c =? 0x4E then const (lit "aN") (PFloat S754_nan)
  else if c =? 0x49 then const (lit "nfinity") (PFloat (S754_infinity false))
  else if (c =? 0x2D) && str_startswith rest (lit "Infinity")
  then Ret (TConst (PFloat (S754_infinity true)), 9%nat)
  else number.

(** An open container: the elements of an array read so far, or the pairs
    of an object read so far and the key whose value is being read; both
    lists latest first. *)
Inductive frame : Type :=
| FArr (elems : list pyvalue)
| FObj (pairs : pydict) (key : option str).

Inductive expect : Type :=
| EValue          (* a value *)
| EValueOrClose   (* after an opening bracket: a value or the closing one *)
| EKeyOrClose     (* after an opening brace: a key or the closing one *)
| EKey            (* after a comma in an object: a key *)
| EColon          (* after a key *)
| ECommaOrClose   (* after a value inside a container *)
| EDone (v : pyvalue).

Definition state : Type := (list frame * expect)%type.

(** A value is complete: it is the result, or goes into the innermost
    open container. *)
Definition complete (stack : list frame) (v : pyvalue) : res state :=
  match stack with
  | [] => Ret ([], EDone v)
  | FArr es :: st => Ret (FArr (v :: es) :: st, ECommaOrClose)
  | FObj ps (Some k) :: st => Ret (FObj ((k, v) :: ps) None :: st, ECommaOrClose)
  | FObj _ None :: _ => Raise JSONDecodeError
  end.

Definition open (depth : nat) (stack : list frame) (f : frame) (e : expect)
    : res state :=
  if (length stack <? depth)%nat then Ret (f :: stack, e)
  else Raise RecursionError.

Definition number_value (is_float : bool) (text : str) : res pyvalue :=
  if is_float then let* f := Num.float_of_str text in Ret (PFloat f)
  else let* n := Num.int_of_str text in Ret (PInt n).

Definition start_value (depth : nat) (stack : list frame) (tok : token)
    : res state :=
  match tok with
  | TString s => complete stack (PStr s)
  | TNumber is_float text =>
      let* v := number_value is_float text in complete stack v
  | TConst v => complete stack v
  | TLBrace => open depth stack (FObj [] None) EKeyOrClose
  | TLBracket => open depth stack (FArr []) EValueOrClose
  | _ => Raise JSONDecodeError
  end.

Definition set_key (stack : list frame) (k : str) : res state :=
  match stack with
  | FObj ps None :: st => Ret (FObj ps (Some k) :: st, EColon)
  | _ => Raise JSONDecodeError
  end.

Definition feed (depth : nat) (st : state) (tok : token) : res state :=
  let '(stack, e) := st in
  match e with
  | EValue => start_value depth stack tok
  | EValueOrClose =>
      match tok, stack with
      | TRBracket, FArr [] :: stack' => complete stack' (PList [])
      | TRBracket, _ => Raise JSONDecodeError
      | _, _ => start_value depth stack tok
      end
  | EKeyOrClose =>
      match tok, stack with
      | TString k, _ => set_key stack k
      | TRBrace, FObj [] None :: stack' => complete stack' (PDict [])
      | _, _ => Raise JSONDecodeError
      end
  | EKey =>
      match tok with
      | TString k => set_key stack k
      | _ => Raise JSONDecodeError
      end
  | EColon =>
      match tok with
      | TColon => Ret (stack, EValue)
      | _ => Raise JSONDecodeError
      end
  | ECommaOrClose =>
      match tok, stack with
      | TComma, FArr _ :: _ => Ret (stack, EValue)
      | TRBracket, FArr es :: stack' => complete stack' (PList (rev es))
      | TComma, FObj _ None :: _ => Ret (stack, EKey)
      | TRBrace, FObj ps None :: stack' => complete stack' (PDict (rev ps))
      | _, _ => Raise JSONDecodeError
      end
  | EDone _ => Raise JSONDecodeError
  end.

(** The scanning loop; [skip] counts the characters of the current token
    still to be passed over. *)
Fixpoint scan (depth : nat) (st : state) (skip : nat) (s : str) : res pyvalue :=
  match s with
  | [] =>
      match st with
      | (_, EDone v) => Ret v
      | _ => Raise JSONDecodeError
      end
  | c :: rest =>
      match skip with
      | S k => scan depth st k rest
      | O =>
          if is_whitespace c then scan depth st 0%nat rest
          else
            let* (tok, n) := next_token c rest in
            let* st' := feed depth st tok in
            scan depth st' (Nat.pred n) rest
      end
  end.

(** [json.loads(s)] for a [str] *)
Definition loads (depth : nat) (s : str) : res pyvalue :=
  match s with
  | 0xFEFF :: _ => Raise JSONDecodeError
  | _ => scan depth ([], EValue) 0%nat s
  end.

End Json.

(** ** The field model *)

Module Side.
Inductive t : Type := UNKNOWN | BUY | SELL.
End Side.

Module MessageType.
Inductive t : Type :=
| UNKNOWN | NEW_ORDER | CANCEL_ORDER | MODIFY_ORDER | TRADE | QUOTE | MARKET_DATA.
End MessageType.

Module ProtocolType.
Inductive t : Type := UNKNOWN | FIX | WEBSOCKET_JSON.
End ProtocolType.

Module ParseResult.
Inductive t : Type :=
| SUCCESS | INVALID_FORMAT | INCOMPLETE_MESSAGE | UNKNOWN_PROTOCOL | BUFFER_OVERFLOW.
End ParseResult.

(** The dataclass [MarketMessage].  Python does not enforce the
  annotations of a dataclass: [symbol] holds whatever value the
  extractor assigns, hence a [pyvalue].  The other fields are only ever
  assigned the results of [int()], [float()] and the enumerations. *)
Module MarketMessage.

Record t : Type := mk {
  timestamp : Z;
  symbol : pyvalue;
  side : Side.t;
  price : spec_float;
  size : Z;
  message_type : MessageType.t
}.

(** [MarketMessage()] *)
Definition new : t :=
  {| timestamp := 0; symbol := PStr []; side := Side.UNKNOWN;
     price := Float.zero; size := 0; message_type := MessageType.UNKNOWN |}.

Definition set_timestamp (v : Z) (m : t) : t :=
  mk v (symbol m) (side m) (price m) (size m) (message_type m).
Definition set_symbol (v : pyvalue) (m : t) : t :=
  mk (timestamp m) v (side m) (price m) (size m) (message_type m).
Definition set_side (v : Side.t) (m : t) : t :=
  mk (timestamp m) (symbol m) v (price m) (size m) (message_type m).
Definition set_price (v : spec_float) (m : t) : t :=
  mk (timestamp m) (symbol m) (side m) v (size m) (message_type m).
Definition set_size (v : Z) (m : t) : t :=
  mk (timestamp m) (symbol m) (side m) (price m) v (message_type m).
Definition set_message_type (v : MessageType.t) (m : t) : t :=
  mk (timestamp m) (symbol m) (side m) (price m) (size m) v.

End MarketMessage.

(** What an extractor and [parse_message] return:
    [Tuple[ParseResult, Optional[MarketMessage]]]. *)
Definition outcome : Type := (ParseResult.t * option MarketMessage.t)%type.

Definition invalid_format : outcome := (ParseResult.INVALID_FORMAT, None).

(** ** class MessageParser *)

(** The attributes of a parser that its methods read or write. *)
Record MessageParser : Type := {
  _use_cpp : bool;
  messages_parsed : Z;
  parse_errors : Z
}.

(** [__init__]: [cpp_loaded] tells whether the shared library was asked
    for and could be loaded; both counters start at zero. *)
Definition MessageParser_init (cpp_loaded : bool) : MessageParser :=
  {| _use_cpp := cpp_loaded; messages_parsed := 0; parse_errors := 0 |}.

(** What one call of [parse_message] observes of the interpreter and the
    machine: the value [_get_current_timestamp_ns()] returns, and the
    recursion levels left for [json.loads]. *)
Record world : Type := {
  now : Z;
  recursion_depth : nat
}.

Definition _get_current_timestamp_ns (w : world) : Z := now w.

(** [_detect_protocol] *)
Definition _detect_protocol (data : bytes) : ProtocolType.t :=
  if (length data <? 2)%nat then ProtocolType.UNKNOWN
  else if str_startswith data (blit "8=") then ProtocolType.FIX
  else
    let data_str := str_lstrip (Utf8.decode_ignore data) in
    if str_startswith data_str (lit "{") then ProtocolType.WEBSOCKET_JSON
    else ProtocolType.UNKNOWN.

(** The loop of [_parse_fix_message] that fills the dictionary [fields]:
    a pair without [=] is skipped, a tag seen again overrides. *)
Definition fix_fields (pairs : list str) : gmap str str :=
  fold_left
    (fun fields pair =>
       if str_contains 0x3D pair then
         let '(tag, value) := str_split_once 0x3D pair in
         <[tag := value]> fields
       else fields)
    pairs ∅.

(** [try: x = body  except ValueError: return INVALID_FORMAT, None],
    followed by [k x]. *)
Definition except_ValueError_return {A : Type} (body : res A)
    (k : A -> res outcome) : res outcome :=
  match body with
  | Ret a => k a
  | Raise e => if isinstance_ValueError e then Ret invalid_format else Raise e
  end.

(** The blocks of [_parse_fix_message] that read the optional tags 54
    (side), 44 (price), 38 (order quantity) and 35 (message type) out of
    [fields] into [message]. *)
Definition fix_side (fields : gmap str str) (message : MarketMessage.t)
    : MarketMessage.t :=
  match fields !! lit "54" with
  | Some side_str =>
      if str_eqb side_str (lit "1")
      then MarketMessage.set_side Side.BUY message
      else if str_eqb side_str (lit "2")
      then MarketMessage.set_side Side.SELL message
      else message
  | None => message
  end.

Definition fix_price (fields : gmap str str) (message : MarketMessage.t)
    : res MarketMessage.t :=
  match fields !! lit "44" with
  | Some value =>
      let* p := Num.float_of_str value in
      Ret (MarketMessage.set_price p message)
  | None => Ret message
  end.

Definition fix_size (fields : gmap str str) (message : MarketMessage.t)
    : res MarketMessage.t :=
  match fields !! lit "38" with
  | Some value =>
      let* n := Num.int_of_str value in
      Ret (MarketMessage.set_size n message)
  | None => Ret message
  end.

Definition fix_msgtype (fields : gmap str str) (message : MarketMessage.t)
    : MarketMessage.t :=
  match fields !! lit "35" with
  | Some msgtype =>
      if str_eqb msgtype (lit "D")
      then MarketMessage.set_message_type MessageType.NEW_ORDER message
      else if str_eqb msgtype (lit "F")
      then MarketMessage.set_message_type MessageType.CANCEL_ORDER message
      else if str_eqb msgtype (lit "G")
      then MarketMessage.set_message_type MessageType.MODIFY_ORDER message
      else if str_eqb msgtype (lit "8")
      then MarketMessage.set_message_type MessageType.TRADE message
      else message
  | None => message
  end.

(** [_parse_fix_message] *)
Definition _parse_fix_message (data : bytes) : res outcome :=
  try_except
    (let* decoded := Utf8.decode Utf8.strict data in
     let fix_str := str_replace 0x01 0x7C decoded in
     let fields := fix_fields (str_split 0x7C fix_str) in
     match fields !! lit "55" with
     | None => Ret invalid_format
     | Some symbol =>
         if negb (truthy (PStr symbol)) then Ret invalid_format
         else
           let message :=
             MarketMessage.set_symbol (PStr symbol) MarketMessage.new in
           let message := fix_side fields message in
           except_ValueError_return (fix_price fields message) (fun message =>
           except_ValueError_return (fix_size fields message) (fun message =>
           let message := fix_msgtype fields message in
           Ret (ParseResult.SUCCESS, Some message)))
     end)
    (fun _ => true)
    (Ret invalid_format).

(** [x in [a, b]] for strings *)
Definition str_in (x : str) (l : list str) : bool := existsb (str_eqb x) l.

(** The blocks of [_parse_websocket_json] that read the side, the price
    and the size, the message type, and the timestamp out of [json_data]
    into [message]. *)
Definition json_side (json_data : pyvalue) (message : MarketMessage.t)
    : res MarketMessage.t :=
  let* side_value := py_get json_data (lit "side") (PStr []) in
  let* side_str := py_lower side_value in
  Ret (if str_in side_str [lit "buy"; lit "b"]
       then MarketMessage.set_side Side.BUY message
       else if str_in side_str [lit "sell"; lit "s"]
       then MarketMessage.set_side Side.SELL message
       else message).

Definition json_price_size (json_data : pyvalue) (message : MarketMessage.t)
    : res MarketMessage.t :=
  let* has_price := py_contains json_data (lit "price") in
  if has_price then
    let* price_value := py_getitem json_data (lit "price") in
    let* p := py_float price_value in
    let message := MarketMessage.set_price p message in
    let* size_value := py_get json_data (lit "size") (PInt 0) in
    let* n := py_int size_value in
    Ret (MarketMessage.set_size n message)
  else
    let* has_bid := py_contains json_data (lit "bid") in
    let* has_ask :=
      if has_bid then py_contains json_data (lit "ask") else Ret false in
    if has_bid && has_ask then
      (* mid-price for quotes *)
      let* bid_value := py_getitem json_data (lit "bid") in
      let* bid := py_float bid_value in
      let* ask_value := py_getitem json_data (lit "ask") in
      let* ask := py_float ask_value in
      let message :=
        MarketMessage.set_price (Float.div (Float.add bid ask) Float.two) message in
      let* bid_size_value := py_get json_data (lit "bid_size") (PInt 0) in
      let* bid_size := py_int bid_size_value in
      let* ask_size_value := py_get json_data (lit "ask_size") (PInt 0) in
      let* ask_size := py_int ask_size_value in
      let message := MarketMessage.set_size (bid_size + ask_size) message in
      Ret (MarketMessage.set_message_type MessageType.QUOTE message)
    else Ret message.

Definition json_message_type (json_data : pyvalue) (message : MarketMessage.t)
    : res MarketMessage.t :=
  let* type_value := py_get json_data (lit "type") (PStr []) in
  let* msg_type := py_lower type_value in
  Ret (if str_eqb msg_type (lit "trade")
       then MarketMessage.set_message_type MessageType.TRADE message
       else if str_eqb msg_type (lit "quote")
       then MarketMessage.set_message_type MessageType.QUOTE message
       else if str_eqb msg_type (lit "order")
       then MarketMessage.set_message_type MessageType.NEW_ORDER message
       else match MarketMessage.message_type message with
            | MessageType.UNKNOWN =>
                MarketMessage.set_message_type MessageType.MARKET_DATA message
            | _ => message
            end).

Definition json_timestamp (json_data : pyvalue) (message : MarketMessage.t)
    : res MarketMessage.t :=
  let* has_timestamp := py_contains json_data (lit "timestamp") in
  if has_timestamp then
    let* timestamp_value := py_getitem json_data (lit "timestamp") in
    let* ts := py_int timestamp_value in
    Ret (MarketMessage.set_timestamp ts message)
  else Ret message.

(** The statements of [_parse_websocket_json] after [json.loads], up to
    the [return] of the [try] block. *)
Definition websocket_fields (json_data : pyvalue) : res outcome :=
  let* symbol := py_get json_data (lit "symbol") PNone in
  if negb (truthy symbol) then Ret invalid_format
  else
    let message := MarketMessage.set_symbol symbol MarketMessage.new in
    let* message := json_side json_data message in
    let* message := json_price_size json_data message in
    let* message := json_message_type json_data message in
    let* message := json_timestamp json_data message in
    Ret (ParseResult.SUCCESS, Some message).

(** [_parse_websocket_json]; [depth] is the recursion budget of
    [json.loads]. *)
Definition _parse_websocket_json (depth : nat) (data : bytes) : res outcome :=
  try_except
    (let* text := Utf8.decode Utf8.strict data in
     let* json_data := Json.loads depth text in
     websocket_fields json_data)
    (fun e => isinstance_ValueError e || isinstance_KeyError e)
    (Ret invalid_format).

(** The argument of [parse_message]: [Union[str, bytes]]. *)
Inductive pydata : Type :=
| PyStr (s : str)
| PyBytes (b : bytes).

(** [if isinstance(data, str): data = data.encode('utf-8')] *)
Definition to_bytes (data : pydata) : res bytes :=
  match data with
  | PyStr s => Utf8.encode s
  | PyBytes b => Ret b
  end.

Definition count_parsed (self : MessageParser) : MessageParser :=
  {| _use_cpp := _use_cpp self;
     messages_parsed := messages_parsed self + 1;
     parse_errors := parse_errors self |}.

Definition count_error (self : MessageParser) : MessageParser :=
  {| _use_cpp := _use_cpp self;
     messages_parsed := messages_parsed self;
     parse_errors := parse_errors self + 1 |}.

(** [if message and message.timestamp == 0:
       message.timestamp = self._get_current_timestamp_ns()] *)
Definition backfill (w : world) (message : option MarketMessage.t)
    : option MarketMessage.t :=
  match message with
  | Some m =>
      if MarketMessage.timestamp m =? 0
      then Some (MarketMessage.set_timestamp (_get_current_timestamp_ns w) m)
      else Some m
  | None => None
  end.

(** The [if] / [elif] / [else] at the head of the [try] block of
    [parse_message]: the extractor of the protocol is called; [None] stands
    for the [return] of the [else] branch. *)
Definition dispatch (w : world) (protocol : ProtocolType.t) (data : bytes)
    : res (option outcome) :=
  match protocol with
  | ProtocolType.FIX =>
      let* o := _parse_fix_message data in Ret (Some o)
  | ProtocolType.WEBSOCKET_JSON =>
      let* o := _parse_websocket_json (recursion_depth w) data in Ret (Some o)
  | ProtocolType.UNKNOWN => Ret None
  end.

(** [parse_message].  The result carries the parser after the call, whose
    counters the call may have incremented.  The [print] of the handler
    writes to the standard output and is not modelled. *)
Definition parse_message (self : MessageParser) (w : world) (data : pydata)
    : res (MessageParser * outcome) :=
  let* data := to_bytes data in
  let protocol := _detect_protocol data in
  match protocol with
  | ProtocolType.UNKNOWN =>
      Ret (count_error self, (ParseResult.UNKNOWN_PROTOCOL, None))
  | _ =>
      match dispatch w protocol data with
      | Ret None => Ret (self, (ParseResult.UNKNOWN_PROTOCOL, None))
      | Ret (Some (ParseResult.SUCCESS, message)) =>
          Ret (count_parsed self, (ParseResult.SUCCESS, backfill w message))
      | Ret (Some (result, message)) =>
          Ret (count_error self, (result, message))
      | Raise _ =>
          (* except Exception *)
          Ret (count_error self, (ParseResult.INVALID_FORMAT, None))
      end
  end.

(** The dictionary [get_statistics] returns. *)
Record statistics : Type := {
  stat_messages_parsed : Z;
  stat_parse_errors : Z;
  stat_error_rate : spec_float;
  stat_implementation : string
}.

(** [get_statistics] *)
Definition get_statistics (self : MessageParser) : res statistics :=
  let* error_rate :=
    py_truediv (parse_errors self)
               (Z.max 1 (messages_parsed self + parse_errors self)) in
  Ret {| stat_messages_parsed := messages_parsed self;
         stat_parse_errors := parse_errors self;
         stat_error_rate := error_rate;
         stat_implementation := if _use_cpp self then "C++" else "Python" |}.

(** [reset_statistics] *)
Definition reset_statistics (self : MessageParser) : MessageParser :=
  {| _use_cpp := _use_cpp self; messages_parsed := 0; parse_errors := 0 |}.

(** ** Notions used to state the properties *)

(** The outcome of a call of [parse_message], without the parser. *)
Definition parse_outcome (w : world) (data : pydata) : res outcome :=
  let* r := parse_message (MessageParser_init false) w data in Ret (snd r).

(** The parser after a call that returned [o]. *)
Definition counted (o : outcome) (self : MessageParser) : MessageParser :=
  match fst o with
  | ParseResult.SUCCESS => count_parsed self
  | _ => count_error self
  end.

(** A sequence of calls of [parse_message] on one parser.  A call that
    raises leaves the parser as it was. *)
Fixpoint run_calls (self : MessageParser) (calls : list (world * pydata))
    : MessageParser * list (res outcome) :=
  match calls with
  | [] => (self, [])
  | (w, data) :: calls' =>
      match parse_message self w data with
      | Ret (self', o) =>
          let '(final, outs) := run_calls self' calls' in (final, Ret o :: outs)
      | Raise e =>
          let '(final, outs) := run_calls self calls' in (final, Raise e :: outs)
      end
  end.

Definition returned_success (r : res outcome) : bool :=
  match r with
  | Ret (ParseResult.SUCCESS, _) => true
  | _ => false
  end.

Definition returned_failure (r : res outcome) : bool :=
  match r with
  | Ret (ParseResult.SUCCESS, _) => false
  | Ret _ => true
  | Raise _ => false
  end.

(** The number of calls that returned SUCCESS, and of calls that returned
    another status. *)
Fixpoint count {A : Type} (f : A -> bool) (l : list A) : Z :=
  match l with
  | [] => 0
  | x :: l' => (if f x then 1 else 0) + count f l'
  end.

Definition successes (outs : list (res outcome)) : Z := count returned_success outs.
Definition failures (outs : list (res outcome)) : Z := count returned_failure outs.

(** The value of a tag of a tag-value message, as [_parse_fix_message]
    reads it. *)
Definition fix_tag (data : bytes) (tag : str) : option str :=
  match Utf8.decode Utf8.strict data with
  | Ret decoded =>
      fix_fields (str_split 0x7C (str_replace 0x01 0x7C decoded)) !! tag
  | Raise _ => None
  end.

(** The value of a key of a JSON message whose text is an object. *)
Definition json_key (depth : nat) (data : bytes) (key : str) : option pyvalue :=
  match Utf8.decode Utf8.strict data with
  | Ret text =>
      match Json.loads depth text with
      | Ret (PDict d) => dict_get d key
      | _ => None
      end
  | Raise _ => None
  end.

(** The timestamp a message carries: the integer that the value of the key
    [timestamp] of a JSON message converts to.  A tag-value message
    carries none. *)
Definition source_timestamp (depth : nat) (data : bytes) : option Z :=
  match _detect_protocol data with
  | ProtocolType.WEBSOCKET_JSON =>
      match json_key depth data (lit "timestamp") with
      | Some v => match py_int v with Ret t => Some t | Raise _ => None end
      | None => None
      end
  | _ => None
  end.

(** A non-empty text. *)
Definition is_nonempty_text (v : pyvalue) : bool :=
  match v with
  | PStr (_ :: _) => true
  | _ => false
  end.

(** The protocol detector in the words of the specification: invalid
    UTF-8 sequences are replaced, not dropped. *)
Definition detect_spec (data : bytes) : ProtocolType.t :=
  if (length data <? 2)%nat then ProtocolType.UNKNOWN
  else if bool_decide (take 2 data = blit "8=") then ProtocolType.FIX
  else
    match Utf8.decode Utf8.replace data with
    | Ret s =>
        match str_lstrip s with
        | 0x7B :: _ => ProtocolType.WEBSOCKET_JSON
        | _ => ProtocolType.UNKNOWN
        end
    | Raise _ => ProtocolType.UNKNOWN
    end.

(** The field segmentation in the words of the specification: the
    decoded text is split on the control byte 0x01 only. *)
Definition fix_tag_spec (data : bytes) (tag : str) : option str :=
  match Utf8.decode Utf8.strict data with
  | Ret decoded => fix_fields (str_split 0x01 decoded) !! tag
  | Raise _ => None
  end.

(** The size that [json_price_size] assigns, read off the object. *)
Definition json_size_of (d : pydict) (n : Z) : Prop :=
  match dict_get d (lit "price") with
  | Some _ => py_int (default (PInt 0) (dict_get d (lit "size"))) = Ret n
  | None =>
      match dict_get d (lit "bid"), dict_get d (lit "ask") with
      | Some _, Some _ =>
          exists a b,
            py_int (default (PInt 0) (dict_get d (lit "bid_size"))) = Ret a /\
            py_int (default (PInt 0) (dict_get d (lit "ask_size"))) = Ret b /\
            n = a + b
      | _, _ => n = 0
      end
  end.

Definition res_map {A B : Type} (f : A -> B) (r : res A) : res B :=
  match r with
  | Ret a => Ret (f a)
  | Raise e => Raise e
  end.

(** The outcome [r] with the symbol of its message, if any, set to [v]. *)
Definition with_symbol (v : pyvalue) (r : res outcome) : res outcome :=
  res_map (fun o : outcome =>
             (fst o, option_map (MarketMessage.set_symbol v) (snd o))) r.

(** Two objects that may differ in the value of the key [symbol] only. *)
Definition same_but_symbol (d d' : pydict) : Prop :=
  forall k, k <> lit "symbol" -> dict_get d' k = dict_get d k.

(** ** The rest of the module: serialisation, construction, convenience
       functions *)

(** [Side.name] and [MessageType.name]: the names of the members of the
    two enumerations. *)
Definition Side_name (s : Side.t) : str :=
  match s with
  | Side.UNKNOWN => lit "UNKNOWN"
  | Side.BUY => lit "BUY"
  | Side.SELL => lit "SELL"
  end.

Definition MessageType_name (t : MessageType.t) : str :=
  match t with
  | MessageType.UNKNOWN => lit "UNKNOWN"
  | MessageType.NEW_ORDER => lit "NEW_ORDER"
  | MessageType.CANCEL_ORDER => lit "CANCEL_ORDER"
  | MessageType.MODIFY_ORDER => lit "MODIFY_ORDER"
  | MessageType.TRADE => lit "TRADE"
  | MessageType.QUOTE => lit "QUOTE"
  | MessageType.MARKET_DATA => lit "MARKET_DATA"
  end.

(** [MarketMessage.to_dict] *)
Definition to_dict (self : MarketMessage.t) : pydict :=
  [(lit "timestamp", PInt (MarketMessage.timestamp self));
   (lit "symbol", MarketMessage.symbol self);
   (lit "side", PStr (Side_name (MarketMessage.side self)));
   (lit "price", PFloat (MarketMessage.price self));
   (lit "size", PInt (MarketMessage.size self));
   (lit "type", PStr (MessageType_name (MarketMessage.message_type self)))].

(** What [_load_library] sees of the machine: [os.path.exists], and
    whether [ctypes.CDLL] loads the file at a path or raises [OSError]. *)
Record loader : Type := {
  path_exists : string -> bool;
  cdll_loads : string -> bool
}.

(** The locations [_load_library] tries, in this order. *)
Definition possible_paths : list string :=
  ["./libhft_ingestion.so"; "./libhft_ingestion.dylib"; "./hft_ingestion.dll";
   "./build/libhft_ingestion.so"; "./build/libhft_ingestion.dylib";
   "./build/hft_ingestion.dll"]%string.

(** How [_load_library] ends: the library at a path is loaded, or one of
    its two [RuntimeError]s is raised. *)
Inductive load_result : Type :=
| Loaded (path : string)
| NotFound                        (* Could not find ... in standard locations *)
| LoadFailed (path : string).     (* Failed to load library ... *)

(** [_load_library] *)
Definition _load_library (env : loader) (library_path : option string)
    : load_result :=
  let library_path :=
    match library_path with
    | Some p => Some p
    | None => List.find (path_exists env) possible_paths
    end in
  match library_path with
  | None => NotFound
  | Some p => if cdll_loads env p then Loaded p else LoadFailed p
  end.

(** [MessageParser.__init__]: the library is looked for only when
    [use_cpp] holds; a failure is caught and reported by a warning (with
    the default warning filters, under which [warnings.warn] returns). *)
Definition MessageParser__init__ (env : loader) (library_path : option string)
    (use_cpp : bool) : MessageParser :=
  MessageParser_init
    (if use_cpp then
       match _load_library env library_path with
       | Loaded _ => true
       | _ => false
       end
     else false).

(** The module-level functions [parse_fix_message] and
    [parse_websocket_message]: [MessageParser()] and one call. *)
Definition parse_fix_message (env : loader) (w : world) (data : pydata)
    : res outcome :=
  let parser := MessageParser__init__ env None true in
  let* r := parse_message parser w data in Ret (snd r).

Definition parse_websocket_message (env : loader) (w : world) (data : pydata)
    : res outcome :=
  let parser := MessageParser__init__ env None true in
  let* r := parse_message parser w data in Ret (snd r).

(** The dictionary [fields] that [_parse_fix_message] builds from the
    decoded text. *)
Definition text_fields (decoded : str) : gmap str str :=
  fix_fields (str_split 0x7C (str_replace 0x01 0x7C decoded)).

(** ASCII whitespace bytes: blank, tab, line feed, vertical tab, form
    feed, carriage return. *)
Definition is_space_byte (b : byte) : bool :=
  match b with
  | x20 | x09 | x0a | x0b | x0c | x0d => true
  | _ => false
  end.

(** A state of the JSON automaton in which the outermost open container
    is an object, or the finished document is one. *)
Definition rooted_in_object (st : Json.state) : Prop :=
  match st with
  | ([], Json.EDone (PDict _)) => True
  | ([], _) => False
  | (_, Json.EDone _) => False
  | (stack, _) =>
      match last stack with
      | Some (Json.FObj _ _) => True
      | _ => False
      end
  end.

(** The code points of Unicode: the values a character of a [str] can
    have. *)
Definition is_code_point (c : Z) : bool := (0 <=? c) && (c <=? 0x10FFFF).

(** The values of a byte. *)
Definition is_byte_value (z : Z) : bool := (0 <=? z) && (z <? 256).

(** The loop of [_parse_fix_message] again, from a dictionary that
    already holds some fields. *)
Definition fix_fields_from (fields : gmap str str) (pairs : list str)
    : gmap str str :=
  fold_left
    (fun fields pair =>
       if str_contains 0x3D pair then
         let '(tag, value) := str_split_once 0x3D pair in
         <[tag := value]> fields
       else fields)
    pairs fields.

(** A text without the two characters that end a field: the control
    character 0x01 and the vertical bar that replaces it. *)
Definition no_delimiter (s : str) : bool :=
  negb (str_contains 0x01 s) && negb (str_contains 0x7C s).

(** The two characters that end a field. *)
Definition is_delimiter (c : Z) : bool := (c =? 0x01) || (c =? 0x7C).

(** The keys that [_parse_websocket_json] reads. *)
Definition websocket_keys : list str :=
  [lit "symbol"; lit "side"; lit "price"; lit "size"; lit "bid"; lit "ask";
   lit "bid_size"; lit "ask_size"; lit "type"; lit "timestamp"].

(** An object that [_parse_websocket_json] accepts: [symbol] has a true
    value; [side] and [type], when present, are strings; the values that
    are converted are convertible, that is, with [price] its value and
    that of [size], without [price] but with [bid] and [ask] their values
    and those of [bid_size] and [ask_size], and in every case the value
    of [timestamp]. *)
Definition json_well_formed (d : pydict) : Prop :=
  (exists v, dict_get d (lit "symbol") = Some v /\ truthy v = true) /\
  (exists s, default (PStr []) (dict_get d (lit "side")) = PStr s) /\
  match dict_get d (lit "price") with
  | Some v =>
      (exists p, py_float v = Ret p) /\
      (exists n, py_int (default (PInt 0) (dict_get d (lit "size"))) = Ret n)
  | None =>
      match dict_get d (lit "bid"), dict_get d (lit "ask") with
      | Some vb, Some va =>
          (exists p, py_float vb = Ret p) /\
          (exists p, py_float va = Ret p) /\
          (exists n, py_int (default (PInt 0) (dict_get d (lit "bid_size"))) = Ret n) /\
          (exists n, py_int (default (PInt 0) (dict_get d (lit "ask_size"))) = Ret n)
      | _, _ => True
      end
  end /\
  (exists t, default (PStr []) (dict_get d (lit "type")) = PStr t) /\
  match dict_get d (lit "timestamp") with
  | Some v => exists t, py_int v = Ret t
  | None => True
  end.

(** ** Proof automation *)

(** [H : bind m k = Ret b]: name the value of [m] and go on with [k]. *)
Ltac bind_inv H :=
  match type of H with
  | bind ?m _ = Ret _ =>
      let x := fresh "x" in
      let E := fresh "E" in
      destruct m as [x|?] eqn:E; [cbn [bind] in H | discriminate H]
  end.

Ltac binds_inv H :=
  repeat first [progress cbn [bind andb] in H | bind_inv H].

(** Rewrite the lookups of keys other than [symbol] with a hypothesis
    [Hd : same_but_symbol d d']. *)
Ltac other_key Hd :=
  repeat match goal with
  | |- context [dict_get _ (lit ?k)] =>
      rewrite (Hd (lit k)) by (vm_compute; discriminate)
  end.

(** Rewrite the lookups of the keys the extractor reads with a hypothesis
    [Hd : forall k, In k websocket_keys -> dict_get d' k = dict_get d k]. *)
Ltac same_key Hd :=
  repeat match goal with
  | |- context [dict_get _ (lit ?k)] =>
      rewrite (Hd (lit k))
        by (unfold websocket_keys; cbn [In];
            repeat (first [left; reflexivity | right]))
  end.

(** Decide the comparisons of integers in the goal by linear arithmetic
    with division and remainder. *)
Ltac decide_tests :=
  repeat match goal with
  | |- context [?a <? ?b] =>
      destruct (Z.ltb_spec a b); try (exfalso; Z.div_mod_to_equations; lia)
  | |- context [?a <=? ?b] =>
      destruct (Z.leb_spec a b); try (exfalso; Z.div_mod_to_equations; lia)
  | |- context [?a =? ?b] =>
      destruct (Z.eqb_spec a b); try (exfalso; Z.div_mod_to_equations; lia)
  end.

(* ===================================================================== *)
(** * Part II. Lemmas and theorems                                         *)
(* ===================================================================== *)

(** ** The result monad *)

Lemma bind_Ret_inv {A B : Type} (m : res A) (k : A -> res B) (b : B) :
  bind m k = Ret b -> exists a, m = Ret a /\ k a = Ret b.
Proof. destruct m as [a|e]; simpl; [eauto | discriminate]. Qed.

Lemma try_except_all_returns {A : Type} (body : res A) (h : A) :
  exists a, try_except body (fun _ => true) (Ret h) = Ret a.
Proof. destruct body; simpl; eauto. Qed.

(** ** Prefixes *)

Lemma str_startswith_take {A : Type} `{EqDecision A} (s p : list A) :
  str_startswith s p = true <-> take (length p) s = p.
Proof.
  revert s. induction p as [|y p IH]; intros s; simpl.
  - split; reflexivity.
  - destruct s as [|x s]; simpl; [split; discriminate|].
    rewrite andb_true_iff, bool_decide_eq_true, IH.
    split; [intros [-> ->]; reflexivity | intros [= -> Hp]; by rewrite Hp].
Qed.

Lemma str_startswith_head (s : str) (c : Z) :
  str_startswith s [c] = true <-> head s = Some c.
Proof.
  destruct s as [|x s]; simpl; [split; discriminate|].
  rewrite andb_true_r, bool_decide_eq_true. split; [intros ->; reflexivity | by intros [= ->]].
Qed.

(** ** UTF-8 *)

Lemma decode_loop_ignore_returns (s : list Z) :
  forall skip, exists out, Utf8.decode_loop Utf8.ignore skip s = Ret out.
Proof.
  induction s as [|ch rest IH]; intros skip; simpl; [eauto|].
  destruct skip as [|k]; [|apply IH].
  destruct (Utf8.decode_step ch rest) as [cp n|n]; [|apply IH].
  destruct (IH (Nat.pred n)) as [out ->]. simpl. eauto.
Qed.

Lemma decode_loop_strict_agrees (h : Utf8.errors) (s : list Z) :
  forall skip out,
    Utf8.decode_loop Utf8.strict skip s = Ret out ->
    Utf8.decode_loop h skip s = Ret out.
Proof.
  induction s as [|ch rest IH]; intros skip out; simpl; [done|].
  destruct skip as [|k]; [|apply IH].
  destruct (Utf8.decode_step ch rest) as [cp n|n]; [|discriminate].
  intros H. apply bind_Ret_inv in H as (out' & H1 & H2).
  by rewrite (IH _ _ H1).
Qed.

Lemma decode_ignore_returns (data : bytes) :
  Utf8.decode Utf8.ignore data = Ret (Utf8.decode_ignore data).
Proof.
  unfold Utf8.decode_ignore, Utf8.decode.
  by destruct (decode_loop_ignore_returns (map Z_of_byte data) 0%nat) as [out ->].
Qed.

Lemma decode_strict_agrees (h : Utf8.errors) (data : bytes) (s : str) :
  Utf8.decode Utf8.strict data = Ret s -> Utf8.decode h data = Ret s.
Proof. apply decode_loop_strict_agrees. Qed.

Lemma detect_protocol_short (data : bytes) :
  (length data < 2)%nat -> _detect_protocol data = ProtocolType.UNKNOWN.
Proof.
  intros H. unfold _detect_protocol.
  by destruct (Nat.ltb_spec (length data) 2); [|lia].
Qed.

Lemma detect_protocol_long (data : bytes) :
  (2 <= length data)%nat ->
  _detect_protocol data =
    if bool_decide (take 2 data = blit "8=") then ProtocolType.FIX
    else match str_lstrip (Utf8.decode_ignore data) with
         | 0x7B :: _ => ProtocolType.WEBSOCKET_JSON
         | _ => ProtocolType.UNKNOWN
         end.
Proof.
  intros H. unfold _detect_protocol.
  destruct (Nat.ltb_spec (length data) 2); [lia|].
  destruct (str_startswith data (blit "8=")) eqn:E.
  - apply str_startswith_take in E. by rewrite bool_decide_eq_true_2.
  - rewrite bool_decide_eq_false_2.
    2:{ intros Ht. apply (str_startswith_take data (blit "8=")) in Ht. congruence. }
    destruct (str_lstrip (Utf8.decode_ignore data)) as [|c s] eqn:Es; [done|].
    simpl. rewrite andb_true_r.
    destruct (bool_decide_reflect (c = 123)) as [->|Hc]; [done|].
    destruct c as [|p|p]; try done.
    repeat (destruct p as [p|p|]; try done).
Qed.

(** ** The tag-value extractor *)

Lemma except_ValueError_return_inv {A : Type} (body : res A)
    (k : A -> res outcome) (o : outcome) :
  except_ValueError_return body k = Ret o ->
  (exists a, body = Ret a /\ k a = Ret o) \/
  (exists e, body = Raise e /\ o = invalid_format).
Proof.
  unfold except_ValueError_return. destruct body as [a|e].
  - eauto.
  - destruct (isinstance_ValueError e); [intros [= <-]; eauto | discriminate].
Qed.

Lemma fix_side_fields fields m :
  MarketMessage.symbol (fix_side fields m) = MarketMessage.symbol m /\
  MarketMessage.timestamp (fix_side fields m) = MarketMessage.timestamp m /\
  MarketMessage.size (fix_side fields m) = MarketMessage.size m.
Proof.
  unfold fix_side. destruct (fields !! lit "54") as [s|]; [|done].
  destruct (str_eqb s (lit "1")); [done|].
  by destruct (str_eqb s (lit "2")).
Qed.

Lemma fix_price_fields fields m m' :
  fix_price fields m = Ret m' ->
  MarketMessage.symbol m' = MarketMessage.symbol m /\
  MarketMessage.timestamp m' = MarketMessage.timestamp m /\
  MarketMessage.size m' = MarketMessage.size m.
Proof.
  unfold fix_price. destruct (fields !! lit "44") as [v|].
  - intros H. apply bind_Ret_inv in H as (p & _ & [= <-]). done.
  - by intros [= <-].
Qed.

Lemma fix_size_fields fields m m' :
  fix_size fields m = Ret m' ->
  MarketMessage.symbol m' = MarketMessage.symbol m /\
  MarketMessage.timestamp m' = MarketMessage.timestamp m /\
  match fields !! lit "38" with
  | Some v => Num.int_of_str v = Ret (MarketMessage.size m')
  | None => MarketMessage.size m' = MarketMessage.size m
  end.
Proof.
  unfold fix_size. destruct (fields !! lit "38") as [v|].
  - intros H. apply bind_Ret_inv in H as (n & Hn & [= <-]). done.
  - by intros [= <-].
Qed.

Lemma fix_msgtype_fields fields m :
  MarketMessage.symbol (fix_msgtype fields m) = MarketMessage.symbol m /\
  MarketMessage.timestamp (fix_msgtype fields m) = MarketMessage.timestamp m /\
  MarketMessage.size (fix_msgtype fields m) = MarketMessage.size m.
Proof.
  unfold fix_msgtype. destruct (fields !! lit "35") as [s|]; [|done].
  repeat match goal with |- context [if ?b then _ else _] => destruct b end; done.
Qed.

Lemma fix_returns (data : bytes) : exists o, _parse_fix_message data = Ret o.
Proof. apply try_except_all_returns. Qed.

(** What a tag-value extraction that yields a message has read. *)
Lemma fix_success (data : bytes) (r : ParseResult.t) (m : MarketMessage.t) :
  _parse_fix_message data = Ret (r, Some m) ->
  r = ParseResult.SUCCESS /\
  exists symbol,
    fix_tag data (lit "55") = Some symbol /\ symbol <> [] /\
    MarketMessage.symbol m = PStr symbol /\
    MarketMessage.timestamp m = 0 /\
    match fix_tag data (lit "38") with
    | Some v => Num.int_of_str v = Ret (MarketMessage.size m)
    | None => MarketMessage.size m = 0
    end.
Proof.
  unfold _parse_fix_message, fix_tag, try_except.
  destruct (Utf8.decode Utf8.strict data) as [decoded|e]; simpl; [|discriminate].
  set (fields := fix_fields _).
  destruct (fields !! lit "55") as [[|c symbol]|] eqn:E55; simpl; try discriminate.
  set (m0 := fix_side fields _).
  destruct (except_ValueError_return (fix_price fields m0) _) as [o|e] eqn:E;
    [|discriminate].
  intros [= ->].
  apply except_ValueError_return_inv in E as [(m1 & H1 & E)|(e & _ & [=])].
  apply except_ValueError_return_inv in E as [(m2 & H2 & E)|(e & _ & [=])].
  injection E as <- <-.
  destruct (fix_price_fields _ _ _ H1) as (P1 & P2 & P3).
  destruct (fix_size_fields _ _ _ H2) as (S1 & S2 & S3).
  destruct (fix_msgtype_fields fields m2) as (T1 & T2 & T3).
  destruct (fix_side_fields fields
              (MarketMessage.set_symbol (PStr (c :: symbol)) MarketMessage.new))
    as (D1 & D2 & D3).
  fold m0 in D1, D2, D3.
  split; [done|]. exists (c :: symbol).
  split; [done|]. split; [done|].
  split; [by rewrite T1, S1, P1, D1|].
  split; [by rewrite T2, S2, P2, D2|].
  rewrite T3. destruct (fields !! lit "38"); [done|].
  by rewrite S3, P3, D3.
Qed.

Lemma fix_shape (data : bytes) (o : outcome) :
  _parse_fix_message data = Ret o ->
  o = invalid_format \/ exists m, o = (ParseResult.SUCCESS, Some m).
Proof.
  destruct o as [r [m|]].
  - intros H. apply fix_success in H as [-> _]. eauto.
  - unfold _parse_fix_message, try_except.
    destruct (Utf8.decode Utf8.strict data) as [decoded|e]; simpl;
      [|intros [= <-]; by left].
    set (fields := fix_fields _).
    destruct (fields !! lit "55") as [[|c symbol]|]; simpl;
      try (intros [= <-]; by left).
    set (m0 := fix_side fields _).
    destruct (except_ValueError_return (fix_price fields m0) _) as [o|e] eqn:E.
    + intros [= ->].
      apply except_ValueError_return_inv in E as [(m1 & H1 & E)|(e & _ & E)];
        [|left; by rewrite E].
      apply except_ValueError_return_inv in E as [(m2 & H2 & E)|(e & _ & E)];
        [discriminate|left; by rewrite E].
    + intros [= <-]. by left.
Qed.

(** Without a value for tag 55 there is no message. *)
Lemma fix_no_symbol (data : bytes) :
  fix_tag data (lit "55") = None -> _parse_fix_message data = Ret invalid_format.
Proof.
  unfold _parse_fix_message, fix_tag, try_except.
  destruct (Utf8.decode Utf8.strict data) as [decoded|e]; cbn [bind]; [|done].
  by intros ->.
Qed.

(** ** The JSON extractor *)

Lemma json_side_fields j m m' :
  json_side j m = Ret m' ->
  MarketMessage.symbol m' = MarketMessage.symbol m /\
  MarketMessage.timestamp m' = MarketMessage.timestamp m /\
  MarketMessage.size m' = MarketMessage.size m /\
  MarketMessage.message_type m' = MarketMessage.message_type m.
Proof.
  unfold json_side. intros H. do 2 bind_inv H. injection H as <-.
  repeat match goal with |- context [if ?b then _ else _] => destruct b end; done.
Qed.

Lemma json_price_size_fields d m m' :
  json_price_size (PDict d) m = Ret m' ->
  MarketMessage.size m = 0 ->
  MarketMessage.symbol m' = MarketMessage.symbol m /\
  MarketMessage.timestamp m' = MarketMessage.timestamp m /\
  json_size_of d (MarketMessage.size m').
Proof.
  unfold json_price_size, json_size_of, py_contains, py_getitem, py_get, dict_mem.
  cbn [bind]. intros H Hsize.
  destruct (dict_get d (lit "price")) as [pv|].
  - binds_inv H. injection H as <-. done.
  - destruct (dict_get d (lit "bid")) as [bv|]; cbn [bind andb] in H.
    + destruct (dict_get d (lit "ask")) as [av|]; cbn [bind andb] in H.
      * apply bind_Ret_inv in H as (bid & _ & H).
        apply bind_Ret_inv in H as (ask & _ & H).
        apply bind_Ret_inv in H as (bid_size & Hbid & H).
        apply bind_Ret_inv in H as (ask_size & Hask & H).
        injection H as <-. simpl.
        split; [done|]. split; [done|]. by exists bid_size, ask_size.
      * by injection H as <-.
    + by injection H as <-.
Qed.

Lemma json_message_type_fields j m m' :
  json_message_type j m = Ret m' ->
  MarketMessage.symbol m' = MarketMessage.symbol m /\
  MarketMessage.timestamp m' = MarketMessage.timestamp m /\
  MarketMessage.size m' = MarketMessage.size m.
Proof.
  unfold json_message_type. intros H. do 2 bind_inv H. injection H as <-.
  repeat match goal with |- context [if ?b then _ else _] => destruct b end;
    try done.
  by destruct (MarketMessage.message_type m).
Qed.

Lemma json_timestamp_fields d m m' :
  json_timestamp (PDict d) m = Ret m' ->
  MarketMessage.symbol m' = MarketMessage.symbol m /\
  MarketMessage.size m' = MarketMessage.size m /\
  match dict_get d (lit "timestamp") with
  | Some tv => py_int tv = Ret (MarketMessage.timestamp m')
  | None => MarketMessage.timestamp m' = MarketMessage.timestamp m
  end.
Proof.
  unfold json_timestamp, py_contains, py_getitem, dict_mem. cbn [bind].
  intros H. destruct (dict_get d (lit "timestamp")) as [tv|].
  - binds_inv H. injection H as <-. done.
  - by injection H as <-.
Qed.


(** What a JSON extraction that yields a message has read. *)
Lemma websocket_fields_success (j : pyvalue) (r : ParseResult.t)
    (m : MarketMessage.t) :
  websocket_fields j = Ret (r, Some m) ->
  r = ParseResult.SUCCESS /\
  exists d v,
    j = PDict d /\ dict_get d (lit "symbol") = Some v /\ truthy v = true /\
    MarketMessage.symbol m = v /\
    match dict_get d (lit "timestamp") with
    | Some tv => py_int tv = Ret (MarketMessage.timestamp m)
    | None => MarketMessage.timestamp m = 0
    end /\
    json_size_of d (MarketMessage.size m).
Proof.
  intros H. destruct j as [| | | | | |d]; try discriminate H.
  unfold websocket_fields, py_get in H. cbn [bind] in H.
  destruct (dict_get d (lit "symbol")) as [v|] eqn:Ev; [|discriminate H].
  destruct (truthy v) eqn:Tv; [|discriminate H]. cbn [negb] in H.
  apply bind_Ret_inv in H as (m1 & H1 & H).
  apply bind_Ret_inv in H as (m2 & H2 & H).
  apply bind_Ret_inv in H as (m3 & H3 & H).
  apply bind_Ret_inv in H as (m4 & H4 & H).
  injection H as <- <-.
  apply json_side_fields in H1 as (A1 & A2 & A3 & _).
  apply json_price_size_fields in H2 as (B1 & B2 & B3); [|by rewrite A3].
  apply json_message_type_fields in H3 as (C1 & C2 & C3).
  apply json_timestamp_fields in H4 as (D1 & D2 & D3).
  split; [done|]. exists d, v. split; [done|]. split; [done|]. split; [done|].
  split; [by rewrite D1, C1, B1, A1|].
  split.
  - destruct (dict_get d (lit "timestamp")); [done|].
    by rewrite D3, C2, B2, A2.
  - by rewrite D2, C3.
Qed.

Lemma websocket_fields_shape (j : pyvalue) (o : outcome) :
  websocket_fields j = Ret o ->
  o = invalid_format \/ exists m, o = (ParseResult.SUCCESS, Some m).
Proof.
  destruct o as [r [m|]].
  - intros H. apply websocket_fields_success in H as [-> _]. eauto.
  - unfold websocket_fields. intros H. bind_inv H.
    destruct (negb (truthy x)); [injection H as <-; left; reflexivity|].
    do 4 bind_inv H. discriminate.
Qed.

(** A missing key [symbol], or one with a false value, gives no message. *)
Lemma websocket_fields_no_symbol (d : pydict) :
  match dict_get d (lit "symbol") with
  | Some v => truthy v = false
  | None => True
  end ->
  websocket_fields (PDict d) = Ret invalid_format.
Proof.
  unfold websocket_fields, py_get. cbn [bind].
  destruct (dict_get d (lit "symbol")) as [v|]; [|done].
  by intros ->.
Qed.

Lemma json_extract_raises (depth : nat) (data : bytes) (e : exn) :
  _parse_websocket_json depth data = Raise e ->
  isinstance_ValueError e = false /\ isinstance_KeyError e = false.
Proof.
  unfold _parse_websocket_json, try_except.
  match goal with |- context [match ?b with Ret _ => _ | Raise _ => _ end] =>
    destruct b as [o|e'] end; [discriminate|].
  destruct (isinstance_ValueError e' || isinstance_KeyError e') eqn:E;
    [discriminate|].
  intros [= <-]. by apply orb_false_iff in E.
Qed.

Lemma json_extract_returns (depth : nat) (data : bytes) (o : outcome) :
  _parse_websocket_json depth data = Ret o ->
  o = invalid_format \/
  exists text j,
    Utf8.decode Utf8.strict data = Ret text /\
    Json.loads depth text = Ret j /\ websocket_fields j = Ret o.
Proof.
  unfold _parse_websocket_json, try_except.
  destruct (Utf8.decode Utf8.strict data) as [text|e] eqn:Ed; cbn [bind].
  - destruct (Json.loads depth text) as [j|e] eqn:Ej; cbn [bind].
    + destruct (websocket_fields j) as [o'|e] eqn:Ew.
      * intros [= <-]. right. eauto.
      * destruct (_ || _); [|discriminate]. intros [= <-]. by left.
    + destruct (_ || _); [|discriminate]. intros [= <-]. by left.
  - destruct (_ || _); [|discriminate]. intros [= <-]. by left.
Qed.

Lemma json_extract_shape (depth : nat) (data : bytes) (o : outcome) :
  _parse_websocket_json depth data = Ret o ->
  o = invalid_format \/ exists m, o = (ParseResult.SUCCESS, Some m).
Proof.
  intros H. apply json_extract_returns in H as [->|(text & j & _ & _ & H)];
    [left; reflexivity|].
  by apply websocket_fields_shape in H.
Qed.

(** A message out of the JSON extractor comes from an object. *)
Lemma json_extract_success (depth : nat) (data : bytes) (r : ParseResult.t)
    (m : MarketMessage.t) :
  _parse_websocket_json depth data = Ret (r, Some m) ->
  r = ParseResult.SUCCESS /\
  exists text d v,
    Utf8.decode Utf8.strict data = Ret text /\
    Json.loads depth text = Ret (PDict d) /\
    dict_get d (lit "symbol") = Some v /\ truthy v = true /\
    MarketMessage.symbol m = v /\
    match dict_get d (lit "timestamp") with
    | Some tv => py_int tv = Ret (MarketMessage.timestamp m)
    | None => MarketMessage.timestamp m = 0
    end /\
    json_size_of d (MarketMessage.size m).
Proof.
  intros H. apply json_extract_returns in H as [[=]|(text & j & Hd & Hj & H)].
  apply websocket_fields_success in H as (-> & d & v & -> & H).
  split; [done|]. exists text, d, v. by repeat split; try apply H.
Qed.

Lemma json_extract_no_symbol (depth : nat) (data : bytes) :
  match json_key depth data (lit "symbol") with
  | Some v => truthy v = false
  | None => True
  end ->
  forall o, _parse_websocket_json depth data = Ret o -> o = invalid_format.
Proof.
  intros Hk o H. apply json_extract_returns in H as [->|(text & j & Hd & Hj & H)];
    [done|].
  unfold json_key in Hk. rewrite Hd, Hj in Hk.
  destruct j as [| | | | | |d]; try discriminate H.
  rewrite (websocket_fields_no_symbol d Hk) in H. by injection H as <-.
Qed.

(** ** The facade *)

Lemma dispatch_shape (w : world) (p : ProtocolType.t) (b : bytes) (o : outcome) :
  dispatch w p b = Ret (Some o) ->
  o = invalid_format \/ exists m, o = (ParseResult.SUCCESS, Some m).
Proof.
  unfold dispatch. destruct p; [discriminate| |]; intros H;
    apply bind_Ret_inv in H as (o' & H & [= ->]).
  - by apply fix_shape in H.
  - by apply json_extract_shape in H.
Qed.

Lemma dispatch_known (w : world) (p : ProtocolType.t) (b : bytes) :
  p <> ProtocolType.UNKNOWN -> dispatch w p b <> Ret None.
Proof.
  unfold dispatch. destruct p; [done| |]; intros _ H;
    by apply bind_Ret_inv in H as (o' & _ & [=]).
Qed.

(** The three ways in which [parse_message] returns. *)
Lemma parse_message_inv (self : MessageParser) (w : world) (data : pydata)
    (self' : MessageParser) (o : outcome) :
  parse_message self w data = Ret (self', o) ->
  exists b, to_bytes data = Ret b /\
    ((_detect_protocol b = ProtocolType.UNKNOWN /\
      o = (ParseResult.UNKNOWN_PROTOCOL, None) /\ self' = count_error self) \/
     (_detect_protocol b <> ProtocolType.UNKNOWN /\
      exists m0,
        dispatch w (_detect_protocol b) b = Ret (Some (ParseResult.SUCCESS, Some m0)) /\
        o = (ParseResult.SUCCESS, backfill w (Some m0)) /\
        self' = count_parsed self) \/
     (_detect_protocol b <> ProtocolType.UNKNOWN /\
      o = invalid_format /\ self' = count_error self /\
      (dispatch w (_detect_protocol b) b = Ret (Some invalid_format) \/
       exists e, dispatch w (_detect_protocol b) b = Raise e))).
Proof.
  unfold parse_message. intros H.
  apply bind_Ret_inv in H as (b & Hb & H). exists b. split; [done|].
  destruct (_detect_protocol b) eqn:Ep.
  - injection H as <- <-. by left.
  - right.
    destruct (dispatch w ProtocolType.FIX b) as [[o'|]|e] eqn:Ed.
    + destruct (dispatch_shape _ _ _ _ Ed) as [->|[m0 ->]].
      * injection H as <- <-. right. split; [done|]. split; [done|]. split; [done|].
        by left.
      * injection H as <- <-. left. split; [done|]. by exists m0.
    + by apply dispatch_known in Ed.
    + injection H as <- <-. right. split; [done|]. split; [done|]. split; [done|].
      right. by exists e.
  - right.
    destruct (dispatch w ProtocolType.WEBSOCKET_JSON b) as [[o'|]|e] eqn:Ed.
    + destruct (dispatch_shape _ _ _ _ Ed) as [->|[m0 ->]].
      * injection H as <- <-. right. split; [done|]. split; [done|]. split; [done|].
        by left.
      * injection H as <- <-. left. split; [done|]. by exists m0.
    + by apply dispatch_known in Ed.
    + injection H as <- <-. right. split; [done|]. split; [done|]. split; [done|].
      right. by exists e.
Qed.

(** A call returns SUCCESS with a message, or another status without. *)
Lemma parse_message_shape (self : MessageParser) (w : world) (data : pydata)
    (self' : MessageParser) (o : outcome) :
  parse_message self w data = Ret (self', o) ->
  (exists m, o = (ParseResult.SUCCESS, Some m)) \/
  (fst o <> ParseResult.SUCCESS /\ snd o = None).
Proof.
  intros H. apply parse_message_inv in H as (b & _ & [H|[H|H]]).
  - destruct H as (_ & -> & _). by right.
  - destruct H as (_ & m0 & _ & -> & _). left. simpl.
    destruct (MarketMessage.timestamp m0 =? 0); eauto.
  - destruct H as (_ & -> & _). by right.
Qed.

(** A call raises only when the text cannot be encoded, and the counters
    play no part in its outcome. *)
Lemma parse_message_returns (w : world) (data : pydata) (b : bytes) :
  to_bytes data = Ret b ->
  exists o, forall self, parse_message self w data = Ret (counted o self, o).
Proof.
  intros Hb. unfold parse_message. rewrite Hb. cbn [bind].
  destruct (_detect_protocol b) eqn:Ep.
  - by exists (ParseResult.UNKNOWN_PROTOCOL, None).
  - destruct (dispatch w ProtocolType.FIX b) as [[o'|]|e] eqn:Ed.
    + destruct (dispatch_shape _ _ _ _ Ed) as [->|[m0 ->]].
      * by exists invalid_format.
      * by exists (ParseResult.SUCCESS, backfill w (Some m0)).
    + by apply dispatch_known in Ed.
    + by exists invalid_format.
  - destruct (dispatch w ProtocolType.WEBSOCKET_JSON b) as [[o'|]|e] eqn:Ed.
    + destruct (dispatch_shape _ _ _ _ Ed) as [->|[m0 ->]].
      * by exists invalid_format.
      * by exists (ParseResult.SUCCESS, backfill w (Some m0)).
    + by apply dispatch_known in Ed.
    + by exists invalid_format.
Qed.

Lemma parse_message_raises (self : MessageParser) (w : world) (data : pydata)
    (e : exn) :
  to_bytes data = Raise e -> parse_message self w data = Raise e.
Proof. intros Hb. unfold parse_message. by rewrite Hb. Qed.

Lemma parse_message_outcome (self : MessageParser) (w : world) (data : pydata) :
  parse_message self w data =
    let* o := parse_outcome w data in Ret (counted o self, o).
Proof.
  unfold parse_outcome.
  destruct (to_bytes data) as [b|e] eqn:Hb.
  - destruct (parse_message_returns w data b Hb) as [o Ho].
    by rewrite !Ho.
  - by rewrite !(parse_message_raises _ _ _ _ Hb).
Qed.

(** ** Floats: a quotient of at most one is finite *)

Lemma digits2_pos_size (p : positive) : digits2_pos p = Pos.size p.
Proof. induction p as [p IH|p IH|]; simpl; by rewrite ?IH. Qed.

Lemma Zdigits2_bound (m k : Z) : 0 <= m <= 2 ^ k -> 0 <= k -> Zdigits2 m <= k + 1.
Proof.
  intros [Hm Hle] Hk. destruct m as [|p|p]; simpl; [lia| |lia].
  rewrite digits2_pos_size.
  pose proof (Pos.size_le p) as Hs.
  assert (H2 : 2 ^ Z.pos (Pos.size p) <= 2 ^ (k + 1)).
  { replace (k + 1) with (Z.succ k) by lia. rewrite Z.pow_succ_r by lia.
    change (2 ^ Z.pos (Pos.size p)) with (Z.pos 2 ^ Z.pos (Pos.size p)).
    rewrite <- Pos2Z.inj_pow. lia. }
  apply Z.pow_le_mono_r_iff in H2; lia.
Qed.

Lemma shr_1_bounds (r : shr_record) :
  0 <= shr_m r -> 0 <= shr_m (shr_1 r) <= shr_m r.
Proof.
  destruct r as [m r s]. destruct m as [|[p|p|]|p]; simpl; lia.
Qed.

Lemma iter_pos_invariant {A : Type} (P : A -> Prop) (f : A -> A) :
  (forall x, P x -> P (f x)) -> forall n x, P x -> P (SpecFloat.iter_pos f n x).
Proof.
  intros Hf. induction n as [n IH|n IH|]; intros x Hx; simpl; auto.
Qed.

Lemma shr_bounds (r : shr_record) (e n : Z) :
  0 <= shr_m r ->
  0 <= shr_m (fst (shr r e n)) <= shr_m r /\ snd (shr r e n) <= Z.max e (e + n).
Proof.
  intros Hr. destruct n as [|p|p]; simpl; try lia.
  split; [|lia].
  apply (iter_pos_invariant (fun x => 0 <= shr_m x <= shr_m r)); [|lia].
  intros x Hx. pose proof (shr_1_bounds x). lia.
Qed.

Lemma shr_record_of_loc_m (m : Z) (l : location) : shr_m (shr_record_of_loc m l) = m.
Proof. by destruct l as [|[]]. Qed.

Lemma shr_fexp_bounds (m e : Z) (l : location) :
  0 <= m ->
  0 <= shr_m (fst (shr_fexp Float.prec Float.emax m e l)) <= m /\
  snd (shr_fexp Float.prec Float.emax m e l)
    <= Z.max e (fexp Float.prec Float.emax (Zdigits2 m + e)).
Proof.
  intros Hm. unfold shr_fexp.
  pose proof (shr_bounds (shr_record_of_loc m l) e
                (fexp Float.prec Float.emax (Zdigits2 m + e) - e)) as H.
  rewrite shr_record_of_loc_m in H. destruct (H Hm) as [H1 H2].
  split; [done|]. lia.
Qed.

Lemma round_nearest_even_bounds (m : Z) (l : location) :
  0 <= m -> 0 <= round_nearest_even m l <= m + 1.
Proof.
  intros Hm. destruct l as [|[]]; simpl; try lia. destruct (Z.even m); lia.
Qed.

Lemma fexp_le (x : Z) : x <= 1024 -> fexp Float.prec Float.emax x <= 971.
Proof. unfold fexp, emin, Float.prec, Float.emax. lia. Qed.

(** Rounding a mantissa of at most [2^1074] at an exponent of at most
    [-53] does not overflow. *)
Lemma binary_round_aux_finite (s : bool) (m e : Z) (l : location) :
  0 <= m <= 2 ^ (- e) -> -1074 <= e <= -53 ->
  Float.is_infinite (binary_round_aux Float.prec Float.emax s m e l) = false.
Proof.
  intros [Hm Hle] He. unfold binary_round_aux.
  destruct (shr_fexp Float.prec Float.emax m e l) as [r1 e1] eqn:E1.
  pose proof (shr_fexp_bounds m e l Hm) as [Hr1 He1]. rewrite E1 in Hr1, He1.
  simpl in Hr1, He1.
  set (m1 := round_nearest_even (shr_m r1) (loc_of_shr_record r1)).
  pose proof (round_nearest_even_bounds (shr_m r1) (loc_of_shr_record r1)
                ltac:(lia)) as Hm1. fold m1 in Hm1.
  destruct (shr_fexp Float.prec Float.emax m1 e1 loc_Exact) as [r2 e2] eqn:E2.
  pose proof (shr_fexp_bounds m1 e1 loc_Exact ltac:(lia)) as [Hr2 He2].
  rewrite E2 in Hr2, He2. simpl in Hr2, He2.
  destruct (shr_m r2) as [|p|p]; [done| |done].
  assert (Hd : Zdigits2 m + e <= 1).
  { pose proof (Zdigits2_bound m (- e)). lia. }
  assert (Hf : fexp Float.prec Float.emax (Zdigits2 m + e) <= -52).
  { unfold fexp, emin, Float.prec, Float.emax. lia. }
  assert (Hpow : 2 ^ (- e) <= 2 ^ 1074) by (apply Z.pow_le_mono_r; lia).
  assert (Hd1 : Zdigits2 m1 <= 1076).
  { apply (Zdigits2_bound m1 1075); [|lia].
    split; [lia|]. change 1075 with (Z.succ 1074).
    rewrite (Z.pow_succ_r 2 1074) by lia. lia. }
  assert (He2' : e2 <= 971).
  { pose proof (fexp_le (Zdigits2 m1 + e1)). lia. }
  destruct (Z.leb_spec e2 (Float.emax - Float.prec)) as [|Hgt]; [done|].
  unfold Float.emax, Float.prec in Hgt. lia.
Qed.

Lemma of_ratio_finite (neg : bool) (p q : positive) :
  (p <= q)%positive -> Float.is_infinite (Float.of_ratio neg p q) = false.
Proof.
  intros Hpq. unfold Float.of_ratio, Float.div, SFdiv, SFdiv_core_binary.
  set (e' := Z.min _ _).
  assert (Hdig : Zdigits2 (Z.pos p) <= Zdigits2 (Z.pos q)).
  { unfold Zdigits2. rewrite (digits2_pos_size p), (digits2_pos_size q).
    pose proof (Pos.size_le p) as Hp. pose proof (Pos.size_gt q) as Hq.
    assert (H2 : 2 ^ Z.pos (Pos.size p) < 2 ^ Z.succ (Z.pos (Pos.size q))).
    { rewrite Z.pow_succ_r by lia.
      change 2 with (Z.pos 2). rewrite <- !Pos2Z.inj_pow.
      lia. }
    assert (Z.pos (Pos.size p) < Z.succ (Z.pos (Pos.size q)))
      by (apply (Z.pow_lt_mono_r_iff 2); [lia|lia|exact H2]).
    lia. }
  assert (He' : -1074 <= e' <= -53).
  { subst e'. unfold fexp, emin, Float.prec, Float.emax. lia. }
  replace (0 - 0 - e') with (- e') by lia.
  destruct (- e') as [|s|s] eqn:Es; [lia| |lia].
  destruct (Z.div_eucl (Z.shiftl (Z.pos p) (Z.pos s)) (Z.pos q)) as [qu r] eqn:Ed.
  apply binary_round_aux_finite; [|done].
  assert (Hq : qu = Z.shiftl (Z.pos p) (Z.pos s) / Z.pos q).
  { unfold Z.div. by rewrite Ed. }
  rewrite Z.shiftl_mul_pow2 in Hq by lia.
  replace (- e') with (Z.pos s) by lia. rewrite Hq. split.
  - apply Z.div_pos; lia.
  - apply Z.div_le_upper_bound; [lia|]. 
    assert (0 < 2 ^ Z.pos s) by (apply Z.pow_pos_nonneg; lia). nia.
Qed.

Lemma py_truediv_returns (a b : Z) :
  0 <= a <= b -> 0 < b -> exists f, py_truediv a b = Ret f.
Proof.
  intros Ha Hb. unfold py_truediv.
  destruct b as [|q|q]; [lia| |lia]. destruct a as [|p|p]; [eauto| |lia].
  rewrite of_ratio_finite by lia. eauto.
Qed.

(** ** Sequences of calls and the counters *)

Lemma counted_counters (o : outcome) (self : MessageParser) :
  messages_parsed (counted o self)
    = messages_parsed self + (if returned_success (Ret o) then 1 else 0) /\
  parse_errors (counted o self)
    = parse_errors self + (if returned_failure (Ret o) then 1 else 0) /\
  _use_cpp (counted o self) = _use_cpp self.
Proof. destruct o as [[] m]; simpl; repeat split; lia. Qed.

Lemma run_calls_counters (calls : list (world * pydata)) :
  forall self : MessageParser,
    messages_parsed (fst (run_calls self calls))
      = messages_parsed self + successes (snd (run_calls self calls)) /\
    parse_errors (fst (run_calls self calls))
      = parse_errors self + failures (snd (run_calls self calls)) /\
    _use_cpp (fst (run_calls self calls)) = _use_cpp self.
Proof.
  unfold successes, failures.
  induction calls as [|[w data] calls IH]; intros self; simpl;
    [repeat split; lia|].
  rewrite parse_message_outcome.
  destruct (parse_outcome w data) as [o|e]; cbn [bind].
  - specialize (IH (counted o self)).
    destruct (run_calls (counted o self) calls) as [final outs].
    destruct (counted_counters o self) as (C1 & C2 & C3).
    cbn [fst snd count] in *. rewrite C1, C2, C3 in IH.
    destruct IH as (I1 & I2 & I3).
    destruct o as [[] m]; simpl in *; repeat split; (lia || done).
  - specialize (IH self).
    destruct (run_calls self calls) as [final outs]. simpl in *.
    destruct IH as (I1 & I2 & I3). repeat split; (lia || done).
Qed.

(** The outcomes of a sequence of calls do not depend on the counters. *)
Lemma run_calls_outcomes (calls : list (world * pydata)) :
  forall self1 self2 : MessageParser,
    snd (run_calls self1 calls) = snd (run_calls self2 calls).
Proof.
  induction calls as [|[w data] calls IH]; intros self1 self2; simpl; [done|].
  rewrite (parse_message_outcome self1), (parse_message_outcome self2).
  destruct (parse_outcome w data) as [o|e]; cbn [bind].
  - specialize (IH (counted o self1) (counted o self2)).
    destruct (run_calls (counted o self1) calls), (run_calls (counted o self2) calls).
    simpl in *. by rewrite IH.
  - specialize (IH self1 self2).
    destruct (run_calls self1 calls), (run_calls self2 calls).
    simpl in *. by rewrite IH.
Qed.

Lemma count_nonneg {A : Type} (f : A -> bool) (l : list A) : 0 <= count f l.
Proof. induction l as [|x l IH]; simpl; [lia|]. destruct (f x); lia. Qed.

(** ** The claims *)

(** C8.  After any sequence of calls of [parse_message] on a fresh parser,
    of which N returned SUCCESS and M another status, [get_statistics]
    returns [messages_parsed] N, [parse_errors] M and the [error_rate]
    that Python computes for [M / max(1, N + M)]; on a fresh parser the
    rate is 0.0, no division by zero occurs.  [reset_statistics] sets both
    counters to 0, and any calls made after it have the same outcomes
    (status and message) as without it, and are counted from zero. *)
Theorem C8_statistics (cpp_loaded : bool) (calls : list (world * pydata)) :
  let self := fst (run_calls (MessageParser_init cpp_loaded) calls) in
  let N := successes (snd (run_calls (MessageParser_init cpp_loaded) calls)) in
  let M := failures (snd (run_calls (MessageParser_init cpp_loaded) calls)) in
  (exists rate,
     py_truediv M (Z.max 1 (N + M)) = Ret rate /\
     get_statistics self =
       Ret {| stat_messages_parsed := N;
              stat_parse_errors := M;
              stat_error_rate := rate;
              stat_implementation := if cpp_loaded then "C++" else "Python" |}) /\
  get_statistics (MessageParser_init cpp_loaded) =
    Ret {| stat_messages_parsed := 0;
           stat_parse_errors := 0;
           stat_error_rate := Float.zero;
           stat_implementation := if cpp_loaded then "C++" else "Python" |} /\
  messages_parsed (reset_statistics self) = 0 /\
  parse_errors (reset_statistics self) = 0 /\
  forall later : list (world * pydata),
    snd (run_calls (reset_statistics self) later) = snd (run_calls self later) /\
    messages_parsed (fst (run_calls (reset_statistics self) later))
      = successes (snd (run_calls self later)) /\
    parse_errors (fst (run_calls (reset_statistics self) later))
      = failures (snd (run_calls self later)).
Proof.
  intros self N M.
  destruct (run_calls_counters calls (MessageParser_init cpp_loaded))
    as (HN & HM & Hcpp).
  fold self in HN, HM, Hcpp. fold N in HN. fold M in HM. simpl in HN, HM, Hcpp.
  rewrite Z.add_0_l in HN, HM.
  assert (HN0 : 0 <= N) by apply count_nonneg.
  assert (HM0 : 0 <= M) by apply count_nonneg.
  split; [|split; [done|split; [done|split; [done|]]]].
  - destruct (py_truediv_returns M (Z.max 1 (N + M))) as [rate Hrate]; [lia|lia|].
    exists rate. split; [done|].
    unfold get_statistics. rewrite HN, HM, Hcpp, Hrate. done.
  - intros later.
    rewrite <- (run_calls_outcomes later (reset_statistics self) self).
    destruct (run_calls_counters later (reset_statistics self)) as (H1 & H2 & _).
    simpl in H1, H2. split; [done|]. split; lia.
Qed.

(** How the facade turns the result of an extractor into its own. *)
Lemma parse_message_success (self : MessageParser) (w : world) (data : pydata)
    (b : bytes) (m0 : MarketMessage.t) :
  to_bytes data = Ret b ->
  dispatch w (_detect_protocol b) b = Ret (Some (ParseResult.SUCCESS, Some m0)) ->
  parse_message self w data
    = Ret (count_parsed self, (ParseResult.SUCCESS, backfill w (Some m0))).
Proof.
  intros Hb Hd. unfold parse_message. rewrite Hb. cbn [bind].
  destruct (_detect_protocol b); [discriminate Hd| |]; by rewrite Hd.
Qed.

Lemma parse_message_failure (self : MessageParser) (w : world) (data : pydata)
    (b : bytes) :
  to_bytes data = Ret b ->
  _detect_protocol b <> ProtocolType.UNKNOWN ->
  (dispatch w (_detect_protocol b) b = Ret (Some invalid_format) \/
   exists e, dispatch w (_detect_protocol b) b = Raise e) ->
  parse_message self w data = Ret (count_error self, invalid_format).
Proof.
  intros Hb Hp Hd. unfold parse_message. rewrite Hb. cbn [bind].
  destruct (_detect_protocol b); [done| |]; by destruct Hd as [->|[e ->]].
Qed.

(** C9.  The JSON message with bid 300.45, ask 300.55, bid size 75 and ask
    size 25 for MSFT parses to SUCCESS with price 300.5 (which is 601/2,
    and what [float] reads from the numeral 300.50), size 100 and message
    type QUOTE, given as bytes or as text, as soon as one level of
    recursion is left for [json.loads]. *)
Theorem C9_mid_price (self : MessageParser) (w : world) :
  (1 <= recursion_depth w)%nat ->
  let text := bq "{'symbol':'MSFT','bid':300.45,'ask':300.55,'bid_size':75,'ask_size':25}" in
  exists m,
    parse_message self w (PyBytes text)
      = Ret (count_parsed self, (ParseResult.SUCCESS, Some m)) /\
    parse_message self w (PyStr (map Z_of_byte text))
      = Ret (count_parsed self, (ParseResult.SUCCESS, Some m)) /\
    MarketMessage.price m = Float.of_dyadic 601 (-1) /\
    Num.float_of_str (lit "300.50") = Ret (MarketMessage.price m) /\
    MarketMessage.size m = 100 /\
    MarketMessage.message_type m = MessageType.QUOTE.
Proof.
  intros Hdepth text.
  destruct w as [t [|depth]]; [simpl in Hdepth; lia|]. clear Hdepth.
  set (w := {| now := t; recursion_depth := S depth |}).
  set (m0 := {| MarketMessage.timestamp := 0;
                MarketMessage.symbol := PStr (lit "MSFT");
                MarketMessage.side := Side.UNKNOWN;
                MarketMessage.price := Float.of_dyadic 601 (-1);
                MarketMessage.size := 100;
                MarketMessage.message_type := MessageType.QUOTE |}).
  assert (Hd : dispatch w (_detect_protocol text) text
               = Ret (Some (ParseResult.SUCCESS, Some m0)))
    by (vm_compute; reflexivity).
  exists (MarketMessage.set_timestamp t m0).
  split; [|split].
  - by rewrite (parse_message_success self w (PyBytes text) text m0).
  - rewrite (parse_message_success self w (PyStr (map Z_of_byte text)) text m0);
      [done| |done].
    vm_compute. reflexivity.
  - repeat split; vm_compute; reflexivity.
Qed.

Lemma C9_mid_price_witness :
  (1 <= recursion_depth {| now := 1700000000000000000; recursion_depth := 900 |})%nat /\
  exists m,
    parse_message (MessageParser_init false)
      {| now := 1700000000000000000; recursion_depth := 900 |}
      (PyBytes (bq "{'symbol':'MSFT','bid':300.45,'ask':300.55,'bid_size':75,'ask_size':25}"))
      = Ret (count_parsed (MessageParser_init false), (ParseResult.SUCCESS, Some m)) /\
    MarketMessage.size m = 100.
Proof.
  assert (H : (1 <= recursion_depth
                     {| now := 1700000000000000000; recursion_depth := 900 |})%nat)
    by (simpl; lia).
  split; [exact H|].
  destruct (C9_mid_price (MessageParser_init false) _ H) as (m & H1 & _ & _ & _ & H2 & _).
  exists m. split; [exact H1 | exact H2].
Defined.

(** C1.  On the tag-value message whose tag 55 has the value [AB|CD], the
    parser returns SUCCESS with the symbol [AB]: the field segmentation of
    [_parse_fix_message] splits on the vertical bar as well as on the
    control byte 0x01, whereas a segmentation on the control byte alone
    gives tag 55 the value [AB|CD]. *)
Theorem C1_vertical_bar_splits_value (self : MessageParser) (w : world) :
  let data := bsoh "8=FIX.4.4;55=AB|CD;" in
  fix_tag_spec data (lit "55") = Some (lit "AB|CD") /\
  exists m,
    parse_message self w (PyBytes data)
      = Ret (count_parsed self, (ParseResult.SUCCESS, Some m)) /\
    MarketMessage.symbol m = PStr (lit "AB") /\
    MarketMessage.symbol m <> PStr (lit "AB|CD").
Proof.
  intros data. split; [vm_compute; reflexivity|].
  set (m0 := MarketMessage.set_symbol (PStr (lit "AB")) MarketMessage.new).
  assert (Hd : dispatch w (_detect_protocol data) data
               = Ret (Some (ParseResult.SUCCESS, Some m0)))
    by (vm_compute; reflexivity).
  exists (MarketMessage.set_timestamp (now w) m0).
  split; [|split].
  - by rewrite (parse_message_success self w (PyBytes data) data m0).
  - reflexivity.
  - vm_compute. discriminate.
Qed.

(** C6.  A text that holds a lone surrogate code point cannot be encoded
    as UTF-8: the encoding stands before the [try] block of
    [parse_message], and the [UnicodeEncodeError] escapes to the caller.
    For every byte string the call returns a pair of a status and a
    message, and for every argument on which the call returns, the message
    is [None] if and only if the status is not SUCCESS. *)
Theorem C6_encoding_error_escapes (self : MessageParser) (w : world) :
  parse_message self w (PyStr [0xD800]) = Raise UnicodeEncodeError /\
  (forall b : bytes,
     exists o, parse_message self w (PyBytes b) = Ret (counted o self, o)) /\
  (forall (data : pydata) (self' : MessageParser) (o : outcome),
     parse_message self w data = Ret (self', o) ->
     (snd o = None <-> fst o <> ParseResult.SUCCESS)).
Proof.
  split; [reflexivity|]. split.
  - intros b. destruct (parse_message_returns w (PyBytes b) b eq_refl) as [o Ho].
    by exists o.
  - intros data self' o H.
    apply parse_message_shape in H as [[m ->]|[H1 H2]]; simpl; [|done].
    split; [discriminate|done].
Qed.

Lemma C6_encoding_error_escapes_witness :
  parse_message (MessageParser_init false)
    {| now := 1700000000000000000; recursion_depth := 900 |}
    (PyBytes (blit "INVALID_MESSAGE_FORMAT"))
    = Ret (count_error (MessageParser_init false),
           (ParseResult.UNKNOWN_PROTOCOL, None)) /\
  (snd (ParseResult.UNKNOWN_PROTOCOL, @None MarketMessage.t) = None
   <-> fst (ParseResult.UNKNOWN_PROTOCOL, @None MarketMessage.t)
       <> ParseResult.SUCCESS).
Proof.
  assert (H : parse_message (MessageParser_init false)
                {| now := 1700000000000000000; recursion_depth := 900 |}
                (PyBytes (blit "INVALID_MESSAGE_FORMAT"))
              = Ret (count_error (MessageParser_init false),
                     (ParseResult.UNKNOWN_PROTOCOL, None)))
    by (vm_compute; reflexivity).
  split; [exact H|].
  exact (proj2 (proj2 (C6_encoding_error_escapes _ _)) _ _ _ H).
Defined.

(** C2, as the code has it.  A buffer of fewer than two bytes is UNKNOWN;
    one whose first two bytes are [8=] is FIX; any other is decoded as
    UTF-8 with the invalid sequences dropped (which never fails), stripped
    of leading whitespace, and is WEBSOCKET_JSON if and only if the first
    remaining character is an opening brace, else UNKNOWN.  On a buffer
    that is valid UTF-8 the detector agrees with the one that replaces
    invalid sequences. *)
Theorem C2_detect_protocol_drops_invalid (data : bytes) :
  ((length data < 2)%nat -> _detect_protocol data = ProtocolType.UNKNOWN) /\
  ((2 <= length data)%nat -> take 2 data = blit "8=" ->
   _detect_protocol data = ProtocolType.FIX) /\
  Utf8.decode Utf8.ignore data = Ret (Utf8.decode_ignore data) /\
  ((2 <= length data)%nat -> take 2 data <> blit "8=" ->
   (_detect_protocol data = ProtocolType.WEBSOCKET_JSON <->
    head (str_lstrip (Utf8.decode_ignore data)) = Some 0x7B) /\
   (_detect_protocol data <> ProtocolType.WEBSOCKET_JSON ->
    _detect_protocol data = ProtocolType.UNKNOWN)) /\
  (forall s, Utf8.decode Utf8.strict data = Ret s ->
   _detect_protocol data = detect_spec data).
Proof.
  split; [apply detect_protocol_short|].
  split.
  { intros Hlen Hp. rewrite detect_protocol_long by done.
    by rewrite bool_decide_eq_true_2. }
  split; [apply decode_ignore_returns|].
  split.
  { intros Hlen Hp. rewrite detect_protocol_long by done.
    rewrite bool_decide_eq_false_2 by done.
    destruct (str_lstrip (Utf8.decode_ignore data)) as [|c s]; simpl.
    - split; [split; discriminate|done].
    - destruct (decide (c = 0x7B)) as [->|Hc].
      + split; [done|]. intros H. by destruct H.
      + assert (H : match c with 0x7B => ProtocolType.WEBSOCKET_JSON
                            | _ => ProtocolType.UNKNOWN end = ProtocolType.UNKNOWN).
        { destruct c as [|p|p]; try done.
          repeat (destruct p as [p|p|]; try done). }
        rewrite H. split; [|done]. split; [discriminate|]. intros [= ->]. done. }
  intros s Hs. unfold detect_spec.
  destruct (Nat.ltb_spec (length data) 2) as [Hlen|Hlen].
  { by apply detect_protocol_short. }
  rewrite detect_protocol_long by done.
  destruct (bool_decide (take 2 data = blit "8=")); [done|].
  rewrite (decode_strict_agrees Utf8.replace data s Hs).
  pose proof (decode_ignore_returns data) as Hi.
  rewrite (decode_strict_agrees Utf8.ignore data s Hs) in Hi.
  by injection Hi as <-.
Qed.

Lemma C2_detect_protocol_drops_invalid_witness :
  (2 <= length (bq "  {'a': 1}"))%nat /\
  take 2 (bq "  {'a': 1}") <> blit "8=" /\
  (_detect_protocol (bq "  {'a': 1}") = ProtocolType.WEBSOCKET_JSON <->
   head (str_lstrip (Utf8.decode_ignore (bq "  {'a': 1}"))) = Some 0x7B).
Proof.
  assert (H1 : (2 <= length (bq "  {'a': 1}"))%nat) by (vm_compute; lia).
  assert (H2 : take 2 (bq "  {'a': 1}") <> blit "8=") by (vm_compute; discriminate).
  split; [exact H1|]. split; [exact H2|].
  exact (proj1 (proj1 (proj2 (proj2 (proj2
           (C2_detect_protocol_drops_invalid (bq "  {'a': 1}"))))) H1 H2)).
Defined.

(** C2 fails as stated: on the two bytes 0xFF and an opening brace the
    detector of the code answers WEBSOCKET_JSON (the invalid byte is
    dropped), the one that replaces invalid sequences answers UNKNOWN (the
    first character is U+FFFD). *)
Lemma C2_counterexample :
  _detect_protocol [xff; x7b] = ProtocolType.WEBSOCKET_JSON /\
  detect_spec [xff; x7b] = ProtocolType.UNKNOWN /\
  _detect_protocol [xff; x7b] <> detect_spec [xff; x7b].
Proof. repeat split; vm_compute; (reflexivity || discriminate). Qed.

Lemma dispatch_fix (w : world) (b : bytes) :
  dispatch w ProtocolType.FIX b
    = let* o := _parse_fix_message b in Ret (Some o).
Proof. reflexivity. Qed.

Lemma dispatch_json (w : world) (b : bytes) :
  dispatch w ProtocolType.WEBSOCKET_JSON b
    = let* o := _parse_websocket_json (recursion_depth w) b in Ret (Some o).
Proof. reflexivity. Qed.

(** A message returned by the facade is the message of the extractor of
    the detected protocol, with the timestamp backfilled. *)
Lemma parse_message_success_inv (self : MessageParser) (w : world)
    (data : pydata) (self' : MessageParser) (r : ParseResult.t)
    (m : MarketMessage.t) :
  parse_message self w data = Ret (self', (r, Some m)) ->
  r = ParseResult.SUCCESS /\
  exists b m0,
    to_bytes data = Ret b /\
    backfill w (Some m0) = Some m /\
    ((_detect_protocol b = ProtocolType.FIX /\
      _parse_fix_message b = Ret (ParseResult.SUCCESS, Some m0)) \/
     (_detect_protocol b = ProtocolType.WEBSOCKET_JSON /\
      _parse_websocket_json (recursion_depth w) b
        = Ret (ParseResult.SUCCESS, Some m0))).
Proof.
  intros H. apply parse_message_inv in H as (b & Hb & [H|[H|H]]).
  - by destruct H as (_ & [=] & _).
  - destruct H as (Hp & m0 & Hd & [= -> Hm] & _). split; [done|].
    exists b, m0. split; [done|]. split; [done|].
    destruct (_detect_protocol b); [done| |].
    + left. split; [done|]. rewrite dispatch_fix in Hd.
      by apply bind_Ret_inv in Hd as (o & -> & [= ->]).
    + right. split; [done|]. rewrite dispatch_json in Hd.
      by apply bind_Ret_inv in Hd as (o & -> & [= ->]).
  - by destruct H as (_ & [=] & _).
Qed.

Lemma backfill_fields (w : world) (m0 m : MarketMessage.t) :
  backfill w (Some m0) = Some m ->
  MarketMessage.symbol m = MarketMessage.symbol m0 /\
  MarketMessage.size m = MarketMessage.size m0 /\
  MarketMessage.timestamp m
    = (if MarketMessage.timestamp m0 =? 0 then now w
       else MarketMessage.timestamp m0).
Proof.
  unfold backfill. destruct (MarketMessage.timestamp m0 =? 0) eqn:E;
    intros [= <-]; simpl; by rewrite ?E.
Qed.

Lemma json_extract_of_fields (depth : nat) (data : bytes) (text : str)
    (j : pyvalue) :
  Utf8.decode Utf8.strict data = Ret text ->
  Json.loads depth text = Ret j ->
  _parse_websocket_json depth data
    = try_except (websocket_fields j)
        (fun e => isinstance_ValueError e || isinstance_KeyError e)
        (Ret invalid_format).
Proof.
  intros Hd Hj. unfold _parse_websocket_json.
  rewrite Hd. cbn [bind]. by rewrite Hj.
Qed.

(** ** What the decoder and [json.loads] raise *)













(** C4, as the code has it.  With a clock that reads a positive time, a
    message returned with SUCCESS has a timestamp other than 0.  When the
    data carry no timestamp it is the clock reading.  When they carry one
    that is not 0 it is that value, negative ones included; a timestamp of
    0 in the data counts as none and is replaced by the clock reading. *)
Theorem C4_timestamp_backfill (self : MessageParser) (w : world)
    (data : pydata) (b : bytes) (self' : MessageParser) (m : MarketMessage.t) :
  0 < now w ->
  to_bytes data = Ret b ->
  parse_message self w data = Ret (self', (ParseResult.SUCCESS, Some m)) ->
  MarketMessage.timestamp m <> 0 /\
  match source_timestamp (recursion_depth w) b with
  | None => MarketMessage.timestamp m = now w
  | Some t => MarketMessage.timestamp m = if t =? 0 then now w else t
  end.
Proof.
  intros Hnow Hb H.
  apply parse_message_success_inv in H as (_ & b' & m0 & Hb' & Hm & H).
  rewrite Hb in Hb'. injection Hb' as <-.
  apply backfill_fields in Hm as (_ & _ & Ht).
  assert (Hne : MarketMessage.timestamp m <> 0).
  { rewrite Ht. destruct (Z.eqb_spec (MarketMessage.timestamp m0) 0); lia. }
  split; [done|]. unfold source_timestamp.
  destruct H as [[Hp H]|[Hp H]]; rewrite Hp.
  - apply fix_success in H as (_ & symbol & _ & _ & _ & H0 & _).
    by rewrite Ht, H0.
  - apply json_extract_success in H
      as (_ & text & d & v & Hd & Hj & _ & _ & _ & Hts & _).
    unfold json_key. rewrite Hd, Hj.
    destruct (dict_get d (lit "timestamp")) as [tv|].
    + by rewrite Hts.
    + by rewrite Ht, Hts.
Qed.

Lemma C4_timestamp_backfill_witness :
  0 < now {| now := 1700000000000000000; recursion_depth := 900 |} /\
  to_bytes (PyBytes (bq "{'symbol': 'A', 'timestamp': -5}"))
    = Ret (bq "{'symbol': 'A', 'timestamp': -5}") /\
  source_timestamp 900 (bq "{'symbol': 'A', 'timestamp': -5}") = Some (-5) /\
  exists m,
    parse_message (MessageParser_init false)
      {| now := 1700000000000000000; recursion_depth := 900 |}
      (PyBytes (bq "{'symbol': 'A', 'timestamp': -5}"))
      = Ret (count_parsed (MessageParser_init false),
             (ParseResult.SUCCESS, Some m)) /\
    MarketMessage.timestamp m <> 0.
Proof.
  assert (H1 : 0 < now {| now := 1700000000000000000; recursion_depth := 900 |})
    by (simpl; lia).
  split; [exact H1|]. split; [reflexivity|]. split; [vm_compute; reflexivity|].
  eexists. split; [vm_compute; reflexivity|].
  exact (proj1 (C4_timestamp_backfill (MessageParser_init false)
                  {| now := 1700000000000000000; recursion_depth := 900 |}
                  (PyBytes (bq "{'symbol': 'A', 'timestamp': -5}"))
                  _ _ _ H1 eq_refl
                  ltac:(vm_compute; reflexivity))).
Defined.

(** C4 fails as stated: a JSON message that carries the timestamp 0 is
    returned with the clock reading as its timestamp, not with the value
    it carries. *)
Lemma C4_counterexample :
  source_timestamp 900 (bq "{'symbol': 'A', 'timestamp': 0}") = Some 0 /\
  exists m,
    parse_message (MessageParser_init false)
      {| now := 1700000000000000000; recursion_depth := 900 |}
      (PyBytes (bq "{'symbol': 'A', 'timestamp': 0}"))
      = Ret (count_parsed (MessageParser_init false),
             (ParseResult.SUCCESS, Some m)) /\
    MarketMessage.timestamp m = 1700000000000000000 /\
    MarketMessage.timestamp m <> 0.
Proof.
  split; [vm_compute; reflexivity|].
  eexists. split; [vm_compute; reflexivity|].
  split; [reflexivity|]. simpl. lia.
Qed.

(** C5.  The tag-value extractor stores a non-empty text as the symbol of
    every message it returns, the value of tag 55.  The JSON extractor
    stores the value of the key [symbol] as it is, after a test of its
    truth value only: on the JSON message whose symbol is the number 5 the
    parser returns SUCCESS with the number 5 as symbol, which is no text.
    What holds of every message returned with SUCCESS is that its symbol
    is a true value, the value of tag 55 or of the key, and not empty
    whenever it is a text; a message without tag 55, and one without the
    key, is answered INVALID_FORMAT without a message, whatever its other
    fields. *)
Theorem C5_symbol_required (self : MessageParser) (w : world) :
  ((1 <= recursion_depth w)%nat ->
   exists m,
     parse_message self w (PyBytes (bq "{'symbol': 5}"))
       = Ret (count_parsed self, (ParseResult.SUCCESS, Some m)) /\
     MarketMessage.symbol m = PInt 5 /\
     is_nonempty_text (MarketMessage.symbol m) = false) /\
  (forall (data : pydata) (b : bytes) (self' : MessageParser) (o : outcome),
     to_bytes data = Ret b ->
     parse_message self w data = Ret (self', o) ->
     (forall m, snd o = Some m ->
        fst o = ParseResult.SUCCESS /\
        truthy (MarketMessage.symbol m) = true /\
        (forall s, MarketMessage.symbol m = PStr s -> s <> []) /\
        (_detect_protocol b = ProtocolType.FIX ->
         is_nonempty_text (MarketMessage.symbol m) = true /\
         exists s, fix_tag b (lit "55") = Some s /\
                   MarketMessage.symbol m = PStr s) /\
        (_detect_protocol b = ProtocolType.WEBSOCKET_JSON ->
         json_key (recursion_depth w) b (lit "symbol")
           = Some (MarketMessage.symbol m))) /\
     (_detect_protocol b = ProtocolType.FIX ->
      fix_tag b (lit "55") = None -> o = invalid_format) /\
     (_detect_protocol b = ProtocolType.WEBSOCKET_JSON ->
      json_key (recursion_depth w) b (lit "symbol") = None -> o = invalid_format)).
Proof.
  split.
  { intros Hdepth.
    destruct w as [t [|depth]]; [simpl in Hdepth; lia|]. clear Hdepth.
    set (w := {| now := t; recursion_depth := S depth |}).
    set (m0 := MarketMessage.set_message_type MessageType.MARKET_DATA
                 (MarketMessage.set_symbol (PInt 5) MarketMessage.new)).
    assert (Hd : dispatch w (_detect_protocol (bq "{'symbol': 5}"))
                   (bq "{'symbol': 5}")
                 = Ret (Some (ParseResult.SUCCESS, Some m0)))
      by (vm_compute; reflexivity).
    exists (MarketMessage.set_timestamp t m0). split; [|done].
    by rewrite (parse_message_success self w (PyBytes (bq "{'symbol': 5}"))
                  (bq "{'symbol': 5}") m0). }
  intros data b self' o Hb H. split; [|split].
  - intros m Hm. destruct o as [r om]. simpl in Hm. subst om.
    apply parse_message_success_inv in H as (-> & b' & m0 & Hb' & Hbf & H).
    rewrite Hb in Hb'. injection Hb' as <-.
    apply backfill_fields in Hbf as (Hs & _ & _). rewrite Hs.
    split; [done|].
    destruct H as [[Hp H]|[Hp H]].
    + apply fix_success in H as (_ & symbol & H55 & Hne & -> & _).
      destruct symbol as [|c symbol]; [done|].
      split; [done|]. split; [by intros s [= <-]|].
      split; [|by rewrite Hp]. intros _. split; [done|]. eauto.
    + apply json_extract_success in H
        as (_ & text & d & v & Hd & Hj & Hk & Hv & -> & _).
      split; [done|]. split; [by intros s -> ->|].
      split; [by rewrite Hp|]. intros _.
      unfold json_key. by rewrite Hd, Hj.
  - intros Hp H55.
    apply parse_message_inv in H as (b' & Hb' & H).
    rewrite Hb in Hb'. injection Hb' as <-.
    destruct H as [H|[H|H]].
    + destruct H as (Hu & _). by rewrite Hp in Hu.
    + destruct H as (_ & m0 & Hd & _). rewrite Hp, dispatch_fix in Hd.
      by rewrite (fix_no_symbol b H55) in Hd.
    + by destruct H as (_ & -> & _).
  - intros Hp Hsym.
    apply parse_message_inv in H as (b' & Hb' & H).
    rewrite Hb in Hb'. injection Hb' as <-.
    destruct H as [H|[H|H]].
    + destruct H as (Hu & _). by rewrite Hp in Hu.
    + destruct H as (_ & m0 & Hd & _). rewrite Hp, dispatch_json in Hd.
      apply bind_Ret_inv in Hd as (o' & Ho' & [= ->]).
      apply json_extract_no_symbol in Ho'; [done|]. by rewrite Hsym.
    + by destruct H as (_ & -> & _).
Qed.

Lemma C5_symbol_required_witness :
  (exists m,
     parse_message (MessageParser_init false)
       {| now := 1700000000000000000; recursion_depth := 900 |}
       (PyBytes (bq "{'symbol': 5}"))
       = Ret (count_parsed (MessageParser_init false),
              (ParseResult.SUCCESS, Some m)) /\
     MarketMessage.symbol m = PInt 5 /\
     is_nonempty_text (MarketMessage.symbol m) = false) /\
  exists m,
    parse_message (MessageParser_init false)
      {| now := 1700000000000000000; recursion_depth := 900 |}
      (PyBytes (bsoh "8=FIX.4.4;35=D;55=AAPL;54=1;44=150.25;38=100;"))
      = Ret (count_parsed (MessageParser_init false),
             (ParseResult.SUCCESS, Some m)) /\
    is_nonempty_text (MarketMessage.symbol m) = true /\
    exists s,
      fix_tag (bsoh "8=FIX.4.4;35=D;55=AAPL;54=1;44=150.25;38=100;") (lit "55")
        = Some s /\
      MarketMessage.symbol m = PStr s.
Proof.
  set (w := {| now := 1700000000000000000; recursion_depth := 900 |}).
  set (b := bsoh "8=FIX.4.4;35=D;55=AAPL;54=1;44=150.25;38=100;").
  pose proof (C5_symbol_required (MessageParser_init false) w) as [Hbug Hall].
  split; [apply Hbug; simpl; lia|].
  assert (H2 : _detect_protocol b = ProtocolType.FIX) by (vm_compute; reflexivity).
  eexists. split; [vm_compute; reflexivity|].
  destruct (proj1 (Hall (PyBytes b) b _ _ eq_refl ltac:(vm_compute; reflexivity))
              _ eq_refl) as (_ & _ & _ & F & _).
  exact (F H2).
Defined.




(** ** The symbol of a JSON message *)

Lemma json_side_symbol (d d' : pydict) (v : pyvalue) (m : MarketMessage.t) :
  same_but_symbol d d' ->
  json_side (PDict d') (MarketMessage.set_symbol v m)
    = res_map (MarketMessage.set_symbol v) (json_side (PDict d) m).
Proof.
  intros Hd. unfold json_side, py_get. cbn [bind]. other_key Hd.
  destruct (py_lower _); cbn [bind res_map]; [|done].
  repeat match goal with |- context [if ?b then _ else _] => destruct b end; done.
Qed.

Lemma json_price_size_symbol (d d' : pydict) (v : pyvalue) (m : MarketMessage.t) :
  same_but_symbol d d' ->
  json_price_size (PDict d') (MarketMessage.set_symbol v m)
    = res_map (MarketMessage.set_symbol v) (json_price_size (PDict d) m).
Proof.
  intros Hd. unfold json_price_size, py_contains, py_getitem, py_get, dict_mem.
  cbn [bind]. other_key Hd.
  repeat match goal with
  | |- context [match dict_get d ?k with _ => _ end] =>
      destruct (dict_get d k); cbn [bind andb res_map]
  | |- context [bind (py_float ?x) _] =>
      destruct (py_float x); cbn [bind andb res_map]
  | |- context [bind (py_int ?x) _] =>
      destruct (py_int x); cbn [bind andb res_map]
  end; done.
Qed.

Lemma json_message_type_symbol (d d' : pydict) (v : pyvalue)
    (m : MarketMessage.t) :
  same_but_symbol d d' ->
  json_message_type (PDict d') (MarketMessage.set_symbol v m)
    = res_map (MarketMessage.set_symbol v) (json_message_type (PDict d) m).
Proof.
  intros Hd. unfold json_message_type, py_get. cbn [bind]. other_key Hd.
  destruct (py_lower _); cbn [bind res_map]; [|done].
  repeat match goal with |- context [if ?b then _ else _] => destruct b end;
    try done.
  simpl. by destruct (MarketMessage.message_type m).
Qed.

Lemma json_timestamp_symbol (d d' : pydict) (v : pyvalue) (m : MarketMessage.t) :
  same_but_symbol d d' ->
  json_timestamp (PDict d') (MarketMessage.set_symbol v m)
    = res_map (MarketMessage.set_symbol v) (json_timestamp (PDict d) m).
Proof.
  intros Hd. unfold json_timestamp, py_contains, py_getitem, dict_mem.
  cbn [bind]. other_key Hd.
  destruct (dict_get d (lit "timestamp")); cbn [bind res_map]; [|done].
  by destruct (py_int _).
Qed.

(** Which true value the key [symbol] has does not matter to the rest of
    the extraction. *)
Lemma websocket_fields_symbol (d d' : pydict) (v v' : pyvalue) :
  same_but_symbol d d' ->
  dict_get d (lit "symbol") = Some v -> truthy v = true ->
  dict_get d' (lit "symbol") = Some v' -> truthy v' = true ->
  websocket_fields (PDict d') = with_symbol v' (websocket_fields (PDict d)).
Proof.
  intros Hd Hv Tv Hv' Tv'. unfold websocket_fields, py_get. cbn [bind].
  rewrite Hv, Hv', Tv, Tv'. cbn [negb].
  change (MarketMessage.set_symbol v' MarketMessage.new)
    with (MarketMessage.set_symbol v'
            (MarketMessage.set_symbol v MarketMessage.new)).
  rewrite (json_side_symbol d d') by done.
  destruct (json_side (PDict d) _) as [m1|e]; cbn [bind res_map]; [|done].
  rewrite (json_price_size_symbol d d') by done.
  destruct (json_price_size (PDict d) _) as [m2|e]; cbn [bind res_map]; [|done].
  rewrite (json_message_type_symbol d d') by done.
  destruct (json_message_type (PDict d) _) as [m3|e]; cbn [bind res_map]; [|done].
  rewrite (json_timestamp_symbol d d') by done.
  by destruct (json_timestamp (PDict d) _) as [m4|e].
Qed.

(** ** The status of a JSON object *)

(** The blocks that a successful JSON extraction went through. *)
Lemma websocket_success_blocks (d : pydict) (r : ParseResult.t)
    (m : MarketMessage.t) :
  websocket_fields (PDict d) = Ret (r, Some m) ->
  exists v m1 m2 m3,
    dict_get d (lit "symbol") = Some v /\
    json_side (PDict d) (MarketMessage.set_symbol v MarketMessage.new) = Ret m1 /\
    json_price_size (PDict d) m1 = Ret m2 /\
    json_message_type (PDict d) m2 = Ret m3 /\
    json_timestamp (PDict d) m3 = Ret m.
Proof.
  unfold websocket_fields, py_get. cbn [bind]. intros H.
  destruct (dict_get d (lit "symbol")) as [v|] eqn:Ev; [|discriminate H].
  destruct (truthy v); [|discriminate H]. cbn [negb] in H.
  apply bind_Ret_inv in H as (m1 & H1 & H).
  apply bind_Ret_inv in H as (m2 & H2 & H).
  apply bind_Ret_inv in H as (m3 & H3 & H).
  apply bind_Ret_inv in H as (m4 & H4 & H).
  injection H as <- <-. by exists v, m1, m2, m3.
Qed.

Lemma json_side_returns (d : pydict) (m : MarketMessage.t) :
  (exists m', json_side (PDict d) m = Ret m') <->
  (exists s, default (PStr []) (dict_get d (lit "side")) = PStr s).
Proof.
  unfold json_side, py_get, py_lower, default. cbn [bind].
  destruct (dict_get d (lit "side")) as [[| | | |s| |]|]; cbn [bind];
    (split; [intros [m' H]; try discriminate H; eauto
            |intros [s' H]; try discriminate H; eauto]).
Qed.

Lemma json_message_type_returns (d : pydict) (m : MarketMessage.t) :
  (exists m', json_message_type (PDict d) m = Ret m') <->
  (exists t, default (PStr []) (dict_get d (lit "type")) = PStr t).
Proof.
  unfold json_message_type, py_get, py_lower, default. cbn [bind].
  destruct (dict_get d (lit "type")) as [[| | | |s| |]|]; cbn [bind];
    (split; [intros [m' H]; try discriminate H; eauto
            |intros [s' H]; try discriminate H; eauto]).
Qed.

Lemma json_timestamp_returns (d : pydict) (m : MarketMessage.t) :
  (exists m', json_timestamp (PDict d) m = Ret m') <->
  match dict_get d (lit "timestamp") with
  | Some v => exists t, py_int v = Ret t
  | None => True
  end.
Proof.
  unfold json_timestamp, py_contains, py_getitem, dict_mem. cbn [bind].
  destruct (dict_get d (lit "timestamp")) as [v|]; cbn [bind].
  - destruct (py_int v) as [t|e]; cbn [bind].
    + split; eauto.
    + split; [by intros [m' [=]]|by intros [t [=]]].
  - split; eauto.
Qed.

Lemma json_price_size_returns (d : pydict) (m : MarketMessage.t) :
  (exists m', json_price_size (PDict d) m = Ret m') <->
  match dict_get d (lit "price") with
  | Some v =>
      (exists p, py_float v = Ret p) /\
      (exists n, py_int (default (PInt 0) (dict_get d (lit "size"))) = Ret n)
  | None =>
      match dict_get d (lit "bid"), dict_get d (lit "ask") with
      | Some vb, Some va =>
          (exists p, py_float vb = Ret p) /\
          (exists p, py_float va = Ret p) /\
          (exists n, py_int (default (PInt 0) (dict_get d (lit "bid_size"))) = Ret n) /\
          (exists n, py_int (default (PInt 0) (dict_get d (lit "ask_size"))) = Ret n)
      | _, _ => True
      end
  end.
Proof.
  unfold json_price_size, py_contains, py_getitem, py_get, dict_mem.
  cbn [bind].
  assert (Hdef : forall k x,
            match dict_get d k with Some v => v | None => x end
            = default x (dict_get d k))
    by (intros k x; by destruct (dict_get d k)).
  rewrite !Hdef. clear Hdef.
  destruct (dict_get d (lit "price")) as [pv|]; cbn [bind].
  - destruct (py_float pv) as [p|e]; cbn [bind].
    2:{ split; [by intros [m' [=]]|by intros [[p [=]] _]]. }
    destruct (py_int _) as [n|e]; cbn [bind].
    + split; eauto.
    + split; [by intros [m' [=]]|by intros [_ [n [=]]]].
  - destruct (dict_get d (lit "bid")) as [bv|]; cbn [bind andb]; [|split; eauto].
    destruct (dict_get d (lit "ask")) as [av|]; cbn [bind andb]; [|split; eauto].
    destruct (py_float bv) as [bid|e]; cbn [bind].
    2:{ split; [by intros [m' [=]]|by intros [[p [=]] _]]. }
    destruct (py_float av) as [ask|e]; cbn [bind].
    2:{ split; [by intros [m' [=]]|by intros (_ & [p [=]] & _)]. }
    destruct (py_int (default (PInt 0) (dict_get d (lit "bid_size"))))
      as [n1|e]; cbn [bind].
    2:{ split; [by intros [m' [=]]|by intros (_ & _ & [p [=]] & _)]. }
    destruct (py_int (default (PInt 0) (dict_get d (lit "ask_size"))))
      as [n2|e]; cbn [bind].
    2:{ split; [by intros [m' [=]]|by intros (_ & _ & _ & [p [=]])]. }
    split; [|eauto]. intros _. repeat split; eauto.
Qed.

Lemma websocket_fields_well_formed (d : pydict) :
  (exists m, websocket_fields (PDict d) = Ret (ParseResult.SUCCESS, Some m)) <->
  json_well_formed d.
Proof.
  unfold json_well_formed. split.
  - intros [m H].
    pose proof (websocket_fields_success _ _ _ H) as (_ & d0 & v & [= <-] & Hv & Tv & _).
    apply websocket_success_blocks in H as (v' & m1 & m2 & m3 & _ & H1 & H2 & H3 & H4).
    split; [eauto|].
    split; [apply (json_side_returns d
                     (MarketMessage.set_symbol v' MarketMessage.new)); eauto|].
    split; [apply (json_price_size_returns d m1); eauto|].
    split; [apply (json_message_type_returns d m2); eauto|].
    apply (json_timestamp_returns d m3); eauto.
  - intros ((v & Hv & Tv) & Hside & Hprice & Htype & Hts).
    unfold websocket_fields, py_get. cbn [bind]. rewrite Hv, Tv. cbn [negb].
    apply (json_side_returns d (MarketMessage.set_symbol v MarketMessage.new))
      in Hside as [m1 ->]. cbn [bind].
    apply (json_price_size_returns d m1) in Hprice as [m2 ->]. cbn [bind].
    apply (json_message_type_returns d m2) in Htype as [m3 ->]. cbn [bind].
    apply (json_timestamp_returns d m3) in Hts as [m4 ->]. cbn [bind].
    eauto.
Qed.

(** C10, as the code has it.  In the JSON extractor, a key [symbol] with
    a false value (an empty string, 0, 0.0, false, null, an empty array or
    object) gives INVALID_FORMAT without a message, as a missing key does.
    A true value, a text or not, is accepted and stored as it is as the
    symbol of every message the extractor returns.  The extractor then
    answers SUCCESS exactly when the other keys it reads are well formed
    ([side] and [type] are strings where present, and the values that are
    converted are convertible), and never SUCCESS otherwise; an object
    with the key [symbol] alone gives SUCCESS; and for any object, putting
    another true value for the symbol changes nothing in the outcome but
    the symbol of the message. *)
Theorem C10_symbol_truthiness (depth : nat) (data : bytes) (text : str)
    (d : pydict) :
  Utf8.decode Utf8.strict data = Ret text ->
  Json.loads depth text = Ret (PDict d) ->
  match dict_get d (lit "symbol") with
  | None => _parse_websocket_json depth data = Ret invalid_format
  | Some v =>
      if truthy v then
        ((exists m, _parse_websocket_json depth data
                    = Ret (ParseResult.SUCCESS, Some m) /\
                    MarketMessage.symbol m = v)
         <-> json_well_formed d) /\
        (~ json_well_formed d ->
         _parse_websocket_json depth data = Ret invalid_format \/
         exists e, _parse_websocket_json depth data = Raise e /\
                   isinstance_ValueError e = false /\
                   isinstance_KeyError e = false) /\
        (forall r m, _parse_websocket_json depth data = Ret (r, Some m) ->
                     r = ParseResult.SUCCESS /\ MarketMessage.symbol m = v) /\
        (d = [(lit "symbol", v)] ->
         _parse_websocket_json depth data
           = Ret (ParseResult.SUCCESS,
                  Some (MarketMessage.set_message_type MessageType.MARKET_DATA
                          (MarketMessage.set_symbol v MarketMessage.new)))) /\
        (forall data' text' d' v',
           Utf8.decode Utf8.strict data' = Ret text' ->
           Json.loads depth text' = Ret (PDict d') ->
           same_but_symbol d d' ->
           dict_get d' (lit "symbol") = Some v' -> truthy v' = true ->
           _parse_websocket_json depth data'
             = with_symbol v' (_parse_websocket_json depth data))
      else _parse_websocket_json depth data = Ret invalid_format
  end.
Proof.
  intros Hd Hj.
  destruct (dict_get d (lit "symbol")) as [v|] eqn:Hv.
  2:{ rewrite (json_extract_of_fields depth data text _ Hd Hj).
      rewrite websocket_fields_no_symbol; [done|]. by rewrite Hv. }
  destruct (truthy v) eqn:Tv.
  2:{ rewrite (json_extract_of_fields depth data text _ Hd Hj).
      rewrite websocket_fields_no_symbol; [done|]. by rewrite Hv. }
  assert (Hsym : forall r m, _parse_websocket_json depth data = Ret (r, Some m) ->
                             r = ParseResult.SUCCESS /\ MarketMessage.symbol m = v).
  { intros r m H. rewrite (json_extract_of_fields depth data text _ Hd Hj) in H.
    destruct (websocket_fields (PDict d)) as [o|e] eqn:Hw; simpl in H.
    - injection H as ->.
      apply websocket_fields_success in Hw
        as (-> & d0 & v0 & [= <-] & Hv0 & _ & Hs & _).
      rewrite Hv in Hv0. by injection Hv0 as <-.
    - by destruct (_ || _). }
  assert (Hiff : (exists m, _parse_websocket_json depth data
                            = Ret (ParseResult.SUCCESS, Some m))
                 <-> json_well_formed d).
  { rewrite <- websocket_fields_well_formed.
    rewrite (json_extract_of_fields depth data text _ Hd Hj).
    split; intros [m H]; exists m.
    - destruct (websocket_fields (PDict d)) as [o|e]; simpl in H; [done|].
      by destruct (_ || _).
    - by rewrite H. }
  split; [|split; [|split; [|split]]].
  - rewrite <- Hiff. split.
    + intros (m & H & _). eauto.
    + intros [m H]. exists m. split; [done|]. by apply (Hsym _ _ H).
  - intros Hnwf.
    destruct (_parse_websocket_json depth data) as [o|e] eqn:He.
    + left. apply json_extract_shape in He as H'. destruct H' as [->|[m ->]]; [done|].
      destruct Hnwf. apply Hiff. eauto.
    + right. exists e. split; [done|]. by apply json_extract_raises in He.
  - exact Hsym.
  - intros ->. rewrite (json_extract_of_fields depth data text _ Hd Hj).
    clear Hd Hj Hv Hsym Hiff. unfold websocket_fields, py_get. cbn [bind].
    replace (dict_get [(lit "symbol", v)] (lit "symbol")) with (Some v)
      by (vm_compute; reflexivity).
    rewrite Tv. reflexivity.
  - intros data' text' d' v' Hd' Hj' Hsame Hv' Tv'.
    rewrite (json_extract_of_fields depth data text _ Hd Hj).
    rewrite (json_extract_of_fields depth data' text' _ Hd' Hj').
    rewrite (websocket_fields_symbol d d' v v') by done.
    destruct (websocket_fields (PDict d)) as [[r om]|e]; simpl; [done|].
    by destruct (_ || _).
Qed.

Lemma C10_symbol_truthiness_witness :
  Utf8.decode Utf8.strict (bq "{'symbol': 5, 'price': 1.5}")
    = Ret (map Z_of_byte (bq "{'symbol': 5, 'price': 1.5}")) /\
  Json.loads 900 (map Z_of_byte (bq "{'symbol': 5, 'price': 1.5}"))
    = Ret (PDict [(lit "symbol", PInt 5);
                  (lit "price", PFloat (Float.of_dyadic 3 (-1)))]) /\
  json_well_formed [(lit "symbol", PInt 5);
                    (lit "price", PFloat (Float.of_dyadic 3 (-1)))] /\
  exists m,
    _parse_websocket_json 900 (bq "{'symbol': 5, 'price': 1.5}")
      = Ret (ParseResult.SUCCESS, Some m) /\
    MarketMessage.symbol m = PInt 5.
Proof.
  assert (H1 : Utf8.decode Utf8.strict (bq "{'symbol': 5, 'price': 1.5}")
               = Ret (map Z_of_byte (bq "{'symbol': 5, 'price': 1.5}")))
    by (vm_compute; reflexivity).
  assert (H2 : Json.loads 900 (map Z_of_byte (bq "{'symbol': 5, 'price': 1.5}"))
               = Ret (PDict [(lit "symbol", PInt 5);
                             (lit "price", PFloat (Float.of_dyadic 3 (-1)))]))
    by (vm_compute; reflexivity).
  assert (H3 : json_well_formed [(lit "symbol", PInt 5);
                                 (lit "price", PFloat (Float.of_dyadic 3 (-1)))]).
  { unfold json_well_formed.
    split; [exists (PInt 5); split; reflexivity|].
    split; [exists []; reflexivity|].
    split; [split; [eexists; reflexivity|exists 0; reflexivity]|].
    split; [exists []; reflexivity|exact I]. }
  split; [exact H1|]. split; [exact H2|]. split; [exact H3|].
  pose proof (C10_symbol_truthiness 900 _ _ _ H1 H2) as H.
  replace (dict_get [(lit "symbol", PInt 5);
                     (lit "price", PFloat (Float.of_dyadic 3 (-1)))] (lit "symbol"))
    with (Some (PInt 5)) in H by (vm_compute; reflexivity).
  exact (proj2 (proj1 H) H3).
Defined.

(** C10 fails as stated: the symbol of the object below is the number 5,
    a true value, and the extractor answers INVALID_FORMAT, since the
    price is not a numeral.  A true symbol does not by itself yield
    SUCCESS. *)
Lemma C10_counterexample :
  Utf8.decode Utf8.strict (bq "{'symbol': 5, 'price': 'x'}")
    = Ret (map Z_of_byte (bq "{'symbol': 5, 'price': 'x'}")) /\
  Json.loads 900 (map Z_of_byte (bq "{'symbol': 5, 'price': 'x'}"))
    = Ret (PDict [(lit "symbol", PInt 5); (lit "price", PStr (lit "x"))]) /\
  dict_get [(lit "symbol", PInt 5); (lit "price", PStr (lit "x"))] (lit "symbol")
    = Some (PInt 5) /\
  truthy (PInt 5) = true /\
  _parse_websocket_json 900 (bq "{'symbol': 5, 'price': 'x'}") = Ret invalid_format /\
  ~ (forall (depth : nat) (data : bytes) (text : str) (d : pydict) (v : pyvalue),
       Utf8.decode Utf8.strict data = Ret text ->
       Json.loads depth text = Ret (PDict d) ->
       dict_get d (lit "symbol") = Some v -> truthy v = true ->
       exists m, _parse_websocket_json depth data
                 = Ret (ParseResult.SUCCESS, Some m) /\
                 MarketMessage.symbol m = v).
Proof.
  assert (H1 : Utf8.decode Utf8.strict (bq "{'symbol': 5, 'price': 'x'}")
               = Ret (map Z_of_byte (bq "{'symbol': 5, 'price': 'x'}")))
    by (vm_compute; reflexivity).
  assert (H2 : Json.loads 900 (map Z_of_byte (bq "{'symbol': 5, 'price': 'x'}"))
               = Ret (PDict [(lit "symbol", PInt 5); (lit "price", PStr (lit "x"))]))
    by (vm_compute; reflexivity).
  assert (H3 : _parse_websocket_json 900 (bq "{'symbol': 5, 'price': 'x'}")
               = Ret invalid_format) by (vm_compute; reflexivity).
  assert (H4 : dict_get [(lit "symbol", PInt 5); (lit "price", PStr (lit "x"))]
                 (lit "symbol") = Some (PInt 5)) by (vm_compute; reflexivity).
  split; [exact H1|]. split; [exact H2|]. split; [exact H4|].
  split; [reflexivity|]. split; [exact H3|].
  intros H. destruct (H 900%nat _ _ _ (PInt 5) H1 H2 H4 eq_refl) as (m & Hm & _).
  rewrite H3 in Hm. discriminate Hm.
Qed.

(** ** The tag-value parser on well-formed messages *)

(** When the decoded text has no vertical bar, the segmentation of the
    code is the segmentation on the control byte. *)
Lemma str_split_replace_bar (s : str) :
  str_contains 0x7C s = false ->
  str_split 0x7C (str_replace 0x01 0x7C s) = str_split 0x01 s.
Proof.
  unfold str_contains, str_replace.
  induction s as [|c s IH]; intros H; [done|].
  cbn [existsb] in H. apply orb_false_iff in H as [Hc Hs].
  apply Z.eqb_neq in Hc. cbn [map str_split]. rewrite (IH Hs).
  destruct (Z.eqb_spec c 1) as [->|Hc1]; [done|].
  by destruct (Z.eqb_spec c 124) as [->|Hc2].
Qed.

Lemma fix_tag_without_bar (data : bytes) (decoded : str) (tag : str) :
  Utf8.decode Utf8.strict data = Ret decoded ->
  str_contains 0x7C decoded = false ->
  fix_tag data tag = fix_tag_spec data tag.
Proof.
  intros Hd Hbar. unfold fix_tag, fix_tag_spec. rewrite Hd.
  by rewrite str_split_replace_bar.
Qed.

(** A tag-value message that decodes, has a non-empty value for tag 55,
    and whose tags 44 and 38, when present, are numerals that [float] and
    [int] accept, is parsed with SUCCESS, and the symbol is the value of
    tag 55 in the segmentation of the code. *)
Lemma fix_well_formed_success (self : MessageParser) (w : world) (data : bytes)
    (symbol : str) :
  _detect_protocol data = ProtocolType.FIX ->
  fix_tag data (lit "55") = Some symbol -> symbol <> [] ->
  (forall v, fix_tag data (lit "44") = Some v ->
             exists p, Num.float_of_str v = Ret p) ->
  (forall v, fix_tag data (lit "38") = Some v ->
             exists n, Num.int_of_str v = Ret n) ->
  exists m,
    parse_message self w (PyBytes data)
      = Ret (count_parsed self, (ParseResult.SUCCESS, Some m)) /\
    MarketMessage.symbol m = PStr symbol.
Proof.
  intros Hp H55 Hne H44 H38.
  assert (Hx : exists m0, _parse_fix_message data
                          = Ret (ParseResult.SUCCESS, Some m0)).
  { revert H55 H44 H38. unfold fix_tag, _parse_fix_message, try_except.
    destruct (Utf8.decode Utf8.strict data) as [decoded|e]; [|discriminate].
    cbn [bind]. set (fields := fix_fields _). intros -> H44 H38.
    destruct symbol as [|c symbol]; [done|]. cbn [truthy negb].
    unfold except_ValueError_return, fix_price, fix_size.
    destruct (fields !! lit "44") as [v44|].
    - destruct (H44 v44 eq_refl) as [p ->]. cbn [bind].
      destruct (fields !! lit "38") as [v38|]; [|eauto].
      destruct (H38 v38 eq_refl) as [n ->]. cbn [bind]. eauto.
    - destruct (fields !! lit "38") as [v38|]; [|eauto].
      destruct (H38 v38 eq_refl) as [n ->]. cbn [bind]. eauto. }
  destruct Hx as [m0 Hm0].
  destruct (backfill w (Some m0)) as [m|] eqn:Hbf.
  2:{ unfold backfill in Hbf. by destruct (_ =? _). }
  exists m. split.
  - rewrite <- Hbf.
    apply (parse_message_success self w (PyBytes data) data m0 eq_refl).
    by rewrite Hp, dispatch_fix, Hm0.
  - apply backfill_fields in Hbf as (-> & _).
    apply fix_success in Hm0 as (_ & symbol' & H55' & _ & -> & _).
    rewrite H55 in H55'. by injection H55' as <-.
Qed.

(** ** Checks of the model of the runtime

    The values below are those of CPython 3.11. *)

Example decode_replace_truncated :
  Utf8.decode Utf8.replace [xe2; x82; x41] = Ret [0xFFFD; 0x41].
Proof. reflexivity. Qed.

Example decode_ignore_truncated :
  Utf8.decode Utf8.ignore [xe2; x82; x41] = Ret [0x41].
Proof. reflexivity. Qed.

Example decode_strict_surrogate :
  Utf8.decode Utf8.strict [xed; xa0; x80] = Raise UnicodeDecodeError.
Proof. reflexivity. Qed.

Example decode_strict_euro :
  Utf8.decode Utf8.strict [xe2; x82; xac] = Ret [0x20AC].
Proof. reflexivity. Qed.

Example encode_euro : Utf8.encode [0x20AC] = Ret [xe2; x82; xac].
Proof. reflexivity. Qed.

Example split_keeps_empty_pieces :
  str_split 0x7C (lit "a|b||c|") = [lit "a"; lit "b"; []; lit "c"; []].
Proof. reflexivity. Qed.

Example split_once_first_equals :
  str_split_once 0x3D (lit "55=a=b") = (lit "55", lit "a=b").
Proof. reflexivity. Qed.

Example int_of_str_blanks_and_sign : Num.int_of_str (lit " -12_3 ") = Ret (-123).
Proof. vm_compute. reflexivity. Qed.

Example int_of_str_arabic_indic : Num.int_of_str [0x663; 0x664] = Ret 34.
Proof. vm_compute. reflexivity. Qed.

Example int_of_str_rejects_point : Num.int_of_str (lit "5.0") = Raise ValueError.
Proof. vm_compute. reflexivity. Qed.

Example float_of_str_tenth :
  Num.float_of_str (lit "0.1") = Ret (S754_finite false 7205759403792794 (-56)).
Proof. vm_compute. reflexivity. Qed.

Example float_of_str_overflows_to_inf :
  Num.float_of_str (lit "1e999") = Ret (S754_infinity false).
Proof. vm_compute. reflexivity. Qed.

Example float_of_str_nan : Num.float_of_str (lit " NaN ") = Ret S754_nan.
Proof. vm_compute. reflexivity. Qed.

Example float_of_str_rejects_word :
  Num.float_of_str (lit "invalid_price") = Raise ValueError.
Proof. vm_compute. reflexivity. Qed.

Example py_int_truncates :
  py_int (PFloat (Float.of_decimal true 19 (-1))) = Ret (-1).
Proof. vm_compute. reflexivity. Qed.

Example py_int_of_inf : py_int (PFloat (S754_infinity false)) = Raise OverflowError.
Proof. reflexivity. Qed.

Example py_truediv_third :
  py_truediv 1 3 = Ret (S754_finite false 6004799503160661 (-54)).
Proof. vm_compute. reflexivity. Qed.

Example loads_last_key_wins :
  res_map (fun j => py_get j (lit "a") PNone) (Json.loads 10 (map Z_of_byte (bq "{'a': 1, 'a': 2}")))
    = Ret (Ret (PInt 2)).
Proof. vm_compute. reflexivity. Qed.

Example loads_nested :
  Json.loads 10 (map Z_of_byte (bq " {'a': [1, 2.5, null, true], 'b': {}} "))
    = Ret (PDict [(lit "a", PList [PInt 1; PFloat (Float.of_dyadic 5 (-1));
                                    PNone; PBool true]);
                  (lit "b", PDict [])]).
Proof. vm_compute. reflexivity. Qed.

Example loads_trailing_comma :
  Json.loads 10 (map Z_of_byte (bq "{'a': 1,}")) = Raise JSONDecodeError.
Proof. vm_compute. reflexivity. Qed.

Example loads_too_deep :
  Json.loads 2 (map Z_of_byte (bq "[[[1]]]")) = Raise RecursionError.
Proof. vm_compute. reflexivity. Qed.

Example loads_surrogate_pair :
  Json.loads 10 (map Z_of_byte (bq "'\ud83d\ude00'")) = Ret (PStr [0x1F600]).
Proof. vm_compute. reflexivity. Qed.

(** The messages of the demonstration script. *)

Example demo_fix_new_order :
  parse_outcome {| now := 1700000000000000000; recursion_depth := 900 |}
    (PyStr (map Z_of_byte
       (bsoh "8=FIX.4.4;9=178;35=D;49=SENDER;56=TARGET;55=AAPL;54=1;44=150.25;38=100;")))
  = Ret (ParseResult.SUCCESS,
         Some {| MarketMessage.timestamp := 1700000000000000000;
                 MarketMessage.symbol := PStr (lit "AAPL");
                 MarketMessage.side := Side.BUY;
                 MarketMessage.price := Float.of_dyadic 601 (-2);
                 MarketMessage.size := 100;
                 MarketMessage.message_type := MessageType.NEW_ORDER |}).
Proof. vm_compute. reflexivity. Qed.

Example demo_fix_missing_symbol :
  parse_outcome {| now := 1700000000000000000; recursion_depth := 900 |}
    (PyStr (map Z_of_byte
       (bsoh "8=FIX.4.4;9=100;35=D;49=SENDER;56=TARGET;54=1;44=150.25;")))
  = Ret invalid_format.
Proof. vm_compute. reflexivity. Qed.

Example demo_json_invalid_price :
  parse_outcome {| now := 1700000000000000000; recursion_depth := 900 |}
    (PyStr (map Z_of_byte (bq "{'symbol': 'AAPL', 'price': 'invalid_price'}")))
  = Ret invalid_format.
Proof. vm_compute. reflexivity. Qed.

Example demo_json_truncated :
  parse_outcome {| now := 1700000000000000000; recursion_depth := 900 |}
    (PyStr (map Z_of_byte (bq "{'symbol': 'AAPL', 'price': 150.25")))
  = Ret invalid_format.
Proof. vm_compute. reflexivity. Qed.

Example demo_unknown_protocol :
  parse_outcome {| now := 1700000000000000000; recursion_depth := 900 |}
    (PyStr (lit "INVALID_MESSAGE_FORMAT"))
  = Ret (ParseResult.UNKNOWN_PROTOCOL, None).
Proof. vm_compute. reflexivity. Qed.

Example demo_empty_message :
  parse_outcome {| now := 1700000000000000000; recursion_depth := 900 |} (PyStr [])
  = Ret (ParseResult.UNKNOWN_PROTOCOL, None).
Proof. vm_compute. reflexivity. Qed.

Example demo_json_order :
  parse_outcome {| now := 1700000000000000000; recursion_depth := 900 |}
    (PyStr (map Z_of_byte
       (bq "{'type': 'order', 'symbol': 'GOOGL', 'side': 'sell', 'price': 2500.0, 'size': 10}")))
  = Ret (ParseResult.SUCCESS,
         Some {| MarketMessage.timestamp := 1700000000000000000;
                 MarketMessage.symbol := PStr (lit "GOOGL");
                 MarketMessage.side := Side.SELL;
                 MarketMessage.price := Float.of_Z 2500;
                 MarketMessage.size := 10;
                 MarketMessage.message_type := MessageType.NEW_ORDER |}).
Proof. vm_compute. reflexivity. Qed.

(* ===================================================================== *)
(** * Part III. Further properties of the code                             *)
(* ===================================================================== *)

(** ** The statuses and the counters of [parse_message] *)

(** X1.  A call of [parse_message] that returns has the status SUCCESS,
    INVALID_FORMAT or UNKNOWN_PROTOCOL, never INCOMPLETE_MESSAGE or
    BUFFER_OVERFLOW.  With SUCCESS it adds one to [messages_parsed] and
    leaves [parse_errors]; with another status it adds one to
    [parse_errors] and leaves [messages_parsed]. *)
Theorem X1_status_and_counters (self : MessageParser) (w : world)
    (data : pydata) (self' : MessageParser) (o : outcome) :
  parse_message self w data = Ret (self', o) ->
  _use_cpp self' = _use_cpp self /\
  ((fst o = ParseResult.SUCCESS /\
    messages_parsed self' = messages_parsed self + 1 /\
    parse_errors self' = parse_errors self) \/
   ((fst o = ParseResult.INVALID_FORMAT \/ fst o = ParseResult.UNKNOWN_PROTOCOL) /\
    messages_parsed self' = messages_parsed self /\
    parse_errors self' = parse_errors self + 1)).
Proof.
  intros H. apply parse_message_inv in H as (b & _ & [H|[H|H]]).
  - destruct H as (_ & -> & ->). split; [done|]. right. simpl. auto.
  - destruct H as (_ & m0 & _ & -> & ->). split; [done|]. left. simpl. auto.
  - destruct H as (_ & -> & -> & _). split; [done|]. right. simpl. auto.
Qed.

Lemma X1_status_and_counters_witness :
  parse_message (MessageParser_init false) {| now := 1; recursion_depth := 900 |}
    (PyBytes (bq "{'symbol': 'AAPL', 'price': 'invalid_price'}"))
    = Ret (count_error (MessageParser_init false), invalid_format) /\
  parse_errors (count_error (MessageParser_init false)) = 0 + 1.
Proof.
  assert (H : parse_message (MessageParser_init false)
                {| now := 1; recursion_depth := 900 |}
                (PyBytes (bq "{'symbol': 'AAPL', 'price': 'invalid_price'}"))
              = Ret (count_error (MessageParser_init false), invalid_format))
    by (vm_compute; reflexivity).
  split; [exact H|].
  destruct (proj2 (X1_status_and_counters _ _ _ _ _ H)) as [(E & _)|(_ & _ & E)].
  - discriminate E.
  - exact E.
Defined.

(** X2.  [parse_message] answers UNKNOWN_PROTOCOL exactly when the
    detector answers UNKNOWN; in particular on every buffer of fewer than
    two bytes, the empty one included.  No extractor is called then. *)
Theorem X2_unknown_protocol (self : MessageParser) (w : world) (data : pydata)
    (b : bytes) (self' : MessageParser) (o : outcome) :
  to_bytes data = Ret b ->
  parse_message self w data = Ret (self', o) ->
  (fst o = ParseResult.UNKNOWN_PROTOCOL
   <-> _detect_protocol b = ProtocolType.UNKNOWN) /\
  ((length b < 2)%nat -> o = (ParseResult.UNKNOWN_PROTOCOL, None)).
Proof.
  intros Hb H. apply parse_message_inv in H as (b' & Hb' & H).
  rewrite Hb in Hb'. injection Hb' as <-.
  assert (Hiff : fst o = ParseResult.UNKNOWN_PROTOCOL
                 <-> _detect_protocol b = ProtocolType.UNKNOWN).
  { destruct H as [H|[H|H]].
    - by destruct H as (-> & -> & _).
    - destruct H as (Hp & m0 & _ & -> & _). by split.
    - destruct H as (Hp & -> & _). by split. }
  split; [done|]. intros Hlen.
  pose proof (detect_protocol_short b Hlen) as Hu.
  destruct H as [H|[H|H]].
  - by destruct H as (_ & -> & _).
  - by destruct H as (Hp & _).
  - by destruct H as (Hp & _).
Qed.

Lemma X2_unknown_protocol_witness :
  to_bytes (PyStr (lit "{")) = Ret (blit "{") /\
  (length (blit "{") < 2)%nat /\
  parse_message (MessageParser_init false) {| now := 1; recursion_depth := 900 |}
    (PyStr (lit "{"))
    = Ret (count_error (MessageParser_init false),
           (ParseResult.UNKNOWN_PROTOCOL, None)).
Proof.
  assert (H1 : to_bytes (PyStr (lit "{")) = Ret (blit "{")) by reflexivity.
  assert (H2 : (length (blit "{") < 2)%nat) by (simpl; lia).
  destruct (parse_message_returns {| now := 1; recursion_depth := 900 |}
              (PyStr (lit "{")) _ H1) as [o Ho].
  specialize (Ho (MessageParser_init false)).
  pose proof (proj2 (X2_unknown_protocol _ _ _ _ _ _ H1 Ho) H2) as E.
  split; [exact H1|]. split; [exact H2|].
  rewrite E in Ho. exact Ho.
Defined.

(** ** The detector *)

Lemma str_startswith_app {A : Type} `{EqDecision A} (p rest : list A) :
  str_startswith (p ++ rest) p = true.
Proof.
  induction p as [|x p IH]; simpl; [done|].
  by rewrite bool_decide_eq_true_2, IH.
Qed.

(** X3.  A buffer is classified FIX if and only if it starts with the two
    bytes [8=]; whatever follows them plays no part, so appending bytes to
    a FIX buffer leaves it FIX. *)
Theorem X3_fix_detection (data : bytes) :
  (_detect_protocol data = ProtocolType.FIX
   <-> exists rest, data = blit "8=" ++ rest) /\
  (_detect_protocol data = ProtocolType.FIX ->
   forall extra, _detect_protocol (data ++ extra) = ProtocolType.FIX).
Proof.
  assert (Hiff : _detect_protocol data = ProtocolType.FIX
                 <-> exists rest, data = blit "8=" ++ rest).
  { split.
    - unfold _detect_protocol.
      destruct (length data <? 2)%nat; [discriminate|].
      destruct (str_startswith data (blit "8=")) eqn:E.
      + intros _. apply str_startswith_take in E.
        exists (drop 2 data). rewrite <- E at 1. symmetry. apply take_drop.
      + by destruct (str_startswith _ (lit "{")).
    - intros [rest ->]. unfold _detect_protocol.
      by rewrite str_startswith_app. }
  split; [done|].
  intros H extra. apply Hiff in H as [rest ->].
  rewrite <- app_assoc. unfold _detect_protocol.
  by rewrite str_startswith_app.
Qed.

Lemma X3_fix_detection_witness :
  _detect_protocol (bsoh "8=FIX.4.4;55=A;") = ProtocolType.FIX /\
  _detect_protocol (bsoh "8=FIX.4.4;55=A;" ++ bsoh "38=1;") = ProtocolType.FIX.
Proof.
  assert (H : _detect_protocol (bsoh "8=FIX.4.4;55=A;") = ProtocolType.FIX)
    by (vm_compute; reflexivity).
  split; [exact H|].
  exact (proj2 (X3_fix_detection _) H (bsoh "38=1;")).
Defined.

Lemma decode_ignore_ascii_cons (b : byte) (rest : bytes) :
  Z_of_byte b < 0x80 ->
  Utf8.decode_ignore (b :: rest) = Z_of_byte b :: Utf8.decode_ignore rest.
Proof.
  intros Hb. pose proof (decode_ignore_returns rest) as Hr.
  unfold Utf8.decode_ignore at 1. unfold Utf8.decode in *. simpl.
  unfold Utf8.decode_step. destruct (Z.ltb_spec (Z_of_byte b) 0x80); [|lia].
  simpl. by rewrite Hr.
Qed.

Lemma lstrip_decode_spaces (ws : bytes) (rest : bytes) :
  forallb is_space_byte ws = true ->
  str_lstrip (Utf8.decode_ignore (ws ++ x7b :: rest))
    = 0x7B :: Utf8.decode_ignore rest.
Proof.
  induction ws as [|b ws IH]; simpl; intros H.
  - by rewrite decode_ignore_ascii_cons.
  - apply andb_true_iff in H as [Hb Hws].
    rewrite decode_ignore_ascii_cons by (by destruct b).
    simpl. replace (unicode_isspace (Z_of_byte b)) with true by (by destruct b).
    by apply IH.
Qed.

(** X4.  A buffer of at least two bytes that consists of ASCII whitespace
    (blank, tab, line feed, vertical tab, form feed, carriage return), an
    opening brace and anything else is classified WEBSOCKET_JSON, whatever
    follows the brace, be it invalid UTF-8. *)
Theorem X4_json_detection (ws rest : bytes) :
  forallb is_space_byte ws = true ->
  (2 <= length (ws ++ x7b :: rest))%nat ->
  _detect_protocol (ws ++ x7b :: rest) = ProtocolType.WEBSOCKET_JSON.
Proof.
  intros Hws Hlen. rewrite detect_protocol_long by done.
  rewrite bool_decide_eq_false_2.
  - by rewrite lstrip_decode_spaces.
  - destruct ws as [|b ws]; simpl.
    + destruct rest; simpl; [simpl in Hlen; lia|discriminate].
    + simpl in Hws. apply andb_true_iff in Hws as [Hb _].
      destruct ws; simpl; [|destruct b; try discriminate Hb; discriminate].
      destruct b; try discriminate Hb; discriminate.
Qed.

Lemma X4_json_detection_witness :
  forallb is_space_byte [x20; x0a] = true /\
  (2 <= length ([x20; x0a] ++ x7b :: [xff]))%nat /\
  _detect_protocol ([x20; x0a] ++ x7b :: [xff]) = ProtocolType.WEBSOCKET_JSON.
Proof.
  assert (H1 : forallb is_space_byte [x20; x0a] = true) by reflexivity.
  assert (H2 : (2 <= length ([x20; x0a] ++ x7b :: [xff]))%nat) by (simpl; lia).
  split; [exact H1|]. split; [exact H2|].
  exact (X4_json_detection [x20; x0a] [xff] H1 H2).
Defined.

(** ** A buffer classified as JSON holds an object *)

Lemma last_object_cons (f : Json.frame) (stack : list Json.frame) :
  match last stack with Some (Json.FObj _ _) => True | _ => False end ->
  match last (f :: stack) with Some (Json.FObj _ _) => True | _ => False end.
Proof. destruct stack; simpl; [done|]. by destruct stack. Qed.

Lemma complete_rooted (stack : list Json.frame) (v : pyvalue) (st : Json.state) :
  match last stack with Some (Json.FObj _ _) => True | _ => False end ->
  Json.complete stack v = Ret st -> rooted_in_object st.
Proof.
  destruct stack as [|[es|ps [k|]] stack]; simpl; try done.
  - intros H [= <-]. destruct stack; [done|]. simpl. by destruct stack.
  - intros H [= <-]. destruct stack; [done|]. simpl. by destruct stack.
Qed.

Lemma complete_dict_rooted (stack : list Json.frame) (d : pydict)
    (st : Json.state) :
  (stack = [] \/
   match last stack with Some (Json.FObj _ _) => True | _ => False end) ->
  Json.complete stack (PDict d) = Ret st -> rooted_in_object st.
Proof.
  intros [->|H]; [by intros [= <-]|]. by apply complete_rooted.
Qed.

Lemma open_rooted (depth : nat) (stack : list Json.frame) (f : Json.frame)
    (e : Json.expect) (st : Json.state) :
  match last (f :: stack) with Some (Json.FObj _ _) => True | _ => False end ->
  match e with Json.EDone _ => False | _ => True end ->
  Json.open depth stack f e = Ret st -> rooted_in_object st.
Proof.
  unfold Json.open. destruct (_ <? _)%nat; [|done].
  intros H He [= <-]. unfold rooted_in_object. by destruct e.
Qed.

Lemma start_value_rooted (depth : nat) (stack : list Json.frame)
    (tok : Json.token) (st : Json.state) :
  match last stack with Some (Json.FObj _ _) => True | _ => False end ->
  Json.start_value depth stack tok = Ret st -> rooted_in_object st.
Proof.
  intros H. destruct tok; simpl; try done.
  - apply open_rooted; [by apply last_object_cons|done].
  - apply open_rooted; [by apply last_object_cons|done].
  - by apply complete_rooted.
  - destruct (Json.number_value is_float text); simpl; [|done].
    by apply complete_rooted.
  - by apply complete_rooted.
Qed.

Lemma last_object_tail (f : Json.frame) (stack : list Json.frame) :
  match last (f :: stack) with Some (Json.FObj _ _) => True | _ => False end ->
  stack = [] \/
  match last stack with Some (Json.FObj _ _) => True | _ => False end.
Proof. destruct stack; [by left|]. simpl. by right. Qed.

Lemma last_object_under_array (es : list pyvalue) (stack : list Json.frame) :
  match last (Json.FArr es :: stack) with
  | Some (Json.FObj _ _) => True | _ => False end ->
  match last stack with Some (Json.FObj _ _) => True | _ => False end.
Proof. by destruct stack. Qed.

Lemma feed_rooted (depth : nat) (st : Json.state) (tok : Json.token)
    (st' : Json.state) :
  rooted_in_object st -> Json.feed depth st tok = Ret st' -> rooted_in_object st'.
Proof.
  destruct st as [stack e]. unfold rooted_in_object at 1.
  destruct stack as [|f stack]; [by destruct e as [| | | | | |[]]|].
  destruct e; try done; intros H; simpl.
  - by apply start_value_rooted.
  - destruct tok; try (by apply (start_value_rooted depth (f :: stack))).
    destruct f as [[|v es]|ps k]; try done.
    apply last_object_under_array in H. by apply complete_rooted.
  - destruct tok; try done.
    + destruct f as [es|[|p ps] [k|]]; try done.
      apply complete_dict_rooted. by apply last_object_tail in H.
    + destruct f as [es|ps [k|]]; simpl; try done.
      intros [= <-]. simpl. destruct stack; [done|]. simpl in *. by destruct stack.
  - destruct tok; try done.
    destruct f as [es|ps [k|]]; simpl; try done.
    intros [= <-]. simpl. destruct stack; [done|]. simpl in *. by destruct stack.
  - destruct tok; try done. intros [= <-]. simpl.
    destruct stack; [done|]. simpl in *. by destruct stack.
  - destruct tok; try done.
    + destruct f as [es|ps [k|]]; try done.
      apply complete_dict_rooted. by apply last_object_tail in H.
    + destruct f as [es|ps [k|]]; try done.
      apply last_object_under_array in H. by apply complete_rooted.
    + destruct f as [es|ps [k|]]; try done.
      * intros [= <-]. simpl. destruct stack; [done|]. simpl in *. by destruct stack.
      * intros [= <-]. simpl. destruct stack; [done|]. simpl in *. by destruct stack.
Qed.

Lemma scan_rooted (depth : nat) (s : str) :
  forall (st : Json.state) (skip : nat) (j : pyvalue),
    rooted_in_object st -> Json.scan depth st skip s = Ret j ->
    exists d, j = PDict d.
Proof.
  induction s as [|c rest IH]; intros st skip j Hst; simpl.
  - destruct st as [[|f stack] e]; simpl in Hst.
    + destruct e as [| | | | | |[]]; try done. intros [= <-]. eauto.
    + by destruct e.
  - destruct skip as [|k]; [|by apply IH].
    destruct (Json.is_whitespace c); [by apply IH|].
    destruct (Json.next_token c rest) as [[tok n]|e]; simpl; [|done].
    destruct (Json.feed depth st tok) as [st'|e] eqn:Hf; simpl; [|done].
    apply IH. by apply (feed_rooted depth st tok).
Qed.

Lemma other_space_no_token (c : Z) (rest : str) :
  unicode_isspace c = true -> Json.is_whitespace c = false ->
  Json.next_token c rest = Raise JSONDecodeError.
Proof.
  unfold unicode_isspace, Json.is_whitespace. intros H1 H2.
  rewrite !orb_true_iff, !andb_true_iff, !Z.leb_le, !Z.eqb_eq in H1.
  rewrite !orb_false_iff, !Z.eqb_neq in H2.
  assert (H : In c [0x0B; 0x0C; 0x1C; 0x1D; 0x1E; 0x1F; 0x85; 0xA0; 0x1680;
                    0x2000; 0x2001; 0x2002; 0x2003; 0x2004; 0x2005; 0x2006;
                    0x2007; 0x2008; 0x2009; 0x200A; 0x2028; 0x2029; 0x202F;
                    0x205F; 0x3000]) by (simpl; lia).
  clear H1 H2. simpl in H.
  repeat (destruct H as [<-|H]; [reflexivity|]). done.
Qed.

Lemma scan_leading_brace (depth : nat) (s : str) (j : pyvalue) :
  head (str_lstrip s) = Some 0x7B ->
  Json.scan depth ([], Json.EValue) 0%nat s = Ret j ->
  exists d, j = PDict d.
Proof.
  induction s as [|c rest IH]; [done|]. simpl.
  destruct (Json.is_whitespace c) eqn:Hw.
  - replace (unicode_isspace c) with true; [done|].
    unfold Json.is_whitespace in Hw. unfold unicode_isspace.
    rewrite !orb_true_iff, !Z.eqb_eq in Hw. symmetry.
    rewrite !orb_true_iff, !andb_true_iff, !Z.leb_le, !Z.eqb_eq. lia.
  - destruct (unicode_isspace c) eqn:Hu.
    + intros _. by rewrite other_space_no_token.
    + intros [= ->]. simpl. unfold Json.open.
      destruct (_ <? _)%nat; simpl; [|done].
      by apply scan_rooted.
Qed.

(** X5.  When the detector classifies a buffer as WEBSOCKET_JSON and
    [json.loads] accepts its text, the document is an object: an array, a
    string or a number at the top level never reaches the statements that
    read the keys. *)
Theorem X5_detected_json_is_object (depth : nat) (data : bytes) (text : str)
    (j : pyvalue) :
  _detect_protocol data = ProtocolType.WEBSOCKET_JSON ->
  Utf8.decode Utf8.strict data = Ret text ->
  Json.loads depth text = Ret j ->
  exists d, j = PDict d.
Proof.
  intros Hp Hd Hj.
  assert (Hhead : head (str_lstrip text) = Some 0x7B).
  { pose proof (decode_ignore_returns data) as Hi.
    rewrite (decode_strict_agrees Utf8.ignore data text Hd) in Hi.
    injection Hi as Hi. rewrite Hi.
    unfold _detect_protocol in Hp.
    destruct (length data <? 2)%nat; [discriminate|].
    destruct (str_startswith data (blit "8=")); [discriminate|].
    destruct (str_startswith _ (lit "{")) eqn:E; [|discriminate].
    by apply (str_startswith_head _ 0x7B). }
  unfold Json.loads in Hj.
  destruct text as [|c text']; [done|].
  destruct (decide (c = 0xFEFF)) as [->|Hc]; [done|].
  apply (scan_leading_brace depth (c :: text') j Hhead).
  destruct c as [|p|p]; try done.
  repeat (destruct p as [p|p|]; try done).
Qed.

Lemma X5_detected_json_is_object_witness :
  _detect_protocol (bq " {'a': [1]}") = ProtocolType.WEBSOCKET_JSON /\
  Utf8.decode Utf8.strict (bq " {'a': [1]}") = Ret (map Z_of_byte (bq " {'a': [1]}")) /\
  Json.loads 900 (map Z_of_byte (bq " {'a': [1]}"))
    = Ret (PDict [(lit "a", PList [PInt 1])]) /\
  exists d, PDict [(lit "a", PList [PInt 1])] = PDict d.
Proof.
  assert (H1 : _detect_protocol (bq " {'a': [1]}") = ProtocolType.WEBSOCKET_JSON)
    by (vm_compute; reflexivity).
  assert (H2 : Utf8.decode Utf8.strict (bq " {'a': [1]}")
               = Ret (map Z_of_byte (bq " {'a': [1]}")))
    by (vm_compute; reflexivity).
  assert (H3 : Json.loads 900 (map Z_of_byte (bq " {'a': [1]}"))
               = Ret (PDict [(lit "a", PList [PInt 1])]))
    by (vm_compute; reflexivity).
  split; [exact H1|]. split; [exact H2|]. split; [exact H3|].
  exact (X5_detected_json_is_object 900 _ _ _ H1 H2 H3).
Defined.

(** X6.  A buffer that the detector classifies as WEBSOCKET_JSON and whose
    text starts with a space character that JSON does not allow between
    tokens (a form feed, a vertical tab, a no-break space, ...) is
    rejected: the detector strips every Unicode space, [json.loads] only
    blank, tab, line feed and carriage return. *)
Theorem X6_space_json_rejects (self : MessageParser) (w : world)
    (data : bytes) (c : Z) (rest : str) :
  _detect_protocol data = ProtocolType.WEBSOCKET_JSON ->
  Utf8.decode Utf8.strict data = Ret (c :: rest) ->
  unicode_isspace c = true ->
  Json.is_whitespace c = false ->
  parse_message self w (PyBytes data) = Ret (count_error self, invalid_format).
Proof.
  intros Hp Hd Hu Hw.
  apply (parse_message_failure self w (PyBytes data) data eq_refl);
    [by rewrite Hp|].
  left. rewrite Hp, dispatch_json.
  unfold _parse_websocket_json, try_except. rewrite Hd. cbn [bind].
  assert (Hl : Json.loads (recursion_depth w) (c :: rest) = Raise JSONDecodeError).
  { unfold Json.loads.
    assert (Hs : Json.scan (recursion_depth w) ([], Json.EValue) 0 (c :: rest)
                 = Raise JSONDecodeError).
    { cbn [Json.scan]. rewrite Hw. by rewrite other_space_no_token. }
    destruct c as [|p|p]; try done.
    repeat (destruct p as [p|p|]; try done). }
  by rewrite Hl.
Qed.

Lemma X6_space_json_rejects_witness :
  parse_message (MessageParser_init false) {| now := 1; recursion_depth := 900 |}
    (PyBytes (x0c :: bq "{'symbol': 'AAPL'}"))
  = Ret (count_error (MessageParser_init false), invalid_format).
Proof.
  apply (X6_space_json_rejects _ _ (x0c :: bq "{'symbol': 'AAPL'}") 0x0C
           (map Z_of_byte (bq "{'symbol': 'AAPL'}"))).
  - vm_compute. reflexivity.
  - vm_compute. reflexivity.
  - reflexivity.
  - reflexivity.
Defined.

(** ** The fields of a tag-value message *)

Lemma backfill_other_fields (w : world) (m0 m : MarketMessage.t) :
  backfill w (Some m0) = Some m ->
  MarketMessage.side m = MarketMessage.side m0 /\
  MarketMessage.price m = MarketMessage.price m0 /\
  MarketMessage.message_type m = MarketMessage.message_type m0.
Proof.
  unfold backfill. by destruct (_ =? 0); intros [= <-].
Qed.

(** The blocks that a successful tag-value extraction went through. *)
Lemma fix_success_blocks (data : bytes) (r : ParseResult.t) (m : MarketMessage.t) :
  _parse_fix_message data = Ret (r, Some m) ->
  exists decoded symbol m1 m2,
    Utf8.decode Utf8.strict data = Ret decoded /\
    text_fields decoded !! lit "55" = Some symbol /\
    fix_price (text_fields decoded)
      (fix_side (text_fields decoded)
         (MarketMessage.set_symbol (PStr symbol) MarketMessage.new)) = Ret m1 /\
    fix_size (text_fields decoded) m1 = Ret m2 /\
    m = fix_msgtype (text_fields decoded) m2.
Proof.
  unfold _parse_fix_message, try_except, text_fields.
  destruct (Utf8.decode Utf8.strict data) as [decoded|e]; simpl; [|discriminate].
  set (fields := fix_fields _).
  destruct (fields !! lit "55") as [[|c symbol]|] eqn:E55; simpl; try discriminate.
  set (m0 := fix_side fields _).
  destruct (except_ValueError_return (fix_price fields m0) _) as [o|e] eqn:E;
    [|discriminate].
  intros [= ->].
  apply except_ValueError_return_inv in E as [(m1 & H1 & E)|(e & _ & [=])].
  apply except_ValueError_return_inv in E as [(m2 & H2 & E)|(e & _ & [=])].
  injection E as <- <-.
  by exists decoded, (c :: symbol), m1, m2.
Qed.

Lemma fix_price_side_type fields m m' :
  fix_price fields m = Ret m' ->
  MarketMessage.side m' = MarketMessage.side m /\
  MarketMessage.message_type m' = MarketMessage.message_type m /\
  match fields !! lit "44" with
  | Some v => Num.float_of_str v = Ret (MarketMessage.price m')
  | None => MarketMessage.price m' = MarketMessage.price m
  end.
Proof.
  unfold fix_price. destruct (fields !! lit "44") as [v|].
  - intros H. apply bind_Ret_inv in H as (p & Hp & [= <-]). done.
  - by intros [= <-].
Qed.

Lemma fix_size_side_type fields m m' :
  fix_size fields m = Ret m' ->
  MarketMessage.side m' = MarketMessage.side m /\
  MarketMessage.message_type m' = MarketMessage.message_type m /\
  MarketMessage.price m' = MarketMessage.price m.
Proof.
  unfold fix_size. destruct (fields !! lit "38") as [v|].
  - intros H. apply bind_Ret_inv in H as (p & Hp & [= <-]). done.
  - by intros [= <-].
Qed.





(** ** The fields of a JSON message *)

Lemma Ret_inj {A : Type} (a b : A) : Ret a = Ret b -> a = b.
Proof. by intros [= ->]. Qed.

Lemma json_side_side (d : pydict) (m m' : MarketMessage.t) :
  json_side (PDict d) m = Ret m' ->
  MarketMessage.price m' = MarketMessage.price m /\
  exists side_str,
    default (PStr []) (dict_get d (lit "side")) = PStr side_str /\
    MarketMessage.side m' =
      if str_in (str_lower side_str) [lit "buy"; lit "b"] then Side.BUY
      else if str_in (str_lower side_str) [lit "sell"; lit "s"] then Side.SELL
      else MarketMessage.side m.
Proof.
  unfold json_side, py_get, py_lower, default. cbn [bind]. intros H.
  destruct (dict_get d (lit "side")) as [[| | | |s| |]|]; try discriminate H;
    cbn [bind] in H; apply Ret_inj in H; subst m'.
  - split; [|exists s; split; [done|]];
      destruct (str_in (str_lower s) [lit "buy"; lit "b"]); try done;
      by destruct (str_in (str_lower s) [lit "sell"; lit "s"]).
  - split; [done|]. by exists [].
Qed.

Lemma json_price_size_price (d : pydict) (m m' : MarketMessage.t) :
  json_price_size (PDict d) m = Ret m' ->
  MarketMessage.side m' = MarketMessage.side m /\
  match dict_get d (lit "price") with
  | Some v =>
      py_float v = Ret (MarketMessage.price m') /\
      MarketMessage.message_type m' = MarketMessage.message_type m
  | None =>
      match dict_get d (lit "bid"), dict_get d (lit "ask") with
      | Some vb, Some va =>
          (exists bid ask,
             py_float vb = Ret bid /\ py_float va = Ret ask /\
             MarketMessage.price m' = Float.div (Float.add bid ask) Float.two) /\
          MarketMessage.message_type m' = MessageType.QUOTE
      | _, _ =>
          MarketMessage.price m' = MarketMessage.price m /\
          MarketMessage.message_type m' = MarketMessage.message_type m
      end
  end.
Proof.
  unfold json_price_size, py_contains, py_getitem, py_get, dict_mem.
  cbn [bind]. intros H.
  destruct (dict_get d (lit "price")) as [pv|].
  - binds_inv H. by injection H as <-.
  - destruct (dict_get d (lit "bid")) as [bv|]; cbn [bind andb] in H.
    + destruct (dict_get d (lit "ask")) as [av|]; cbn [bind andb] in H.
      * binds_inv H. injection H as <-. simpl. split; [done|]. split; [|done].
        eauto.
      * by injection H as <-.
    + by injection H as <-.
Qed.

Lemma json_message_type_type (d : pydict) (m m' : MarketMessage.t) :
  json_message_type (PDict d) m = Ret m' ->
  MarketMessage.side m' = MarketMessage.side m /\
  MarketMessage.price m' = MarketMessage.price m /\
  exists msg_type,
    default (PStr []) (dict_get d (lit "type")) = PStr msg_type /\
    MarketMessage.message_type m' =
      if str_eqb (str_lower msg_type) (lit "trade") then MessageType.TRADE
      else if str_eqb (str_lower msg_type) (lit "quote") then MessageType.QUOTE
      else if str_eqb (str_lower msg_type) (lit "order") then MessageType.NEW_ORDER
      else match MarketMessage.message_type m with
           | MessageType.UNKNOWN => MessageType.MARKET_DATA
           | t => t
           end.
Proof.
  unfold json_message_type, py_get, py_lower, default. cbn [bind]. intros H.
  destruct (dict_get d (lit "type")) as [[| | | |s| |]|]; try discriminate H;
    cbn [bind] in H; apply Ret_inj in H; subst m'.
  - split; [|split; [|exists s; split; [done|]]];
      destruct (str_eqb (str_lower s) (lit "trade")); try done;
      destruct (str_eqb (str_lower s) (lit "quote")); try done;
      destruct (str_eqb (str_lower s) (lit "order")); try done;
      destruct (MarketMessage.message_type m) eqn:E; simpl; congruence.
  - split; [|split; [|exists []; split; [done|]]];
      destruct (MarketMessage.message_type m) eqn:E; simpl; congruence.
Qed.

Lemma json_timestamp_others (d : pydict) (m m' : MarketMessage.t) :
  json_timestamp (PDict d) m = Ret m' ->
  MarketMessage.side m' = MarketMessage.side m /\
  MarketMessage.price m' = MarketMessage.price m /\
  MarketMessage.message_type m' = MarketMessage.message_type m.
Proof.
  unfold json_timestamp, py_contains, py_getitem, dict_mem. cbn [bind].
  intros H. destruct (dict_get d (lit "timestamp")) as [tv|].
  - binds_inv H. by injection H as <-.
  - by injection H as <-.
Qed.

(** A message the facade returns for a JSON buffer: the object, and the
    message of the extractor before the timestamp is backfilled. *)
Lemma parse_json_success_inv (self : MessageParser) (w : world) (data : pydata)
    (b : bytes) (self' : MessageParser) (m : MarketMessage.t) :
  to_bytes data = Ret b ->
  _detect_protocol b = ProtocolType.WEBSOCKET_JSON ->
  parse_message self w data = Ret (self', (ParseResult.SUCCESS, Some m)) ->
  exists text d m0,
    Utf8.decode Utf8.strict b = Ret text /\
    Json.loads (recursion_depth w) text = Ret (PDict d) /\
    websocket_fields (PDict d) = Ret (ParseResult.SUCCESS, Some m0) /\
    backfill w (Some m0) = Some m.
Proof.
  intros Hb Hp H.
  apply parse_message_success_inv in H as (_ & b' & m0 & Hb' & Hbf & H).
  rewrite Hb in Hb'. injection Hb' as <-.
  destruct H as [[Hp' _]|[_ H]]; [by rewrite Hp in Hp'|].
  apply json_extract_returns in H as [[=]|(text & j & Hd & Hj & H)].
  destruct j as [| | | | | |d]; try discriminate H.
  by exists text, d, m0.
Qed.

(** X9.  The side and the message type of a JSON message returned with
    SUCCESS.  The value of [side] (the empty string when absent) is a
    string; lowered, [buy] or [b] gives BUY, [sell] or [s] gives SELL, and
    anything else UNKNOWN.  The value of [type] is a string too; lowered,
    [trade], [quote] and [order] give TRADE, QUOTE and NEW_ORDER; any other
    value gives QUOTE when the object has [bid] and [ask] but no [price],
    and MARKET_DATA otherwise. *)
Theorem X9_json_side_and_type (self : MessageParser) (w : world)
    (data : pydata) (b : bytes) (self' : MessageParser) (m : MarketMessage.t) :
  to_bytes data = Ret b ->
  _detect_protocol b = ProtocolType.WEBSOCKET_JSON ->
  parse_message self w data = Ret (self', (ParseResult.SUCCESS, Some m)) ->
  let key := json_key (recursion_depth w) b in
  (exists side_str,
     default (PStr []) (key (lit "side")) = PStr side_str /\
     MarketMessage.side m =
       if str_in (str_lower side_str) [lit "buy"; lit "b"] then Side.BUY
       else if str_in (str_lower side_str) [lit "sell"; lit "s"] then Side.SELL
       else Side.UNKNOWN) /\
  (exists msg_type,
     default (PStr []) (key (lit "type")) = PStr msg_type /\
     MarketMessage.message_type m =
       if str_eqb (str_lower msg_type) (lit "trade") then MessageType.TRADE
       else if str_eqb (str_lower msg_type) (lit "quote") then MessageType.QUOTE
       else if str_eqb (str_lower msg_type) (lit "order") then MessageType.NEW_ORDER
       else match key (lit "price"), key (lit "bid"), key (lit "ask") with
            | None, Some _, Some _ => MessageType.QUOTE
            | _, _, _ => MessageType.MARKET_DATA
            end).
Proof.
  intros Hb Hp H key.
  destruct (parse_json_success_inv _ _ _ _ _ _ Hb Hp H)
    as (text & d & m0 & Hd & Hj & Hw & Hbf).
  apply backfill_other_fields in Hbf as (-> & _ & ->).
  apply websocket_success_blocks in Hw as (v & m1 & m2 & m3 & _ & H1 & H2 & H3 & H4).
  subst key. unfold json_key. rewrite Hd, Hj.
  apply json_side_fields in H1 as H1'. destruct H1' as (_ & _ & _ & T1).
  apply json_side_side in H1 as (_ & side_str & Hside & S1).
  apply json_price_size_price in H2 as (S2 & P2).
  apply json_message_type_type in H3 as (S3 & _ & msg_type & Htype & T3).
  apply json_timestamp_others in H4 as (S4 & _ & T4).
  split.
  - exists side_str. split; [done|]. by rewrite S4, S3, S2, S1.
  - exists msg_type. split; [done|]. rewrite T4, T3.
    destruct (str_eqb (str_lower msg_type) (lit "trade")); [done|].
    destruct (str_eqb (str_lower msg_type) (lit "quote")); [done|].
    destruct (str_eqb (str_lower msg_type) (lit "order")); [done|].
    destruct (dict_get d (lit "price")).
    + destruct P2 as (_ & ->). rewrite T1. by destruct (dict_get d (lit "bid")).
    + destruct (dict_get d (lit "bid")).
      * destruct (dict_get d (lit "ask")).
        -- by destruct P2 as (_ & ->).
        -- destruct P2 as (_ & ->). by rewrite T1.
      * destruct P2 as (_ & ->). by rewrite T1.
Qed.

Lemma X9_json_side_and_type_witness :
  exists m,
    parse_message (MessageParser_init false) {| now := 7; recursion_depth := 900 |}
      (PyBytes (bq "{'symbol':'MSFT','side':'SELL','bid':1,'ask':2,'type':'tick'}"))
    = Ret (count_parsed (MessageParser_init false), (ParseResult.SUCCESS, Some m)) /\
    exists side_str,
      default (PStr [])
        (json_key 900 (bq "{'symbol':'MSFT','side':'SELL','bid':1,'ask':2,'type':'tick'}")
           (lit "side")) = PStr side_str /\
      MarketMessage.side m =
        if str_in (str_lower side_str) [lit "buy"; lit "b"] then Side.BUY
        else if str_in (str_lower side_str) [lit "sell"; lit "s"] then Side.SELL
        else Side.UNKNOWN.
Proof.
  eexists. split; [vm_compute; reflexivity|].
  exact (proj1 (X9_json_side_and_type (MessageParser_init false)
                  {| now := 7; recursion_depth := 900 |}
                  (PyBytes (bq "{'symbol':'MSFT','side':'SELL','bid':1,'ask':2,'type':'tick'}"))
                  _ _ _ eq_refl eq_refl eq_refl)).
Defined.

(** X10.  The price of a JSON message returned with SUCCESS: what [float]
    makes of the value of [price] when the key is present, whether or not
    [bid] and [ask] are; without [price] but with both [bid] and [ask],
    the sum of their [float] values divided by 2.0; and 0.0 otherwise. *)
Theorem X10_json_price (self : MessageParser) (w : world)
    (data : pydata) (b : bytes) (self' : MessageParser) (m : MarketMessage.t) :
  to_bytes data = Ret b ->
  _detect_protocol b = ProtocolType.WEBSOCKET_JSON ->
  parse_message self w data = Ret (self', (ParseResult.SUCCESS, Some m)) ->
  let key := json_key (recursion_depth w) b in
  match key (lit "price") with
  | Some v => py_float v = Ret (MarketMessage.price m)
  | None =>
      match key (lit "bid"), key (lit "ask") with
      | Some vb, Some va =>
          exists bid ask,
            py_float vb = Ret bid /\ py_float va = Ret ask /\
            MarketMessage.price m = Float.div (Float.add bid ask) Float.two
      | _, _ => MarketMessage.price m = Float.zero
      end
  end.
Proof.
  intros Hb Hp H key.
  destruct (parse_json_success_inv _ _ _ _ _ _ Hb Hp H)
    as (text & d & m0 & Hd & Hj & Hw & Hbf).
  apply backfill_other_fields in Hbf as (_ & -> & _).
  apply websocket_success_blocks in Hw as (v & m1 & m2 & m3 & _ & H1 & H2 & H3 & H4).
  subst key. unfold json_key. rewrite Hd, Hj.
  apply json_side_side in H1 as (P1 & _).
  apply json_price_size_price in H2 as (_ & P2).
  apply json_message_type_type in H3 as (_ & P3 & _).
  apply json_timestamp_others in H4 as (_ & P4 & _).
  rewrite P4, P3.
  destruct (dict_get d (lit "price")); [by destruct P2|].
  destruct (dict_get d (lit "bid")).
  - destruct (dict_get d (lit "ask")); [by destruct P2|].
    destruct P2 as (-> & _). by rewrite P1.
  - destruct P2 as (-> & _). by rewrite P1.
Qed.

Lemma X10_json_price_witness :
  exists m,
    parse_message (MessageParser_init false) {| now := 7; recursion_depth := 900 |}
      (PyBytes (bq "{'symbol':'MSFT','price':'1e2','bid':1,'ask':2}"))
    = Ret (count_parsed (MessageParser_init false), (ParseResult.SUCCESS, Some m)) /\
    py_float (PStr (lit "1e2")) = Ret (MarketMessage.price m).
Proof.
  eexists. split; [vm_compute; reflexivity|].
  exact (X10_json_price (MessageParser_init false)
           {| now := 7; recursion_depth := 900 |}
           (PyBytes (bq "{'symbol':'MSFT','price':'1e2','bid':1,'ask':2}"))
           _ _ _ eq_refl eq_refl eq_refl).
Defined.

(** X11.  The message types that reach the caller.  A tag-value message
    returned with SUCCESS is never typed QUOTE or MARKET_DATA; a JSON
    message returned with SUCCESS is always typed TRADE, QUOTE, NEW_ORDER
    or MARKET_DATA, never UNKNOWN, CANCEL_ORDER or MODIFY_ORDER. *)
Theorem X11_message_types (self : MessageParser) (w : world)
    (data : pydata) (b : bytes) (self' : MessageParser) (m : MarketMessage.t) :
  to_bytes data = Ret b ->
  parse_message self w data = Ret (self', (ParseResult.SUCCESS, Some m)) ->
  match _detect_protocol b with
  | ProtocolType.FIX =>
      MarketMessage.message_type m <> MessageType.QUOTE /\
      MarketMessage.message_type m <> MessageType.MARKET_DATA
  | ProtocolType.WEBSOCKET_JSON =>
      MarketMessage.message_type m <> MessageType.UNKNOWN /\
      MarketMessage.message_type m <> MessageType.CANCEL_ORDER /\
      MarketMessage.message_type m <> MessageType.MODIFY_ORDER
  | ProtocolType.UNKNOWN => False
  end.
Proof.
  intros Hb H.
  destruct (_detect_protocol b) eqn:Hp.
  - apply parse_message_inv in H as (b' & Hb' & H).
    rewrite Hb in Hb'. injection Hb' as <-.
    destruct H as [(_ & [=] & _)|[(Hp' & _)|(_ & [=] & _)]]. by rewrite Hp in Hp'.
  - apply parse_message_success_inv in H as (_ & b' & m0 & Hb' & Hbf & H).
    rewrite Hb in Hb'. injection Hb' as <-.
    apply backfill_other_fields in Hbf as (_ & _ & ->).
    destruct H as [[_ H]|[Hp' _]]; [|by rewrite Hp in Hp'].
    apply fix_success_blocks in H as (decoded & symbol & m1 & m2 & _ & _ & H1 & H2 & ->).
    apply fix_price_side_type in H1 as (_ & P2 & _).
    apply fix_size_side_type in H2 as (_ & S2 & _).
    assert (Ht : MarketMessage.message_type m2 = MessageType.UNKNOWN).
    { rewrite S2, P2. unfold fix_side.
      destruct (_ !! lit "54") as [v|]; [|done].
      destruct (str_eqb v (lit "1")); [done|].
      by destruct (str_eqb v (lit "2")). }
    unfold fix_msgtype. destruct (_ !! lit "35"); [|by rewrite Ht].
    repeat match goal with |- context [if ?c then _ else _] => destruct c end;
      try done. by rewrite Ht.
  - destruct (parse_json_success_inv _ _ _ _ _ _ Hb Hp H)
      as (text & d & m0 & Hd & Hj & Hw & Hbf).
    apply backfill_other_fields in Hbf as (_ & _ & ->).
    apply websocket_success_blocks in Hw as (v & m1 & m2 & m3 & _ & H1 & H2 & H3 & H4).
    apply json_side_fields in H1 as (_ & _ & _ & T1).
    apply json_price_size_price in H2 as (_ & P2).
    apply json_message_type_type in H3 as (_ & _ & msg_type & _ & T3).
    apply json_timestamp_others in H4 as (_ & _ & ->).
    rewrite T3.
    assert (Ht : MarketMessage.message_type m2 = MessageType.UNKNOWN \/
                 MarketMessage.message_type m2 = MessageType.QUOTE).
    { destruct (dict_get d (lit "price")).
      - destruct P2 as (_ & ->). by left.
      - destruct (dict_get d (lit "bid")); [destruct (dict_get d (lit "ask"))|].
        + destruct P2 as (_ & ->). by right.
        + destruct P2 as (_ & ->). by left.
        + destruct P2 as (_ & ->). by left. }
    repeat match goal with |- context [if ?c then _ else _] => destruct c end;
      try done.
    by destruct Ht as [-> | ->].
Qed.

Lemma X11_message_types_witness :
  exists m,
    parse_message (MessageParser_init false) {| now := 7; recursion_depth := 900 |}
      (PyBytes (bq "{'symbol':'TSLA','type':'cancel'}"))
    = Ret (count_parsed (MessageParser_init false), (ParseResult.SUCCESS, Some m)) /\
    MarketMessage.message_type m <> MessageType.CANCEL_ORDER.
Proof.
  eexists. split; [vm_compute; reflexivity|].
  exact (proj1 (proj2 (X11_message_types (MessageParser_init false)
                  {| now := 7; recursion_depth := 900 |}
                  (PyBytes (bq "{'symbol':'TSLA','type':'cancel'}"))
                  _ _ _ eq_refl eq_refl))).
Defined.

(** ** Serialisation of a message *)

Lemma Side_name_inj (a b : Side.t) : Side_name a = Side_name b -> a = b.
Proof. destruct a, b; intros H; try reflexivity; by vm_compute in H. Qed.

Lemma MessageType_name_inj (a b : MessageType.t) :
  MessageType_name a = MessageType_name b -> a = b.
Proof. destruct a, b; intros H; try reflexivity; by vm_compute in H. Qed.

(** X12.  [to_dict] loses nothing: two messages with the same dictionary
    are the same message, and each of the six keys gives back its
    field. *)
Theorem X12_to_dict_faithful (m m' : MarketMessage.t) :
  (to_dict m = to_dict m' -> m = m') /\
  dict_get (to_dict m) (lit "timestamp") = Some (PInt (MarketMessage.timestamp m)) /\
  dict_get (to_dict m) (lit "symbol") = Some (MarketMessage.symbol m) /\
  dict_get (to_dict m) (lit "side")
    = Some (PStr (Side_name (MarketMessage.side m))) /\
  dict_get (to_dict m) (lit "price") = Some (PFloat (MarketMessage.price m)) /\
  dict_get (to_dict m) (lit "size") = Some (PInt (MarketMessage.size m)) /\
  dict_get (to_dict m) (lit "type")
    = Some (PStr (MessageType_name (MarketMessage.message_type m))).
Proof.
  split; [|by repeat split].
  destruct m as [ts sym sd pr sz ty], m' as [ts' sym' sd' pr' sz' ty'].
  unfold to_dict. cbn [MarketMessage.timestamp MarketMessage.symbol
    MarketMessage.side MarketMessage.price MarketMessage.size
    MarketMessage.message_type].
  intros H. injection H as Hts Hsym Hsd Hpr Hsz Hty.
  apply Side_name_inj in Hsd. apply MessageType_name_inj in Hty.
  by subst.
Qed.

(** X13.  Reading back what [to_dict] wrote: the statements of
    [_parse_websocket_json] that follow [json.loads], run on the dictionary
    of a message whose symbol is a true value, give SUCCESS and the same
    timestamp, symbol, side, price and size.  The message type comes back
    for TRADE and QUOTE only; every other type comes back as MARKET_DATA,
    since the names NEW_ORDER, CANCEL_ORDER, MODIFY_ORDER and UNKNOWN are
    not among the words the extractor knows. *)
Theorem X13_to_dict_read_back (m : MarketMessage.t) :
  truthy (MarketMessage.symbol m) = true ->
  websocket_fields (PDict (to_dict m))
  = Ret (ParseResult.SUCCESS,
         Some (MarketMessage.set_message_type
                 match MarketMessage.message_type m with
                 | MessageType.TRADE => MessageType.TRADE
                 | MessageType.QUOTE => MessageType.QUOTE
                 | _ => MessageType.MARKET_DATA
                 end m)).
Proof.
  destruct m as [ts sym sd pr sz ty]. simpl. intros Hsym.
  unfold websocket_fields.
  change (py_get (PDict (to_dict (MarketMessage.mk ts sym sd pr sz ty)))
            (lit "symbol") PNone) with (Ret sym).
  cbn [bind]. rewrite Hsym. cbn [negb].
  destruct sd, ty; vm_compute; reflexivity.
Qed.

Lemma X13_to_dict_read_back_witness :
  websocket_fields
    (PDict (to_dict (MarketMessage.mk 5 (PStr (lit "AAPL")) Side.BUY
                       (Float.of_dyadic 601 (-2)) 100 MessageType.NEW_ORDER)))
  = Ret (ParseResult.SUCCESS,
         Some (MarketMessage.mk 5 (PStr (lit "AAPL")) Side.BUY
                 (Float.of_dyadic 601 (-2)) 100 MessageType.MARKET_DATA)).
Proof.
  exact (X13_to_dict_read_back
           (MarketMessage.mk 5 (PStr (lit "AAPL")) Side.BUY
              (Float.of_dyadic 601 (-2)) 100 MessageType.NEW_ORDER) eq_refl).
Defined.

(** ** Construction of a parser *)

Lemma find_first {A : Type} (f : A -> bool) (pre : list A) (p : A) (post : list A) :
  (forall q, In q pre -> f q = false) -> f p = true ->
  List.find f (pre ++ p :: post) = Some p.
Proof.
  induction pre as [|q pre IH]; simpl; intros Hpre Hp; [by rewrite Hp|].
  rewrite (Hpre q) by auto. apply IH; auto.
Qed.

Lemma find_none_iff {A : Type} (f : A -> bool) (l : list A) :
  List.find f l = None <-> forall x, In x l -> f x = false.
Proof.
  induction l as [|a l IH]; simpl; [done|].
  destruct (f a) eqn:E.
  - split; [done|]. intros H. by rewrite (H a) in E; auto.
  - rewrite IH. split; [|by auto]. by intros H x [<-|Hx]; auto.
Qed.

(** X14.  [_load_library].  A path given by the caller is loaded as it
    is, without a test that it exists.  Without one, the library is the
    first of the six standard locations that exists: the search fails
    exactly when none exists, and when the first existing file cannot be
    loaded the call fails, even if a later location holds a library that
    could. *)
Theorem X14_load_library_search (env : loader) :
  (forall p, _load_library env (Some p)
             = if cdll_loads env p then Loaded p else LoadFailed p) /\
  (_load_library env None = NotFound
   <-> forall p, In p possible_paths -> path_exists env p = false) /\
  (forall pre p post,
     possible_paths = pre ++ p :: post ->
     (forall q, In q pre -> path_exists env q = false) ->
     path_exists env p = true ->
     _load_library env None = if cdll_loads env p then Loaded p else LoadFailed p).
Proof.
  split; [done|split].
  - unfold _load_library. rewrite <- find_none_iff.
    destruct (List.find _ _) as [p|]; [|done].
    split; [|done]. by destruct (cdll_loads env p).
  - intros pre p post Hpaths Hpre Hp. unfold _load_library.
    by rewrite Hpaths, (find_first _ pre p post Hpre Hp).
Qed.

Lemma X14_load_library_search_witness :
  _load_library
    {| path_exists := fun p => String.eqb p "./hft_ingestion.dll"
                               || String.eqb p "./build/libhft_ingestion.so";
       cdll_loads := fun p => String.eqb p "./build/libhft_ingestion.so" |}
    None
  = LoadFailed "./hft_ingestion.dll".
Proof.
  refine (proj2 (proj2 (X14_load_library_search
            {| path_exists := fun p => String.eqb p "./hft_ingestion.dll"
                                       || String.eqb p "./build/libhft_ingestion.so";
               cdll_loads := fun p => String.eqb p "./build/libhft_ingestion.so" |}))
            ["./libhft_ingestion.so"; "./libhft_ingestion.dylib"]%string
            "./hft_ingestion.dll"%string
            ["./build/libhft_ingestion.so"; "./build/libhft_ingestion.dylib";
             "./build/hft_ingestion.dll"]%string eq_refl _ eq_refl).
  intros q Hq. simpl in Hq.
  destruct Hq as [<-|[<-|[]]]; reflexivity.
Defined.

(** X15.  The library decides nothing but a label.  Whatever [__init__]
    was given and whatever it found, every sequence of calls has the same
    outcomes and the same counters as on a parser built without the
    library; [get_statistics] names the implementation C++ exactly when
    the library was asked for and loaded. *)
Theorem X15_library_is_a_label (env : loader) (library_path : option string)
    (use_cpp : bool) (calls : list (world * pydata)) :
  let with_library := run_calls (MessageParser__init__ env library_path use_cpp) calls in
  let without := run_calls (MessageParser_init false) calls in
  snd with_library = snd without /\
  messages_parsed (fst with_library) = messages_parsed (fst without) /\
  parse_errors (fst with_library) = parse_errors (fst without) /\
  res_map stat_error_rate (get_statistics (fst with_library))
    = res_map stat_error_rate (get_statistics (fst without)) /\
  exists label,
    res_map stat_implementation (get_statistics (fst with_library)) = Ret label /\
    (label = "C++"%string
     <-> use_cpp = true /\ exists p, _load_library env library_path = Loaded p).
Proof.
  intros with_library without. subst with_library without.
  unfold MessageParser__init__.
  set (loaded := if use_cpp then _ else false).
  pose proof (run_calls_outcomes calls (MessageParser_init loaded)
                (MessageParser_init false)) as Ho.
  destruct (run_calls_counters calls (MessageParser_init loaded)) as (N1 & M1 & L1).
  destruct (run_calls_counters calls (MessageParser_init false)) as (N0 & M0 & _).
  rewrite Ho in N1, M1. simpl in N1, M1, L1, N0, M0.
  assert (HN : messages_parsed (fst (run_calls (MessageParser_init loaded) calls))
               = messages_parsed (fst (run_calls (MessageParser_init false) calls)))
    by lia.
  assert (HM : parse_errors (fst (run_calls (MessageParser_init loaded) calls))
               = parse_errors (fst (run_calls (MessageParser_init false) calls)))
    by lia.
  split; [done|]. split; [done|]. split; [done|].
  unfold get_statistics. rewrite HN, HM, L1.
  set (self := fst (run_calls (MessageParser_init false) calls)) in *.
  assert (H0 : 0 <= successes (snd (run_calls (MessageParser_init false) calls)))
    by apply count_nonneg.
  assert (H1 : 0 <= failures (snd (run_calls (MessageParser_init false) calls)))
    by apply count_nonneg.
  destruct (py_truediv_returns (parse_errors self)
              (Z.max 1 (messages_parsed self + parse_errors self)))
    as [rate Hrate]; [lia|lia|].
  rewrite Hrate. cbn [bind res_map stat_error_rate stat_implementation].
  split; [|exists (if loaded then "C++" else "Python")%string; split]; [done|done|].
  subst loaded. destruct use_cpp.
  - destruct (_load_library env library_path) as [p| |p].
    + split; [eauto|done].
    + split; [done|]. by intros (_ & p & [=]).
    + split; [done|]. by intros (_ & p' & [=]).
  - split; [done|]. by intros ([=] & _).
Qed.

(** X16.  The two module-level functions are the same function: each
    builds a parser and calls [parse_message], which detects the protocol
    by itself, so that [parse_fix_message] parses a JSON message and
    [parse_websocket_message] a tag-value one; what they return does not
    depend on the library being found or loaded. *)
Theorem X16_convenience_functions (env : loader) (w : world) (data : pydata) :
  parse_fix_message env w data = parse_outcome w data /\
  parse_websocket_message env w data = parse_outcome w data.
Proof.
  unfold parse_fix_message, parse_websocket_message.
  rewrite parse_message_outcome.
  by destruct (parse_outcome w data).
Qed.

(** ** The error rate *)

Lemma of_ratio_same (p : positive) : Float.of_ratio false p p = Float.one.
Proof.
  unfold Float.of_ratio, Float.div, SFdiv, SFdiv_core_binary.
  replace (Zdigits2 (Z.pos p) + 0 - (Zdigits2 (Z.pos p) + 0)) with 0 by lia.
  change (Z.min (fexp Float.prec Float.emax 0) (0 - 0)) with (-53).
  change (0 - 0 - -53) with 53. cbv iota.
  assert (Hd : Z.div_eucl (Z.shiftl (Z.pos p) 53) (Z.pos p) = (2 ^ 53, 0)).
  { rewrite Z.shiftl_mul_pow2 by lia.
    pose proof (Z_div_mult_full (2 ^ 53) (Z.pos p)) as Hq.
    pose proof (Z_mod_mult (2 ^ 53) (Z.pos p)) as Hr.
    rewrite (Z.mul_comm (Z.pos p)).
    unfold Z.div, Z.modulo in Hq, Hr.
    destruct (Z.div_eucl (2 ^ 53 * Z.pos p) (Z.pos p)) as [q r].
    rewrite Hq, Hr by lia. done. }
  rewrite Hd. destruct p; vm_compute; reflexivity.
Qed.

(** X17.  The error rate at the two ends.  On a fresh parser, after calls
    of which none returned SUCCESS and one at least returned another
    status, [get_statistics] reports the error rate 1.0 exactly, however
    many calls there were; after calls none of which failed it reports
    0.0. *)
Theorem X17_error_rate_extremes (cpp_loaded : bool)
    (calls : list (world * pydata)) :
  let self := fst (run_calls (MessageParser_init cpp_loaded) calls) in
  let outs := snd (run_calls (MessageParser_init cpp_loaded) calls) in
  (successes outs = 0 -> 0 < failures outs ->
   res_map stat_error_rate (get_statistics self) = Ret Float.one) /\
  (failures outs = 0 ->
   res_map stat_error_rate (get_statistics self) = Ret Float.zero).
Proof.
  intros self outs.
  destruct (run_calls_counters calls (MessageParser_init cpp_loaded))
    as (HN & HM & _).
  fold self in HN, HM. fold outs in HN, HM. simpl in HN, HM.
  unfold get_statistics. rewrite HN, HM.
  split.
  - intros -> Hpos. rewrite !Z.add_0_l.
    replace (Z.max 1 (failures outs)) with (failures outs) by lia.
    destruct (failures outs) as [|p|p]; [lia| |lia].
    change (py_truediv (Z.pos p) (Z.pos p))
      with (if Float.is_infinite (Float.of_ratio false p p)
            then Raise OverflowError else Ret (Float.of_ratio false p p)).
    rewrite of_ratio_same. reflexivity.
  - intros ->. rewrite !Z.add_0_l, Z.add_0_r.
    assert (H0 : 0 <= successes outs) by apply count_nonneg.
    unfold py_truediv.
    destruct (Z.max 1 (successes outs)) as [|p|p] eqn:E; [lia| |lia].
    reflexivity.
Qed.

Lemma X17_error_rate_extremes_witness :
  res_map stat_error_rate
    (get_statistics
       (fst (run_calls (MessageParser_init false)
               [({| now := 1; recursion_depth := 900 |}, PyBytes []);
                ({| now := 2; recursion_depth := 900 |}, PyBytes (blit "8=FIX.4.4"));
                ({| now := 3; recursion_depth := 900 |}, PyBytes (blit "{"))])))
  = Ret Float.one.
Proof.
  apply (proj1 (X17_error_rate_extremes false
           [({| now := 1; recursion_depth := 900 |}, PyBytes []);
            ({| now := 2; recursion_depth := 900 |}, PyBytes (blit "8=FIX.4.4"));
            ({| now := 3; recursion_depth := 900 |}, PyBytes (blit "{"))])).
  - vm_compute. reflexivity.
  - vm_compute. reflexivity.
Defined.

(** ** UTF-8: encoding, then decoding *)

Lemma lor_disjoint (a b n : Z) :
  0 <= n -> 0 <= b < 2 ^ n -> Z.lor (a * 2 ^ n) b = a * 2 ^ n + b.
Proof.
  intros Hn Hb.
  assert (Hl : Z.land (a * 2 ^ n) b = 0).
  { apply Z.bits_inj'. intros i Hi. rewrite Z.land_spec, Z.bits_0.
    destruct (Z.lt_ge_cases i n).
    - by rewrite Z.mul_pow2_bits_low by lia.
    - rewrite <- (Z.mod_small b (2 ^ n)) by lia.
      rewrite Z.mod_pow2_bits_high by lia. apply andb_false_r. }
  rewrite Z.add_nocarry_lxor by done. symmetry. by apply Z.lxor_lor.
Qed.

Lemma land_63 (a : Z) : Z.land a 0x3F = a mod 64.
Proof. change 0x3F with (Z.ones 6). by rewrite Z.land_ones. Qed.

Lemma land_31 (a : Z) : Z.land a 0x1F = a mod 32.
Proof. change 0x1F with (Z.ones 5). by rewrite Z.land_ones. Qed.

Lemma land_15 (a : Z) : Z.land a 0x0F = a mod 16.
Proof. change 0x0F with (Z.ones 4). by rewrite Z.land_ones. Qed.

Lemma land_7 (a : Z) : Z.land a 0x07 = a mod 8.
Proof. change 0x07 with (Z.ones 3). by rewrite Z.land_ones. Qed.

Lemma lor_128 (x : Z) : 0 <= x < 64 -> Z.lor 0x80 x = 128 + x.
Proof. intros H. change 0x80 with (2 * 2 ^ 6). by rewrite lor_disjoint. Qed.

Lemma lor_192 (x : Z) : 0 <= x < 32 -> Z.lor 0xC0 x = 192 + x.
Proof. intros H. change 0xC0 with (6 * 2 ^ 5). by rewrite lor_disjoint. Qed.

Lemma lor_224 (x : Z) : 0 <= x < 16 -> Z.lor 0xE0 x = 224 + x.
Proof. intros H. change 0xE0 with (14 * 2 ^ 4). by rewrite lor_disjoint. Qed.

Lemma lor_240 (x : Z) : 0 <= x < 8 -> Z.lor 0xF0 x = 240 + x.
Proof. intros H. change 0xF0 with (30 * 2 ^ 3). by rewrite lor_disjoint. Qed.

Lemma cp2_spec (h l : Z) :
  0 <= h < 32 -> 0 <= l < 64 -> Utf8.cp2 (192 + h) (128 + l) = 64 * h + l.
Proof.
  intros Hh Hl. unfold Utf8.cp2. rewrite land_31, land_63.
  rewrite Z.shiftl_mul_pow2 by lia.
  replace ((192 + h) mod 32) with h by (Z.div_mod_to_equations; lia).
  replace ((128 + l) mod 64) with l by (Z.div_mod_to_equations; lia).
  rewrite lor_disjoint by lia. lia.
Qed.

Lemma cp3_spec (h m l : Z) :
  0 <= h < 16 -> 0 <= m < 64 -> 0 <= l < 64 ->
  Utf8.cp3 (224 + h) (128 + m) (128 + l) = 4096 * h + 64 * m + l.
Proof.
  intros Hh Hm Hl. unfold Utf8.cp3. rewrite land_15, !land_63.
  rewrite !Z.shiftl_mul_pow2 by lia.
  replace ((224 + h) mod 16) with h by (Z.div_mod_to_equations; lia).
  replace ((128 + m) mod 64) with m by (Z.div_mod_to_equations; lia).
  replace ((128 + l) mod 64) with l by (Z.div_mod_to_equations; lia).
  rewrite (lor_disjoint m l 6) by lia.
  rewrite (lor_disjoint h _ 12) by lia. lia.
Qed.

Lemma cp4_spec (h a m l : Z) :
  0 <= h < 8 -> 0 <= a < 64 -> 0 <= m < 64 -> 0 <= l < 64 ->
  Utf8.cp4 (240 + h) (128 + a) (128 + m) (128 + l)
  = 262144 * h + 4096 * a + 64 * m + l.
Proof.
  intros Hh Ha Hm Hl. unfold Utf8.cp4. rewrite land_7, !land_63.
  rewrite !Z.shiftl_mul_pow2 by lia.
  replace ((240 + h) mod 8) with h by (Z.div_mod_to_equations; lia).
  replace ((128 + a) mod 64) with a by (Z.div_mod_to_equations; lia).
  replace ((128 + m) mod 64) with m by (Z.div_mod_to_equations; lia).
  replace ((128 + l) mod 64) with l by (Z.div_mod_to_equations; lia).
  rewrite (lor_disjoint m l 6) by lia.
  rewrite (lor_disjoint a _ 12) by lia.
  rewrite (lor_disjoint h _ 18) by lia. lia.
Qed.

(** The bytes of a character, in arithmetic. *)
Lemma encode_char_spec (c : Z) :
  is_code_point c = true ->
  Utf8.encode_char c =
    (if c <? 0x80 then [c]
     else if c <? 0x800 then [192 + c / 64; 128 + c mod 64]
     else if c <? 0x10000 then
       [224 + c / 4096; 128 + (c / 64) mod 64; 128 + c mod 64]
     else [240 + c / 262144; 128 + (c / 4096) mod 64;
           128 + (c / 64) mod 64; 128 + c mod 64]).
Proof.
  unfold is_code_point. intros Hc. unfold Utf8.encode_char.
  rewrite !land_63, !Z.shiftr_div_pow2 by lia.
  change (2 ^ 6) with 64. change (2 ^ 12) with 4096. change (2 ^ 18) with 262144.
  destruct (Z.ltb_spec c 0x80); [done|].
  destruct (Z.ltb_spec c 0x800).
  { rewrite lor_192, lor_128 by (Z.div_mod_to_equations; lia). done. }
  destruct (Z.ltb_spec c 0x10000).
  { rewrite lor_224, !lor_128 by (Z.div_mod_to_equations; lia). done. }
  rewrite lor_240, !lor_128 by (Z.div_mod_to_equations; lia). done.
Qed.

Lemma decode_step_encode_char (c : Z) (r : list Z) :
  is_code_point c = true -> Utf8.is_surrogate c = false ->
  exists b tl,
    Utf8.encode_char c = b :: tl /\
    forallb is_byte_value (b :: tl) = true /\
    Utf8.decode_step b (tl ++ r) = Utf8.Char c (length (b :: tl)).
Proof.
  intros Hc Hs. rewrite (encode_char_spec c Hc).
  unfold is_code_point in Hc. unfold Utf8.is_surrogate in Hs.
  assert (Hr : 0 <= c <= 0x10FFFF) by lia.
  assert (Hns : c < 0xD800 \/ 0xDFFF < c) by lia.
  clear Hc Hs. unfold is_byte_value.
  destruct (Z.ltb_spec c 0x80).
  { exists c, []. split; [done|]. split.
    - cbn [forallb]. rewrite andb_true_r. lia.
    - unfold Utf8.decode_step. by rewrite (proj2 (Z.ltb_lt c 128)) by lia. }
  destruct (Z.ltb_spec c 0x800).
  { eexists _, _. split; [reflexivity|]. split.
    - cbn [forallb]. decide_tests. done.
    - unfold Utf8.decode_step, Utf8.is_continuation. cbn [app].
      rewrite cp2_spec by (Z.div_mod_to_equations; lia).
      replace (64 * (c / 64) + c mod 64) with c by (Z.div_mod_to_equations; lia).
      decide_tests. done. }
  destruct (Z.ltb_spec c 0x10000).
  { eexists _, _. split; [reflexivity|]. split.
    - cbn [forallb]. decide_tests. done.
    - unfold Utf8.decode_step, Utf8.is_continuation. cbn [app].
      rewrite cp3_spec by (Z.div_mod_to_equations; lia).
      replace (4096 * (c / 4096) + 64 * ((c / 64) mod 64) + c mod 64) with c
        by (Z.div_mod_to_equations; lia).
      decide_tests; done. }
  eexists _, _. split; [reflexivity|]. split.
  - cbn [forallb]. decide_tests. done.
  - unfold Utf8.decode_step, Utf8.is_continuation. cbn [app].
    rewrite cp4_spec by (Z.div_mod_to_equations; lia).
    replace (262144 * (c / 262144) + 4096 * ((c / 4096) mod 64)
             + 64 * ((c / 64) mod 64) + c mod 64) with c
      by (Z.div_mod_to_equations; lia).
    decide_tests; done.
Qed.

Lemma Z_of_byte_of_Z (z : Z) : is_byte_value z = true -> Z_of_byte (byte_of_Z z) = z.
Proof.
  unfold is_byte_value, Z_of_byte, byte_of_Z. intros Hz.
  rewrite Z.mod_small by lia.
  destruct (Byte.of_N (Z.to_N z)) as [b|] eqn:E.
  - apply Byte.to_of_N in E. rewrite E. lia.
  - apply Byte.of_N_None_iff in E. lia.
Qed.

Lemma map_Z_of_byte_of_Z (l : list Z) :
  forallb is_byte_value l = true -> map Z_of_byte (map byte_of_Z l) = l.
Proof.
  induction l as [|z l IH]; [done|]. cbn [forallb map].
  intros H. apply andb_true_iff in H as [Hz Hl].
  by rewrite Z_of_byte_of_Z, IH.
Qed.

Lemma decode_loop_skip (h : Utf8.errors) (l r : list Z) :
  Utf8.decode_loop h (length l) (l ++ r) = Utf8.decode_loop h 0 r.
Proof.
  induction l as [|x l IH]; [|exact IH].
  simpl. by destruct r.
Qed.

Lemma decode_encoded (c : Z) (r : list Z) :
  is_code_point c = true -> Utf8.is_surrogate c = false ->
  Utf8.decode_loop Utf8.strict 0
    (map Z_of_byte (map byte_of_Z (Utf8.encode_char c)) ++ r)
  = let* out := Utf8.decode_loop Utf8.strict 0 r in Ret (c :: out).
Proof.
  intros Hc Hs.
  destruct (decode_step_encode_char c r Hc Hs) as (b & tl & -> & Hb & E).
  rewrite (map_Z_of_byte_of_Z _ Hb).
  cbn [app Utf8.decode_loop]. rewrite E.
  cbn [length Nat.pred]. by rewrite decode_loop_skip.
Qed.

Lemma encode_decode (s : str) :
  forall b : bytes,
    forallb is_code_point s = true ->
    Utf8.encode s = Ret b -> Utf8.decode Utf8.strict b = Ret s.
Proof.
  unfold Utf8.decode.
  induction s as [|c s IH]; intros b Hs; cbn [Utf8.encode].
  - by intros [= <-].
  - cbn [forallb] in Hs. apply andb_true_iff in Hs as [Hc Hs].
    destruct (Utf8.is_surrogate c) eqn:Hsur; [discriminate|].
    intros H. apply bind_Ret_inv in H as (out & Hout & [= <-]).
    rewrite !map_app.
    rewrite (decode_encoded c _ Hc Hsur), (IH out Hs Hout). done.
Qed.

(** X18.  Encoding, then decoding.  For a text of Unicode code points
    that [encode('utf-8')] accepts, the strict decoder gives the text back
    from its bytes: a text argument of [parse_message] reaches the
    extractors unchanged, and the tags read from the bytes are those of
    the text. *)
Theorem X18_utf8_round_trip (s : str) (b : bytes) :
  forallb is_code_point s = true ->
  Utf8.encode s = Ret b ->
  Utf8.decode Utf8.strict b = Ret s /\
  Utf8.decode_ignore b = s /\
  forall tag, fix_tag b tag = text_fields s !! tag.
Proof.
  intros Hs Hb. pose proof (encode_decode s b Hs Hb) as Hd.
  split; [done|]. split.
  - pose proof (decode_ignore_returns b) as Hi.
    rewrite (decode_strict_agrees Utf8.ignore b s Hd) in Hi.
    by injection Hi.
  - intros tag. unfold fix_tag. by rewrite Hd.
Qed.

Lemma X18_utf8_round_trip_witness :
  Utf8.decode Utf8.strict [x41; xc3; xa9; xe2; x82; xac; xf0; x9f; x98; x80]
  = Ret [0x41; 0xE9; 0x20AC; 0x1F600].
Proof.
  exact (proj1 (X18_utf8_round_trip [0x41; 0xE9; 0x20AC; 0x1F600]
                  [x41; xc3; xa9; xe2; x82; xac; xf0; x9f; x98; x80]
                  eq_refl eq_refl)).
Defined.

(** ** The dictionary of fields of a tag-value message *)

Lemma str_split_nonempty (sep : Z) (s : str) : str_split sep s <> [].
Proof.
  destruct s as [|c s]; simpl; [done|].
  destruct (c =? sep); [done|]. by destruct (str_split sep s).
Qed.

Lemma str_split_app (sep : Z) (a b : str) :
  str_split sep (a ++ sep :: b) = str_split sep a ++ str_split sep b.
Proof.
  induction a as [|c a IH]; cbn [app str_split].
  - by rewrite Z.eqb_refl.
  - destruct (c =? sep); [by rewrite IH|]. rewrite IH.
    pose proof (str_split_nonempty sep a) as Hne.
    by destruct (str_split sep a).
Qed.

Lemma str_split_no_sep (sep : Z) (s : str) :
  str_contains sep s = false -> str_split sep s = [s].
Proof.
  unfold str_contains. induction s as [|c s IH]; [done|].
  cbn [existsb str_split]. intros H. apply orb_false_iff in H as [Hc Hs].
  rewrite Z.eqb_sym, Hc. by rewrite (IH Hs).
Qed.

Lemma str_replace_absent (old new : Z) (s : str) :
  str_contains old s = false -> str_replace old new s = s.
Proof.
  unfold str_contains, str_replace. induction s as [|c s IH]; [done|].
  cbn [existsb map]. intros H. apply orb_false_iff in H as [Hc Hs].
  rewrite Z.eqb_sym, Hc. by rewrite (IH Hs).
Qed.

Lemma str_split_once_field (sep : Z) (tag value : str) :
  str_contains sep tag = false ->
  str_split_once sep (tag ++ sep :: value) = (tag, value).
Proof.
  unfold str_contains. induction tag as [|c tag IH]; cbn [app str_split_once existsb].
  - by rewrite Z.eqb_refl.
  - intros H. apply orb_false_iff in H as [Hc Hs].
    rewrite Z.eqb_sym, Hc. by rewrite (IH Hs).
Qed.

Lemma str_contains_app (c : Z) (a b : str) :
  str_contains c (a ++ b) = str_contains c a || str_contains c b.
Proof. apply existsb_app. Qed.

Lemma fix_fields_from_app (fields : gmap str str) (l1 l2 : list str) :
  fix_fields_from fields (l1 ++ l2)
  = fix_fields_from (fix_fields_from fields l1) l2.
Proof. apply fold_left_app. Qed.

Lemma text_fields_app (a b : str) (sep : Z) :
  is_delimiter sep = true ->
  text_fields (a ++ sep :: b)
  = fix_fields_from (text_fields a) (str_split 0x7C (str_replace 0x01 0x7C b)).
Proof.
  intros Hsep. unfold text_fields, str_replace. rewrite map_app. cbn [map].
  replace (if sep =? 1 then 124 else sep) with 124.
  2:{ unfold is_delimiter in Hsep. apply orb_true_iff in Hsep as [H|H].
      - by rewrite H.
      - apply Z.eqb_eq in H. by subst sep. }
  rewrite str_split_app. apply (fix_fields_from_app ∅).
Qed.

(** The pieces of a text without [=] bring no field. *)
Lemma fix_fields_from_ignored (fields : gmap str str) (sep : Z) (s : str) :
  str_contains 0x3D s = false ->
  fix_fields_from fields (str_split sep s) = fields.
Proof.
  intros Hs.
  assert (Hp : Forall (fun p => str_contains 0x3D p = false) (str_split sep s)).
  { clear fields. induction s as [|c s IH]; cbn [str_split].
    - by constructor.
    - unfold str_contains in Hs. cbn [existsb] in Hs.
      apply orb_false_iff in Hs as [Hc Hs]. specialize (IH Hs).
      destruct (c =? sep); [by constructor|].
      destruct (str_split sep s) as [|p ps].
      + constructor; [|constructor].
        unfold str_contains. cbn [existsb]. by rewrite Hc.
      + inversion IH as [|? ? Hp Hps]; subst. constructor; [|done].
        unfold str_contains in *. cbn [existsb]. by rewrite Hc. }
  revert fields. induction Hp as [|p ps Hp _ IH]; intros fields; [done|].
  unfold fix_fields_from. cbn [fold_left]. rewrite Hp. apply IH.
Qed.

Lemma str_replace_contains (c : Z) (s : str) :
  c <> 0x01 -> c <> 0x7C ->
  str_contains c (str_replace 0x01 0x7C s) = str_contains c s.
Proof.
  intros H1 H2. unfold str_contains, str_replace.
  induction s as [|x s IH]; [done|]. cbn [map existsb]. rewrite IH. f_equal.
  destruct (Z.eqb_spec x 1) as [->|Hx].
  - by rewrite (proj2 (Z.eqb_neq c 124)), (proj2 (Z.eqb_neq c 1)).
  - done.
Qed.

(** A field [tag=value] is one piece, and sets its tag. *)
Lemma fix_fields_from_field (fields : gmap str str) (tag value : str) :
  str_contains 0x3D tag = false ->
  no_delimiter tag = true -> no_delimiter value = true ->
  fix_fields_from fields
    (str_split 0x7C (str_replace 0x01 0x7C (tag ++ 0x3D :: value)))
  = <[tag := value]> fields.
Proof.
  unfold no_delimiter. intros Heq Htag Hvalue.
  apply andb_true_iff in Htag as [T1 T2]. apply andb_true_iff in Hvalue as [V1 V2].
  apply negb_true_iff in T1, T2, V1, V2.
  rewrite str_replace_absent.
  2:{ change (0x3D :: value) with ([0x3D] ++ value).
      by rewrite !str_contains_app, T1, V1. }
  rewrite str_split_no_sep.
  2:{ change (0x3D :: value) with ([0x3D] ++ value).
      by rewrite !str_contains_app, T2, V2. }
  unfold fix_fields_from. cbn [fold_left].
  change (0x3D :: value) with ([0x3D] ++ value) at 1.
  rewrite !str_contains_app. cbn [str_contains existsb Z.eqb Pos.eqb orb].
  rewrite orb_true_r. by rewrite str_split_once_field.
Qed.

(** X19.  A field appended to a tag-value text sets its tag in the
    dictionary of fields and leaves the other tags as they were: when a
    tag occurs more than once, its last value is the one the parser reads.
    The tag is the text before the first [=] of the field, the value all
    that follows, further [=] included. *)
Theorem X19_fix_last_field_wins (a tag value : str) (sep : Z) :
  is_delimiter sep = true ->
  str_contains 0x3D tag = false ->
  no_delimiter tag = true -> no_delimiter value = true ->
  text_fields (a ++ sep :: tag ++ 0x3D :: value)
  = <[tag := value]> (text_fields a).
Proof.
  intros Hsep Heq Htag Hvalue.
  by rewrite text_fields_app, fix_fields_from_field.
Qed.

Lemma X19_fix_last_field_wins_witness :
  text_fields (lit "8=FIX.4.4|55=AAPL|55=MSFT=X") !! lit "55" = Some (lit "MSFT=X").
Proof.
  change (lit "8=FIX.4.4|55=AAPL|55=MSFT=X")
    with (lit "8=FIX.4.4|55=AAPL" ++ 0x7C :: lit "55" ++ 0x3D :: lit "MSFT=X").
  rewrite (X19_fix_last_field_wins (lit "8=FIX.4.4|55=AAPL") (lit "55")
             (lit "MSFT=X") 0x7C eq_refl eq_refl eq_refl eq_refl).
  apply lookup_insert_eq.
Defined.

(** X20.  Text without [=] brings no field, wherever delimiters cut it:
    after a delimiter at the end of a message, before one at its start, or
    as the whole message.  A trailing delimiter, doubled delimiters and
    stray text between fields change nothing. *)
Theorem X20_fix_text_without_equals (a junk : str) (sep : Z) :
  is_delimiter sep = true ->
  str_contains 0x3D junk = false ->
  text_fields (a ++ sep :: junk) = text_fields a /\
  text_fields (junk ++ sep :: a) = text_fields a /\
  text_fields junk = ∅.
Proof.
  intros Hsep Hjunk.
  assert (Hj : str_contains 0x3D (str_replace 0x01 0x7C junk) = false)
    by by rewrite str_replace_contains.
  assert (He : text_fields junk = ∅)
    by apply (fix_fields_from_ignored ∅ 0x7C _ Hj).
  split; [|split; [|done]].
  - rewrite text_fields_app by done. by apply fix_fields_from_ignored.
  - rewrite text_fields_app by done. by rewrite He.
Qed.

Lemma X20_fix_text_without_equals_witness :
  text_fields (lit "8=FIX.4.4|55=AAPL" ++ 0x01 :: lit "|garbage||")
  = text_fields (lit "8=FIX.4.4|55=AAPL").
Proof.
  exact (proj1 (X20_fix_text_without_equals (lit "8=FIX.4.4|55=AAPL")
                  (lit "|garbage||") 0x01 eq_refl eq_refl)).
Defined.

(** X21.  Two fields with different tags can be exchanged: the
    dictionary of fields does not depend on the order in which the tags
    come. *)
Theorem X21_fix_field_order (a tag1 value1 tag2 value2 : str) (sep sep' : Z) :
  is_delimiter sep = true -> is_delimiter sep' = true ->
  str_contains 0x3D tag1 = false -> no_delimiter tag1 = true ->
  no_delimiter value1 = true ->
  str_contains 0x3D tag2 = false -> no_delimiter tag2 = true ->
  no_delimiter value2 = true ->
  tag1 <> tag2 ->
  text_fields (a ++ sep :: (tag1 ++ 0x3D :: value1) ++ sep' :: tag2 ++ 0x3D :: value2)
  = text_fields (a ++ sep :: (tag2 ++ 0x3D :: value2) ++ sep' :: tag1 ++ 0x3D :: value1).
Proof.
  intros Hsep Hsep' E1 T1 V1 E2 T2 V2 Hne.
  assert (H : forall t v t' v',
    str_contains 0x3D t = false -> no_delimiter t = true -> no_delimiter v = true ->
    str_contains 0x3D t' = false -> no_delimiter t' = true -> no_delimiter v' = true ->
    text_fields (a ++ sep :: (t ++ 0x3D :: v) ++ sep' :: t' ++ 0x3D :: v')
    = <[t' := v']> (<[t := v]> (text_fields a))).
  { intros t v t' v' Et Tt Vt Et' Tt' Vt'.
    replace (a ++ sep :: (t ++ 0x3D :: v) ++ sep' :: t' ++ 0x3D :: v')
      with ((a ++ sep :: t ++ 0x3D :: v) ++ sep' :: t' ++ 0x3D :: v')
      by by rewrite <- app_assoc.
    rewrite text_fields_app, fix_fields_from_field by done.
    by rewrite text_fields_app, fix_fields_from_field. }
  rewrite !H by done. by apply insert_insert_ne.
Qed.

Lemma X21_fix_field_order_witness :
  text_fields (lit "8=FIX.4.4|55=AAPL|54=1") = text_fields (lit "8=FIX.4.4|54=1|55=AAPL").
Proof.
  refine (X21_fix_field_order (lit "8=FIX.4.4") (lit "55") (lit "AAPL")
            (lit "54") (lit "1") 0x7C 0x7C
            eq_refl eq_refl eq_refl eq_refl eq_refl eq_refl eq_refl eq_refl _).
  vm_compute. discriminate.
Defined.

(** X22.  The tag-value extractor sees a message through its dictionary
    of fields only: two buffers that start with [8=], are valid UTF-8 and
    have the same fields get the same answer from [parse_message],
    whatever the order of their fields, their delimiters, and the text
    they hold besides. *)
Theorem X22_fix_fields_decide (self : MessageParser) (w : world)
    (b b' : bytes) (s s' : str) :
  _detect_protocol b = ProtocolType.FIX ->
  _detect_protocol b' = ProtocolType.FIX ->
  Utf8.decode Utf8.strict b = Ret s ->
  Utf8.decode Utf8.strict b' = Ret s' ->
  text_fields s = text_fields s' ->
  parse_message self w (PyBytes b) = parse_message self w (PyBytes b').
Proof.
  intros Hp Hp' Hd Hd' Hf.
  unfold parse_message, to_bytes. cbn [bind]. rewrite Hp, Hp'.
  rewrite !dispatch_fix. unfold _parse_fix_message.
  rewrite Hd, Hd'. cbn [bind].
  fold (text_fields s). fold (text_fields s'). by rewrite Hf.
Qed.

Lemma X22_fix_fields_decide_witness :
  parse_message (MessageParser_init false) {| now := 7; recursion_depth := 900 |}
    (PyBytes (bsoh "8=FIX.4.4;35=D;55=AAPL;54=1;44=150.25;38=100;"))
  = parse_message (MessageParser_init false) {| now := 7; recursion_depth := 900 |}
      (PyBytes (bsoh "8=FIX.4.4|38=1|44=150.25|54=1|35=D;junk;55=AAPL|38=100")).
Proof.
  apply (X22_fix_fields_decide _ _ _ _
           (map Z_of_byte (bsoh "8=FIX.4.4;35=D;55=AAPL;54=1;44=150.25;38=100;"))
           (map Z_of_byte
              (bsoh "8=FIX.4.4|38=1|44=150.25|54=1|35=D;junk;55=AAPL|38=100"))).
  - vm_compute. reflexivity.
  - vm_compute. reflexivity.
  - vm_compute. reflexivity.
  - vm_compute. reflexivity.
  - vm_compute. reflexivity.
Defined.

(** ** The JSON extractor reads ten keys *)

Lemma websocket_fields_same_keys (d d' : pydict) :
  (forall k, In k websocket_keys -> dict_get d' k = dict_get d k) ->
  websocket_fields (PDict d') = websocket_fields (PDict d).
Proof.
  intros Hd.
  unfold websocket_fields, json_side, json_price_size, json_message_type,
    json_timestamp, py_get, py_contains, py_getitem, dict_mem.
  cbn [bind]. by same_key Hd.
Qed.

(** X23.  The JSON extractor sees an object through ten keys only:
    [symbol], [side], [price], [size], [bid], [ask], [bid_size],
    [ask_size], [type] and [timestamp].  Two buffers classified as JSON
    whose objects agree on these keys get the same answer from
    [parse_message], whatever other keys they hold and in whatever order
    the keys come. *)
Theorem X23_json_ten_keys (self : MessageParser) (w : world)
    (b b' : bytes) (text text' : str) (d d' : pydict) :
  _detect_protocol b = ProtocolType.WEBSOCKET_JSON ->
  _detect_protocol b' = ProtocolType.WEBSOCKET_JSON ->
  Utf8.decode Utf8.strict b = Ret text ->
  Utf8.decode Utf8.strict b' = Ret text' ->
  Json.loads (recursion_depth w) text = Ret (PDict d) ->
  Json.loads (recursion_depth w) text' = Ret (PDict d') ->
  (forall k, In k websocket_keys -> dict_get d' k = dict_get d k) ->
  parse_message self w (PyBytes b') = parse_message self w (PyBytes b).
Proof.
  intros Hp Hp' Hd Hd' Hj Hj' Hk.
  unfold parse_message, to_bytes. cbn [bind]. rewrite Hp, Hp'.
  rewrite !dispatch_json.
  rewrite (json_extract_of_fields _ b text _ Hd Hj).
  rewrite (json_extract_of_fields _ b' text' _ Hd' Hj').
  by rewrite (websocket_fields_same_keys d d' Hk).
Qed.

Lemma X23_json_ten_keys_witness :
  parse_message (MessageParser_init false) {| now := 7; recursion_depth := 900 |}
    (PyBytes (bq "{'venue':'X','size':3,'price':2.5,'symbol':'A','price':1.5}"))
  = parse_message (MessageParser_init false) {| now := 7; recursion_depth := 900 |}
      (PyBytes (bq "{'symbol':'A','price':1.5,'size':3}")).
Proof.
  apply (X23_json_ten_keys _ _
           (bq "{'symbol':'A','price':1.5,'size':3}")
           (bq "{'venue':'X','size':3,'price':2.5,'symbol':'A','price':1.5}")
           (map Z_of_byte (bq "{'symbol':'A','price':1.5,'size':3}"))
           (map Z_of_byte
              (bq "{'venue':'X','size':3,'price':2.5,'symbol':'A','price':1.5}"))
           [(lit "symbol", PStr (lit "A")); (lit "price", PFloat (Float.of_dyadic 3 (-1)));
            (lit "size", PInt 3)]
           [(lit "venue", PStr (lit "X")); (lit "size", PInt 3);
            (lit "price", PFloat (Float.of_dyadic 5 (-1)));
            (lit "symbol", PStr (lit "A"));
            (lit "price", PFloat (Float.of_dyadic 3 (-1)))]).
  - vm_compute. reflexivity.
  - vm_compute. reflexivity.
  - vm_compute. reflexivity.
  - vm_compute. reflexivity.
  - vm_compute. reflexivity.
  - vm_compute. reflexivity.
  - intros k Hk. unfold websocket_keys in Hk. cbn [In] in Hk.
    repeat (destruct Hk as [<-|Hk]; [vm_compute; reflexivity|]). destruct Hk.
Defined.

(** ** The status of a JSON message *)

(** X24.  The status of a JSON message: SUCCESS exactly when the bytes
    are valid UTF-8, the text is a JSON object, its [symbol] is a true
    value, its [side] and [type] are strings where present, and the values
    that are converted are convertible; INVALID_FORMAT otherwise.  Which
    values are converted depends on the keys: [size] is converted only
    beside [price], [bid], [ask], [bid_size] and [ask_size] only without
    [price] and when both [bid] and [ask] are there; an unconvertible
    value under a key that is not read does no harm. *)
Theorem X24_json_status (self : MessageParser) (w : world) (data : pydata)
    (b : bytes) (self' : MessageParser) (o : outcome) :
  to_bytes data = Ret b ->
  _detect_protocol b = ProtocolType.WEBSOCKET_JSON ->
  parse_message self w data = Ret (self', o) ->
  (fst o = ParseResult.SUCCESS \/ fst o = ParseResult.INVALID_FORMAT) /\
  (fst o = ParseResult.SUCCESS <->
   exists text d,
     Utf8.decode Utf8.strict b = Ret text /\
     Json.loads (recursion_depth w) text = Ret (PDict d) /\
     json_well_formed d).
Proof.
  intros Hb Hp H.
  assert (Hiff :
    (exists m0, _parse_websocket_json (recursion_depth w) b
                = Ret (ParseResult.SUCCESS, Some m0)) <->
    exists text d,
      Utf8.decode Utf8.strict b = Ret text /\
      Json.loads (recursion_depth w) text = Ret (PDict d) /\
      json_well_formed d).
  { split.
    - intros [m0 H0].
      apply json_extract_returns in H0 as [[=]|(text & j & Hd & Hj & Hw)].
      destruct j as [| | | | | |d]; try discriminate Hw.
      exists text, d. split; [done|]. split; [done|].
      apply websocket_fields_well_formed. eauto.
    - intros (text & d & Hd & Hj & Hwf).
      apply websocket_fields_well_formed in Hwf as [m Hm].
      exists m. by rewrite (json_extract_of_fields _ b text _ Hd Hj), Hm. }
  rewrite <- Hiff. clear Hiff.
  apply parse_message_inv in H as (b' & Hb' & H).
  rewrite Hb in Hb'. injection Hb' as <-.
  rewrite Hp, dispatch_json in H.
  destruct H as [H|[H|H]].
  - by destruct H as ([=] & _).
  - destruct H as (_ & m0 & Hd & -> & _).
    apply bind_Ret_inv in Hd as (o' & Ho' & [= ->]).
    split; [by left|]. split; [eauto|done].
  - destruct H as (_ & -> & _ & Hd). split; [by right|].
    split; [done|]. intros [m0 Hm0]. rewrite Hm0 in Hd.
    destruct Hd as [[=]|[e [=]]].
Qed.

Lemma X24_json_status_witness :
  exists self' o,
    parse_message (MessageParser_init false) {| now := 7; recursion_depth := 900 |}
      (PyBytes (bq "{'symbol':'A','size':'many','bid':null}")) = Ret (self', o) /\
    fst o = ParseResult.SUCCESS /\
    exists text d,
      Utf8.decode Utf8.strict (bq "{'symbol':'A','size':'many','bid':null}")
        = Ret text /\
      Json.loads 900 text = Ret (PDict d) /\ json_well_formed d.
Proof.
  eexists. eexists. split; [vm_compute; reflexivity|].
  split; [reflexivity|].
  exact (proj1 (proj2 (X24_json_status (MessageParser_init false)
           {| now := 7; recursion_depth := 900 |}
           (PyBytes (bq "{'symbol':'A','size':'many','bid':null}"))
           _ _ _ eq_refl eq_refl eq_refl)) eq_refl).
Defined.

(** ** Text arguments *)

Lemma encode_fix_header (rest : str) (b : bytes) :
  Utf8.encode (0x38 :: 0x3D :: rest) = Ret b ->
  _detect_protocol b = ProtocolType.FIX.
Proof.
  cbn [Utf8.encode].
  change (Utf8.is_surrogate 56) with false. change (Utf8.is_surrogate 61) with false.
  cbv iota. destruct (Utf8.encode rest) as [out|e]; cbn [bind]; [|discriminate].
  by intros [= <-].
Qed.

(** X25.  For text arguments: two texts of Unicode code points that start
    with [8=], that [encode('utf-8')] accepts and that have the same
    dictionary of fields get the same answer from [parse_message]. *)
Theorem X25_fix_text_decided_by_fields (self : MessageParser) (w : world)
    (rest rest' : str) (b b' : bytes) :
  forallb is_code_point rest = true ->
  forallb is_code_point rest' = true ->
  Utf8.encode (0x38 :: 0x3D :: rest) = Ret b ->
  Utf8.encode (0x38 :: 0x3D :: rest') = Ret b' ->
  text_fields (0x38 :: 0x3D :: rest) = text_fields (0x38 :: 0x3D :: rest') ->
  parse_message self w (PyStr (0x38 :: 0x3D :: rest))
  = parse_message self w (PyStr (0x38 :: 0x3D :: rest')).
Proof.
  intros Hs Hs' Hb Hb' Hf.
  pose proof (encode_decode (0x38 :: 0x3D :: rest) b Hs Hb) as Hd.
  pose proof (encode_decode (0x38 :: 0x3D :: rest') b' Hs' Hb') as Hd'.
  unfold parse_message, to_bytes. rewrite Hb, Hb'. cbn [bind].
  rewrite (encode_fix_header _ _ Hb), (encode_fix_header _ _ Hb').
  rewrite !dispatch_fix. unfold _parse_fix_message.
  rewrite Hd, Hd'. cbn [bind].
  fold (text_fields (0x38 :: 0x3D :: rest)).
  fold (text_fields (0x38 :: 0x3D :: rest')). by rewrite Hf.
Qed.

Lemma X25_fix_text_decided_by_fields_witness :
  parse_message (MessageParser_init false) {| now := 7; recursion_depth := 900 |}
    (PyStr (lit "8=FIX.4.4|55=AAPL|54=1"))
  = parse_message (MessageParser_init false) {| now := 7; recursion_depth := 900 |}
      (PyStr (lit "8=FIX.4.4|54=1|55=AAPL|")).
Proof.
  apply (X25_fix_text_decided_by_fields _ _
           (lit "FIX.4.4|55=AAPL|54=1") (lit "FIX.4.4|54=1|55=AAPL|")
           (blit "8=FIX.4.4|55=AAPL|54=1") (blit "8=FIX.4.4|54=1|55=AAPL|")).
  - vm_compute. reflexivity.
  - vm_compute. reflexivity.
  - vm_compute. reflexivity.
  - vm_compute. reflexivity.
  - vm_compute. reflexivity.
Defined.

(** ** What a tag and a value never hold *)

Lemma str_replace_no_soh (s : str) :
  str_contains 0x01 (str_replace 0x01 0x7C s) = false.
Proof.
  unfold str_contains, str_replace. induction s as [|c s IH]; [done|].
  cbn [map existsb]. rewrite IH, orb_false_r.
  destruct (Z.eqb_spec c 1) as [->|Hc]; [done|]. by apply Z.eqb_neq.
Qed.

Lemma str_split_pieces (sep other : Z) (s : str) :
  str_contains other s = false ->
  Forall (fun p => str_contains sep p = false /\ str_contains other p = false)
    (str_split sep s).
Proof.
  unfold str_contains. induction s as [|c s IH]; cbn [existsb str_split].
  - by repeat constructor.
  - intros H. apply orb_false_iff in H as [Hc Hs]. specialize (IH Hs).
    destruct (Z.eqb_spec c sep) as [->|Hne]; [by constructor|].
    assert (Hsep : (sep =? c) = false) by (apply Z.eqb_neq; congruence).
    destruct (str_split sep s) as [|p ps].
    + constructor; [|constructor]. cbn [existsb]. by rewrite Hsep, Hc.
    + inversion IH as [|? ? [Hp1 Hp2] Hps]; subst. constructor; [|done].
      cbn [existsb]. by rewrite Hsep, Hc, Hp1, Hp2.
Qed.

Lemma str_split_once_parts (sep : Z) (P : Z -> bool) (p : str) :
  forallb P p = true ->
  forallb P (fst (str_split_once sep p)) = true /\
  forallb P (snd (str_split_once sep p)) = true /\
  str_contains sep (fst (str_split_once sep p)) = false.
Proof.
  unfold str_contains. induction p as [|c p IH]; [done|].
  cbn [forallb str_split_once]. intros H. apply andb_true_iff in H as [Hc Hp].
  destruct (Z.eqb_spec c sep) as [->|Hne]; [done|].
  destruct (IH Hp) as (I1 & I2 & I3).
  destruct (str_split_once sep p) as [t v]. cbn [fst snd forallb existsb] in *.
  rewrite Hc, I1, I2, I3.
  by rewrite (proj2 (Z.eqb_neq sep c)) by congruence.
Qed.

Lemma no_delimiter_forallb (s : str) :
  no_delimiter s = forallb (fun c => negb (is_delimiter c)) s.
Proof.
  unfold no_delimiter, str_contains, is_delimiter.
  induction s as [|c s IH]; [done|]. cbn [existsb forallb]. rewrite <- IH.
  rewrite (Z.eqb_sym 1 c), (Z.eqb_sym 124 c).
  destruct (c =? 1), (c =? 124), (existsb (Z.eqb 1) s), (existsb (Z.eqb 124) s);
    done.
Qed.

Lemma fix_fields_from_clean (pairs : list str) :
  Forall (fun p => no_delimiter p = true) pairs ->
  forall fields : gmap str str,
    map_Forall (fun tag value =>
      str_contains 0x3D tag = false /\
      no_delimiter tag = true /\ no_delimiter value = true) fields ->
    map_Forall (fun tag value =>
      str_contains 0x3D tag = false /\
      no_delimiter tag = true /\ no_delimiter value = true)
      (fix_fields_from fields pairs).
Proof.
  induction 1 as [|p ps Hp _ IH]; intros fields Hf; [done|].
  unfold fix_fields_from. cbn [fold_left]. apply IH.
  destruct (str_contains 0x3D p); [|done].
  rewrite no_delimiter_forallb in Hp.
  destruct (str_split_once_parts 0x3D _ p Hp) as (H1 & H2 & H3).
  destruct (str_split_once 0x3D p) as [tag value]. cbn [fst snd] in *.
  apply map_Forall_insert_2; [|done].
  by rewrite !no_delimiter_forallb.
Qed.

(** X26.  What the parser reads from a tag-value message never holds a
    delimiter: in the dictionary of fields no tag and no value contains
    the control character 0x01 or a vertical bar, and no tag contains
    [=].  A value that was sent with a vertical bar in it is never seen
    whole. *)
Theorem X26_fix_fields_hold_no_delimiter (data : bytes) (tag value : str) :
  fix_tag data tag = Some value ->
  str_contains 0x3D tag = false /\
  no_delimiter tag = true /\ no_delimiter value = true.
Proof.
  unfold fix_tag. destruct (Utf8.decode Utf8.strict data) as [s|e]; [|done].
  intros H.
  refine (fix_fields_from_clean
            (str_split 0x7C (str_replace 0x01 0x7C s)) _ ∅ _ tag value H).
  - pose proof (str_split_pieces 0x7C 0x01 _ (str_replace_no_soh s)) as Hp.
    eapply Forall_impl; [exact Hp|].
    intros p [H1 H2]. unfold no_delimiter. by rewrite H1, H2.
  - apply map_Forall_empty.
Qed.

Lemma X26_fix_fields_hold_no_delimiter_witness :
  fix_tag (bsoh "8=FIX.4.4;55=AB|CD;58=a=b;") (lit "58") = Some (lit "a=b") /\
  no_delimiter (lit "a=b") = true.
Proof.
  assert (H : fix_tag (bsoh "8=FIX.4.4;55=AB|CD;58=a=b;") (lit "58")
              = Some (lit "a=b")) by (vm_compute; reflexivity).
  split; [exact H|].
  exact (proj2 (proj2 (X26_fix_fields_hold_no_delimiter _ _ _ H))).
Defined.
